(** * Micro-lending risk platform: scoring formulas, the banking API and
      the population / literacy lookup agents.

    The development embeds the Python sources shallowly:

    - the score columns computed by [calculate_comprehensive_risk_scores]
      (comprehensive_excel_generator.py, excel_based_data_generator.py), the
      per-borrower score of generate_sample_data.py and [categorize_risk] of
      generate_enhanced_data.py;
    - the risk endpoints of banking_intelligence_api.py, the body of a
      POST being any JSON value;
    - the risk components, the stored borrower fields and the loan amount of
      generate_enhanced_data.py;
    - ai_agent_population.py and literacy_agent.py, with the HTTP world as an
      explicit state and Python exceptions as an error result.

    Python floats are modelled as exact rationals ([Q]); rounding of IEEE
    doubles is not modelled.  Python [str] values are modelled as [string],
    i.e. sequences of 8-bit code points. *)

From Stdlib Require Import QArith ZArith List String Ascii Bool Lia Lqa Qminmax.
Import ListNotations.

Open Scope Z_scope.

(* ================================================================== *)
(** ** Numeric helpers shared by the generators *)

Module Num.

(** [series.astype(int)] on a boolean series. *)
Definition astype_int (b : bool) : Z := if b then 1 else 0.

Definition Qlt_bool (x y : Q) : bool := negb (Qle_bool y x).

(** [np.clip(x, lo, hi)]. *)
Definition np_clip (x lo hi : Q) : Q := Qmin (Qmax x lo) hi.

(** Membership in the closed score interval [0, 100]. *)
Definition within_0_100 (s : Q) : Prop := (0 <= s /\ s <= 100)%Q.

(** Outcome of dividing two integer columns ([a / b] on int64 series gives
    float64): a finite quotient, or, for a zero divisor, an infinity or NaN. *)
Inductive fdiv : Type :=
| Fin (q : Q)
| PInf
| NInf
| NaN.

Definition series_div (a b : Z) : fdiv :=
  if b =? 0 then
    (if 0 <? a then PInf else if a <? 0 then NInf else NaN)
  else Fin (inject_Z a / inject_Z b).

(** [x * k] for a positive finite constant [k]. *)
Definition fmul_pos (x : fdiv) (k : Q) : fdiv :=
  match x with
  | Fin q => Fin (q * k)
  | other => other
  end.

(** [x < c] and [x > c] against a finite constant; NaN compares false. *)
Definition flt (x : fdiv) (c : Q) : bool :=
  match x with
  | Fin q => Qlt_bool q c
  | NInf => true
  | PInf | NaN => false
  end.

Definition fgt (x : fdiv) (c : Q) : bool :=
  match x with
  | Fin q => Qlt_bool c q
  | PInf => true
  | NInf | NaN => false
  end.

(** [sum(w_i * x_i)], the fixed-weight linear combination. *)
Fixpoint weighted_sum (ws xs : list Q) : Q :=
  match ws, xs with
  | w :: ws', x :: xs' => x * w + weighted_sum ws' xs'
  | _, _ => 0
  end.

(** [pd.cut(x, bins, labels, right=True)]: the label of the first bin
    [(lo, hi]] holding [x]; no label (NaN) outside every bin. *)
Fixpoint cut_right (lo : Q) (edges : list Q) (labels : list string) (x : Q)
  : option string :=
  match edges, labels with
  | hi :: es, l :: ls =>
      if Qlt_bool lo x && Qle_bool x hi then Some l else cut_right hi es ls x
  | _, _ => None
  end.

Definition pd_cut (x : Q) (bins : list Q) (labels : list string)
           (include_lowest : bool) : option string :=
  match bins with
  | [] => None
  | b0 :: es =>
      if include_lowest && Qeq_bool x b0 then hd_error labels
      else cut_right b0 es labels x
  end.

End Num.

(* ================================================================== *)
(** ** comprehensive_excel_generator.py *)

Module ComprehensiveExcelGenerator.
Import Num.

(** The columns of a borrower row read by the scoring function. *)
Record borrower : Type := {
  age : Z;
  education_level : string;
  family_size : Z;
  years_in_location : Z;
  monthly_income : Z;
  requested_loan_amount : Z;
  monthly_expenses : Z;
  has_bank_account : bool;
  existing_loans : Z;
  previous_defaults : Z;
  savings_amount : Z;
  credit_score : option Z;
  owns_house : bool;
  house_type : string;
  owns_land : bool;
  owns_vehicle : bool;
  collateral_offered : bool;
  collateral_value : Z;
  guarantor_available : bool;
  shg_member : bool;
  mobile_ownership : bool;
  aadhaar_linked : bool;
  seasonal_migration : bool;
  financial_literacy_score : Z;
  community_reputation : string;
  local_leader_recommendation : bool;
  electricity_connection : bool;
  water_source : string;
  toilet_facility : bool;
  road_connectivity : string;
  internet_usage : bool;
  market_access_score : Z;
  pan_card : bool;
  insurance_life : bool;
  insurance_health : bool;
  credit_history_length : Z;
  voter_id : bool
}.

Definition demo_risk (b : borrower) : Z :=
  astype_int (60 <? age b) * 12 +
  astype_int (age b <? 25) * 8 +
  astype_int (String.eqb (education_level b) "Illiterate") * 20 +
  astype_int (7 <? family_size b) * 10 +
  astype_int (years_in_location b <? 3) * 12.

Definition income_loan_ratio (b : borrower) : fdiv :=
  fmul_pos (series_div (monthly_income b) (requested_loan_amount b)) 1000.

Definition expense_ratio (b : borrower) : fdiv :=
  series_div (monthly_expenses b) (monthly_income b).

(** [(credit_score.fillna(0) < 600) & credit_score.notna()]. *)
Definition low_credit_score (b : borrower) : bool :=
  match credit_score b with
  | Some s => (s <? 600) && true
  | None => (0 <? 600) && false
  end.

Definition financial_risk (b : borrower) : Z :=
  astype_int (flt (income_loan_ratio b) 6) * 25 +
  astype_int (fgt (expense_ratio b) 0.85) * 20 +
  astype_int (negb (has_bank_account b)) * 15 +
  astype_int (2 <? existing_loans b) * 20 +
  astype_int (0 <? previous_defaults b) * 35 +
  astype_int (savings_amount b <? monthly_income b) * 10 +
  astype_int (low_credit_score b) * 15.

Definition asset_risk (b : borrower) : Z :=
  astype_int (negb (owns_house b)) * 12 +
  astype_int (String.eqb (house_type b) "Kutcha") * 8 +
  astype_int (negb (owns_land b)) * 15 +
  astype_int (negb (owns_vehicle b)) * 8 +
  astype_int (negb (collateral_offered b)) * 18 +
  astype_int (collateral_value b <? requested_loan_amount b) * 15 +
  astype_int (negb (guarantor_available b)) * 10.

Definition social_risk (b : borrower) : Z :=
  astype_int (negb (shg_member b)) * 15 +
  astype_int (negb (mobile_ownership b)) * 12 +
  astype_int (negb (aadhaar_linked b)) * 10 +
  astype_int (seasonal_migration b) * 18 +
  astype_int (financial_literacy_score b <? 5) * 12 +
  astype_int (String.eqb (community_reputation b) "Poor") * 20 +
  astype_int (negb (local_leader_recommendation b)) * 8.

Definition isin (s : string) (l : list string) : bool :=
  existsb (String.eqb s) l.

Definition infrastructure_risk (b : borrower) : Z :=
  astype_int (negb (electricity_connection b)) * 15 +
  astype_int (isin (water_source b) ["Hand Pump"; "Public Tap"]%string) * 10 +
  astype_int (negb (toilet_facility b)) * 8 +
  astype_int (String.eqb (road_connectivity b) "Mud") * 12 +
  astype_int (negb (internet_usage b)) * 8 +
  astype_int (market_access_score b <? 5) * 10.

Definition doc_risk (b : borrower) : Z :=
  astype_int (negb (pan_card b)) * 20 +
  astype_int (negb (insurance_life b)) * 10 +
  astype_int (negb (insurance_health b)) * 12 +
  astype_int (credit_history_length b =? 0) * 25 +
  astype_int (negb (voter_id b)) * 5.

(** A row of the dataframe after the score columns have been added. *)
Record scored : Type := {
  row : borrower;
  demographic_risk_score : Q;
  financial_risk_score : Q;
  asset_collateral_risk_score : Q;
  social_digital_risk_score : Q;
  infrastructure_risk_score : Q;
  documentation_risk_score : Q;
  overall_risk_score : Q;
  risk_category : option string;
  default_probability : Q;
  recommended_interest_rate : Q
}.

Definition bins : list Q := [0; 20; 40; 65; 100]%Q.
Definition labels : list string :=
  ["Low Risk"; "Medium Risk"; "High Risk"; "Very High Risk"]%string.

Definition score_row (b : borrower) : scored :=
  let d := np_clip (inject_Z (demo_risk b) * 0.18) 0 100 in
  let f := np_clip (inject_Z (financial_risk b) * 0.25) 0 100 in
  let a := np_clip (inject_Z (asset_risk b) * 0.22) 0 100 in
  let s := np_clip (inject_Z (social_risk b) * 0.15) 0 100 in
  let i := np_clip (inject_Z (infrastructure_risk b) * 0.12) 0 100 in
  let c := np_clip (inject_Z (doc_risk b) * 0.08) 0 100 in
  let overall :=
    (d * 0.18 + f * 0.25 + a * 0.22 + s * 0.15 + i * 0.12 + c * 0.08)%Q in
  {| row := b;
     demographic_risk_score := d;
     financial_risk_score := f;
     asset_collateral_risk_score := a;
     social_digital_risk_score := s;
     infrastructure_risk_score := i;
     documentation_risk_score := c;
     overall_risk_score := overall;
     risk_category := pd_cut overall bins labels true;
     default_probability := np_clip (overall / 100 * 0.25) 0 1;
     recommended_interest_rate := (12 + (overall / 100) * 8)%Q |}.

(** The dataframe is a list of rows; the column assignments act row-wise. *)
Definition calculate_comprehensive_risk_scores (df : list borrower)
  : list scored := map score_row df.

Definition component_scores (r : scored) : list Q :=
  [ demographic_risk_score r; financial_risk_score r;
    asset_collateral_risk_score r; social_digital_risk_score r;
    infrastructure_risk_score r; documentation_risk_score r ].

Definition weights : list Q := [0.18; 0.25; 0.22; 0.15; 0.12; 0.08]%Q.

End ComprehensiveExcelGenerator.

(* ================================================================== *)
(** ** excel_based_data_generator.py *)

Module ExcelBasedDataGenerator.
Import Num.

Record borrower : Type := {
  age : Z;
  education_level : string;
  family_size : Z;
  years_in_location : Z;
  monthly_income : Z;
  requested_loan_amount : Z;
  monthly_expenses : Z;
  has_bank_account : bool;
  existing_loans : Z;
  previous_defaults : Z;
  savings_amount : Z;
  owns_land : bool;
  owns_vehicle : bool;
  electricity_access : bool;
  road_connectivity : string;
  internet_access : bool;
  collateral_value : Z;
  shg_member : bool;
  mobile_ownership : bool;
  aadhaar_linked : bool;
  seasonal_migration : bool;
  financial_literacy_score : Z;
  pan_card : bool;
  insurance_coverage : bool;
  credit_history_length : Z
}.

Definition demo_risk (b : borrower) : Z :=
  astype_int (55 <? age b) * 15 +
  astype_int (String.eqb (education_level b) "Illiterate") * 20 +
  astype_int (6 <? family_size b) * 10 +
  astype_int (years_in_location b <? 2) * 15.

Definition income_to_loan_ratio (b : borrower) : fdiv :=
  fmul_pos (series_div (monthly_income b) (requested_loan_amount b)) 1000.

Definition expense_ratio (b : borrower) : fdiv :=
  series_div (monthly_expenses b) (monthly_income b).

Definition financial_risk (b : borrower) : Z :=
  astype_int (flt (income_to_loan_ratio b) 5) * 25 +
  astype_int (fgt (expense_ratio b) 0.8) * 20 +
  astype_int (negb (has_bank_account b)) * 15 +
  astype_int (1 <? existing_loans b) * 20 +
  astype_int (0 <? previous_defaults b) * 30 +
  astype_int (savings_amount b <? monthly_income b) * 10.

Definition asset_risk (b : borrower) : Z :=
  astype_int (negb (owns_land b)) * 15 +
  astype_int (negb (owns_vehicle b)) * 10 +
  astype_int (negb (electricity_access b)) * 15 +
  astype_int (String.eqb (road_connectivity b) "Mud") * 15 +
  astype_int (negb (internet_access b)) * 10 +
  astype_int (collateral_value b <? requested_loan_amount b) * 20.

Definition social_risk (b : borrower) : Z :=
  astype_int (negb (shg_member b)) * 15 +
  astype_int (negb (mobile_ownership b)) * 10 +
  astype_int (negb (aadhaar_linked b)) * 10 +
  astype_int (seasonal_migration b) * 20 +
  astype_int (financial_literacy_score b <? 5) * 15.

Definition doc_risk (b : borrower) : Z :=
  astype_int (negb (pan_card b)) * 20 +
  astype_int (negb (insurance_coverage b)) * 10 +
  astype_int (credit_history_length b =? 0) * 25.

Record scored : Type := {
  row : borrower;
  demographic_risk_score : Q;
  financial_risk_score : Q;
  asset_infrastructure_risk_score : Q;
  social_behavioral_risk_score : Q;
  documentation_risk_score : Q;
  overall_risk_score : Q;
  risk_category : option string
}.

Definition bins : list Q := [0; 25; 50; 75; 100]%Q.
Definition labels : list string :=
  ["Low Risk"; "Medium Risk"; "High Risk"; "Very High Risk"]%string.

Definition score_row (b : borrower) : scored :=
  let d := np_clip (inject_Z (demo_risk b) * 0.2) 0 100 in
  let f := np_clip (inject_Z (financial_risk b) * 0.3) 0 100 in
  let a := np_clip (inject_Z (asset_risk b) * 0.25) 0 100 in
  let s := np_clip (inject_Z (social_risk b) * 0.15) 0 100 in
  let c := np_clip (inject_Z (doc_risk b) * 0.1) 0 100 in
  let overall := (d * 0.2 + f * 0.3 + a * 0.25 + s * 0.15 + c * 0.1)%Q in
  {| row := b;
     demographic_risk_score := d;
     financial_risk_score := f;
     asset_infrastructure_risk_score := a;
     social_behavioral_risk_score := s;
     documentation_risk_score := c;
     overall_risk_score := overall;
     risk_category := pd_cut overall bins labels false |}.

Definition calculate_comprehensive_risk_scores (df : list borrower)
  : list scored := map score_row df.

Definition component_scores (r : scored) : list Q :=
  [ demographic_risk_score r; financial_risk_score r;
    asset_infrastructure_risk_score r; social_behavioral_risk_score r;
    documentation_risk_score r ].

Definition weights : list Q := [0.2; 0.3; 0.25; 0.15; 0.1]%Q.

End ExcelBasedDataGenerator.

(* ================================================================== *)
(** ** generate_sample_data.py *)

Module GenerateSampleData.
Import Num.

(** [random.choice(["none", "primary", "secondary", "higher"])]. *)
Inductive education : Type := none | primary | secondary | higher.

(** The values drawn for one borrower that the score depends on:
    [np.random.randint(18, 65)], [np.random.randint(10000, 150000)],
    the education choice and [np.random.uniform(0, 10)]. *)
Record draws : Type := {
  age : Z;
  income : Z;
  edu : education;
  credit_history : Q
}.

Definition in_range (d : draws) : Prop :=
  18 <= age d < 65 /\ 10000 <= income d < 150000 /\
  (0 <= credit_history d /\ credit_history d < 10)%Q.

Definition age_risk (d : draws) : Q :=
  if (25 <=? age d) && (age d <=? 45) then 0.5 else 0.8.

Definition income_risk (d : draws) : Q :=
  Qmax 0 (1 - inject_Z (income d) / 150000).

Definition education_risk (d : draws) : Q :=
  match edu d with
  | none => 1.0
  | primary => 0.7
  | secondary => 0.4
  | higher => 0.2
  end.

Definition credit_risk (d : draws) : Q :=
  Qmax 0 (1 - credit_history d / 10).

(** [risk_factors.values()], in insertion order. *)
Definition risk_factors (d : draws) : list Q :=
  [age_risk d; income_risk d; education_risk d; credit_risk d].

Definition sum (l : list Q) : Q := fold_left Qplus l 0%Q.

Definition overall_risk (d : draws) : Q :=
  sum (risk_factors d) / inject_Z (Z.of_nat (List.length (risk_factors d))).

Definition risk_category_of (overall : Q) : string :=
  if Qle_bool overall 0.2 then "Very Low"
  else if Qle_bool overall 0.4 then "Low"
  else if Qle_bool overall 0.6 then "Medium"
  else if Qle_bool overall 0.8 then "High"
  else "Very High".

(** The two score fields of the borrower dict. *)
Record borrower : Type := {
  overall_risk_score : Q;
  risk_category : string
}.

Definition make_borrower (d : draws) : borrower :=
  {| overall_risk_score := overall_risk d;
     risk_category := risk_category_of (overall_risk d) |}.

(** One borrower per tuple of draws, in generation order. *)
Definition generate_sample_data (ds : list draws) : list borrower :=
  map make_borrower ds.

End GenerateSampleData.

(* ================================================================== *)
(** ** generate_enhanced_data.py *)

Module GenerateEnhancedData.
Import Num.

Definition categorize_risk (score : Q) : string :=
  if Qle_bool score 0.2 then "Very Low"
  else if Qle_bool score 0.4 then "Low"
  else if Qle_bool score 0.6 then "Medium"
  else if Qle_bool score 0.8 then "High"
  else "Very High".

End GenerateEnhancedData.

(* ================================================================== *)
(** ** Python control flow: exceptions over an explicit program state *)

Module Py.

(** An exception, identified with its message [str(e)]. *)
Definition exn : Type := string.

Inductive result (A : Type) : Type :=
| Ok (a : A)
| Raise (e : exn).
Arguments Ok {A} a.
Arguments Raise {A} e.

(** A computation over the program state [S] that returns or raises. *)
Definition M (S A : Type) : Type := S -> S * result A.

Definition ret {S A : Type} (a : A) : M S A := fun s => (s, Ok a).

Definition raise {S A : Type} (e : exn) : M S A := fun s => (s, Raise e).

Definition bind {S A B : Type} (m : M S A) (k : A -> M S B) : M S B :=
  fun s =>
    match m s with
    | (s', Ok a) => k a s'
    | (s', Raise e) => (s', Raise e)
    end.

(** The body of a [try] block: its outcome is handed to the code after
    the block, which plays the [except Exception as e] clause on [Raise e]. *)
Definition attempt {S A : Type} (m : M S A) : M S (result A) :=
  fun s => let (s', r) := m s in (s', Ok r).

(** A pure step that returns or raises, run inside a computation. *)
Definition lift {S A : Type} (r : result A) : M S A := fun s => (s, r).

(** A Python float: a finite value (an exact rational here), an infinity
    or nan. *)
Inductive pyfloat : Type :=
| Finite (q : Q)
| Infinity (negative : bool)
| NaN.

(** Python values stored in result records. *)
Inductive value : Type :=
| VNone
| VStr (s : string)
| VInt (z : Z)
| VFloat (q : Q).

Definition of_option {A : Type} (f : A -> value) (o : option A) : value :=
  match o with
  | Some a => f a
  | None => VNone
  end.

End Py.

Declare Scope py_scope.
Delimit Scope py_scope with py.
Notation "x <- m ;; k" := (Py.bind m (fun x => k))
  (at level 61, m at next level, right associativity) : py_scope.

(* ================================================================== *)
(** ** JSON values as Python holds them after parsing *)

Module Json.
Import Py.
Local Open Scope string_scope.

(** [None], [bool], [int], [float], [str], [list] and [dict]; the members
    of an object are listed in document order. *)
#[warnings="-register-all"]
Inductive json : Type :=
| JNull
| JBool (b : bool)
| JInt (z : Z)
| JFloat (q : Q)
| JString (s : string)
| JArray (items : list json)
| JObject (members : list (string * json)).

(** The value bound to a key of a parsed object; of several members with
    the same key the parser keeps the last. *)
Fixpoint member (key : string) (members : list (string * json))
  : option json :=
  match members with
  | [] => None
  | (k, v) :: rest =>
      match member key rest with
      | Some v' => Some v'
      | None => if String.eqb key k then Some v else None
      end
  end.

(** [type(v).__name__]. *)
Definition type_name (v : json) : string :=
  match v with
  | JNull => "NoneType"
  | JBool _ => "bool"
  | JInt _ => "int"
  | JFloat _ => "float"
  | JString _ => "str"
  | JArray _ => "list"
  | JObject _ => "dict"
  end.

(** [v.get(key, default)]: only a dict has the method. *)
Definition get (v : json) (key : string) (default : json) : result json :=
  match v with
  | JObject members =>
      Ok (match member key members with
          | Some x => x
          | None => default
          end)
  | _ => Raise ("'" ++ type_name v ++ "' object has no attribute 'get'")
  end.

(** Whether [hash(v)] succeeds: lists and dicts are unhashable. *)
Definition hashable (v : json) : bool :=
  match v with
  | JArray _ | JObject _ => false
  | _ => true
  end.

End Json.

(* ================================================================== *)
(** ** banking_intelligence_api.py *)

Module BankingIntelligenceAPI.
Import Py Json.

(** The values that [get_current_parameters] obtains from [random] and
    from the clock and that the two risk endpoints depend on.  The
    remaining fields of the parameter dict do not reach those endpoints'
    risk fields and are left out. *)
Record draws : Type := {
  base_draw : Z;            (* random.randint(25, 45) *)
  current_month : Z;        (* datetime.now().month *)
  monsoon_draw : Z;         (* random.randint(-5, 10), drawn in months 6-8 *)
  climate_risk : Z;         (* random.randint(10, 40) *)
  economic_risk : Z;        (* random.randint(15, 35) *)
  social_risk : Z;          (* random.randint(5, 25) *)
  technology_risk : Z;      (* random.randint(8, 20) *)
  regulatory_risk : Z;      (* random.randint(5, 15) *)
  drought_risk_level : string;
  market_sentiment : string
}.

(** [random.randint(a, b)] returns an integer in [a, b], ends included. *)
Definition randint_ok (a b x : Z) : Prop := a <= x <= b.

Definition draws_ok (d : draws) : Prop :=
  randint_ok 25 45 (base_draw d) /\
  1 <= current_month d <= 12 /\
  randint_ok (-5) 10 (monsoon_draw d).

Definition month_in (m : Z) (l : list Z) : bool := existsb (Z.eqb m) l.

Definition _calculate_risk_score (d : draws) : Z :=
  let base_score := base_draw d in
  let base_score :=
    if month_in (current_month d) [6; 7; 8]
    then base_score + monsoon_draw d
    else base_score in
  Z.min 100 (Z.max 0 base_score).

Record risk_indicators : Type := {
  ri_overall_risk_score : Z;
  ri_climate_risk : Z;
  ri_economic_risk : Z;
  ri_social_risk : Z;
  ri_technology_risk : Z;
  ri_regulatory_risk : Z
}.

Record parameters : Type := {
  location : json;
  climate_drought_risk_level : string;
  economic_market_sentiment : string;
  indicators : risk_indicators
}.

Definition get_current_parameters (d : draws) (loc : json) : parameters :=
  {| location := loc;
     climate_drought_risk_level := drought_risk_level d;
     economic_market_sentiment := market_sentiment d;
     indicators :=
       {| ri_overall_risk_score := _calculate_risk_score d;
          ri_climate_risk := climate_risk d;
          ri_economic_risk := economic_risk d;
          ri_social_risk := social_risk d;
          ri_technology_risk := technology_risk d;
          ri_regulatory_risk := regulatory_risk d |} |}.

(** *** GET /api/risk-assessment *)

Record risk_assessment : Type := {
  overall_risk_score : Z;
  risk_breakdown : list (string * Z);
  risk_level : string
}.

Definition get_risk_assessment (d : draws) : risk_assessment :=
  let data := get_current_parameters d (JString "Tamil Nadu") in
  let ri := indicators data in
  {| overall_risk_score := ri_overall_risk_score ri;
     risk_breakdown :=
       [ ("climate_risk", ri_climate_risk ri);
         ("economic_risk", ri_economic_risk ri);
         ("social_risk", ri_social_risk ri);
         ("technology_risk", ri_technology_risk ri);
         ("regulatory_risk", ri_regulatory_risk ri) ]%string;
     risk_level :=
       if ri_overall_risk_score ri <? 30 then "Low"
       else if ri_overall_risk_score ri <? 60 then "Medium"
       else "High" |}.

(** *** POST /api/lending-recommendation *)

(** The body of the request is the value returned by
    [request.get_json()]: any JSON value.  Requests that [get_json]
    itself refuses (a body that is no JSON) do not reach the code below. *)

Definition purpose_risk : list (string * Z) :=
  [ ("Agriculture", 10); ("Business", 5); ("Personal", 15);
    ("Home", 0); ("Vehicle", 8) ]%string.

Fixpoint dict_get (m : list (string * Z)) (k : string) (default : Z) : Z :=
  match m with
  | [] => default
  | (k', v) :: m' => if String.eqb k k' then v else dict_get m' k default
  end.

(** [purpose_risk.get(loan_purpose, 10)]: the key is hashed first, which
    raises TypeError on a list or a dict; a key that is no string equals
    none of the keys of the table. *)
Definition purpose_risk_get (loan_purpose : json) (default : Z) : result Z :=
  match loan_purpose with
  | JString k => Ok (dict_get purpose_risk k default)
  | JArray _ | JObject _ =>
      Raise ("unhashable type: '" ++ type_name loan_purpose ++ "'")%string
  | _ => Ok default
  end.

Record current_environment : Type := {
  env_overall_risk : Z;
  env_climate_risk : string;
  env_economic_conditions : string
}.

Record lending_response : Type := {
  application_amount : json;
  application_purpose : json;
  application_location : json;
  recommendation : string;
  risk_score : Z;
  suggested_interest_rate : Q;
  conditions : list string;
  environment : current_environment
}.

(** An exception that leaves the view is answered with HTTP 500. *)
Definition get_lending_recommendation (d : draws) (request_data : json)
  : result lending_response :=
  match get request_data "loan_amount"%string (JInt 100000) with
  | Raise e => Raise e
  | Ok loan_amount =>
  match get request_data "location"%string (JString "Tamil Nadu") with
  | Raise e => Raise e
  | Ok borrower_location =>
  match get request_data "loan_purpose"%string (JString "Business") with
  | Raise e => Raise e
  | Ok loan_purpose =>
      let current_params := get_current_parameters d borrower_location in
      let base_risk := ri_overall_risk_score (indicators current_params) in
      match purpose_risk_get loan_purpose 10 with
      | Raise e => Raise e
      | Ok offset =>
          let adjusted_risk := base_risk + offset in
          let '(recommendation, interest_rate, conditions) :=
            if adjusted_risk <? 40 then
              ("APPROVE"%string, 10.5%Q, ["Standard terms applicable"%string])
            else if adjusted_risk <? 70 then
              ("CONDITIONAL_APPROVE"%string, 12.0%Q,
               ["Additional collateral required"; "Enhanced monitoring"]%string)
            else
              ("DEFER"%string, 14.0%Q,
               ["High risk environment";
                "Consider after risk factors improve"]%string) in
          Ok {| application_amount := loan_amount;
                application_purpose := loan_purpose;
                application_location := borrower_location;
                recommendation := recommendation;
                risk_score := adjusted_risk;
                suggested_interest_rate := interest_rate;
                conditions := conditions;
                environment :=
                  {| env_overall_risk :=
                       ri_overall_risk_score (indicators current_params);
                     env_climate_risk :=
                       climate_drought_risk_level current_params;
                     env_economic_conditions :=
                       economic_market_sentiment current_params |} |}
      end
  end end end.

(** The purpose the recommendation is computed for: the value of the key
    [loan_purpose], or the default when the key is missing. *)
Definition purpose_of (members : list (string * json)) : json :=
  match member "loan_purpose"%string members with
  | Some v => v
  | None => JString "Business"
  end.

Definition sample_draws : draws :=
  {| base_draw := 33; current_month := 7; monsoon_draw := 10;
     climate_risk := 20; economic_risk := 20; social_risk := 10;
     technology_risk := 10; regulatory_risk := 10;
     drought_risk_level := "Low"; market_sentiment := "Neutral" |}.

End BankingIntelligenceAPI.

(* ================================================================== *)
(** ** Sample rows used to exercise the scoring functions *)

Module SampleRows.

Definition comprehensive_row : ComprehensiveExcelGenerator.borrower :=
  {| ComprehensiveExcelGenerator.age := 62;
     ComprehensiveExcelGenerator.education_level := "Illiterate";
     ComprehensiveExcelGenerator.family_size := 8;
     ComprehensiveExcelGenerator.years_in_location := 2;
     ComprehensiveExcelGenerator.monthly_income := 8000;
     ComprehensiveExcelGenerator.requested_loan_amount := 75000;
     ComprehensiveExcelGenerator.monthly_expenses := 7000;
     ComprehensiveExcelGenerator.has_bank_account := false;
     ComprehensiveExcelGenerator.existing_loans := 3;
     ComprehensiveExcelGenerator.previous_defaults := 1;
     ComprehensiveExcelGenerator.savings_amount := 0;
     ComprehensiveExcelGenerator.credit_score := Some 450;
     ComprehensiveExcelGenerator.owns_house := false;
     ComprehensiveExcelGenerator.house_type := "Kutcha";
     ComprehensiveExcelGenerator.owns_land := false;
     ComprehensiveExcelGenerator.owns_vehicle := false;
     ComprehensiveExcelGenerator.collateral_offered := false;
     ComprehensiveExcelGenerator.collateral_value := 0;
     ComprehensiveExcelGenerator.guarantor_available := false;
     ComprehensiveExcelGenerator.shg_member := false;
     ComprehensiveExcelGenerator.mobile_ownership := false;
     ComprehensiveExcelGenerator.aadhaar_linked := false;
     ComprehensiveExcelGenerator.seasonal_migration := true;
     ComprehensiveExcelGenerator.financial_literacy_score := 2;
     ComprehensiveExcelGenerator.community_reputation := "Poor";
     ComprehensiveExcelGenerator.local_leader_recommendation := false;
     ComprehensiveExcelGenerator.electricity_connection := false;
     ComprehensiveExcelGenerator.water_source := "Hand Pump";
     ComprehensiveExcelGenerator.toilet_facility := false;
     ComprehensiveExcelGenerator.road_connectivity := "Mud";
     ComprehensiveExcelGenerator.internet_usage := false;
     ComprehensiveExcelGenerator.market_access_score := 1;
     ComprehensiveExcelGenerator.pan_card := false;
     ComprehensiveExcelGenerator.insurance_life := false;
     ComprehensiveExcelGenerator.insurance_health := false;
     ComprehensiveExcelGenerator.credit_history_length := 0;
     ComprehensiveExcelGenerator.voter_id := false |}.

Definition excel_based_row : ExcelBasedDataGenerator.borrower :=
  {| ExcelBasedDataGenerator.age := 30;
     ExcelBasedDataGenerator.education_level := "Secondary";
     ExcelBasedDataGenerator.family_size := 4;
     ExcelBasedDataGenerator.years_in_location := 10;
     ExcelBasedDataGenerator.monthly_income := 20000;
     ExcelBasedDataGenerator.requested_loan_amount := 50000;
     ExcelBasedDataGenerator.monthly_expenses := 15000;
     ExcelBasedDataGenerator.has_bank_account := true;
     ExcelBasedDataGenerator.existing_loans := 0;
     ExcelBasedDataGenerator.previous_defaults := 0;
     ExcelBasedDataGenerator.savings_amount := 30000;
     ExcelBasedDataGenerator.owns_land := true;
     ExcelBasedDataGenerator.owns_vehicle := false;
     ExcelBasedDataGenerator.electricity_access := true;
     ExcelBasedDataGenerator.road_connectivity := "Paved";
     ExcelBasedDataGenerator.internet_access := true;
     ExcelBasedDataGenerator.collateral_value := 60000;
     ExcelBasedDataGenerator.shg_member := true;
     ExcelBasedDataGenerator.mobile_ownership := true;
     ExcelBasedDataGenerator.aadhaar_linked := true;
     ExcelBasedDataGenerator.seasonal_migration := false;
     ExcelBasedDataGenerator.financial_literacy_score := 7;
     ExcelBasedDataGenerator.pan_card := true;
     ExcelBasedDataGenerator.insurance_coverage := true;
     ExcelBasedDataGenerator.credit_history_length := 3 |}.

Definition sample_draws : GenerateSampleData.draws :=
  {| GenerateSampleData.age := 30;
     GenerateSampleData.income := 60000;
     GenerateSampleData.edu := GenerateSampleData.secondary;
     GenerateSampleData.credit_history := 5 |}.

End SampleRows.

(* ================================================================== *)
(** ** Python string operations used by the agents

    A Python [str] is a [string]; its characters are 8-bit code points, so
    the character classes below are Python's restricted to code points
    below 256. *)

Module PyStr.
Local Open Scope string_scope.

Definition code (c : ascii) : nat := nat_of_ascii c.

(** [str.isspace] / the regex class [\s]: TAB..CR, FS..US, space, NEL and
    the no-break space. *)
Definition isspace (c : ascii) : bool :=
  let n := code c in
  ((9 <=? n) && (n <=? 13) || (28 <=? n) && (n <=? 32)
   || (n =? 133) || (n =? 160))%nat.

(** The regex class [\d]. *)
Definition isdigit (c : ascii) : bool :=
  let n := code c in ((48 <=? n) && (n <=? 57))%nat.

Definition islower_az (c : ascii) : bool :=
  let n := code c in ((97 <=? n) && (n <=? 122))%nat.

(** [str.lower] on one character: A-Z and the Latin-1 capitals. *)
Definition lower_char (c : ascii) : ascii :=
  let n := code c in
  if ((65 <=? n) && (n <=? 90)
      || (192 <=? n) && (n <=? 222) && negb (n =? 215))%nat
  then ascii_of_nat (n + 32) else c.

Fixpoint lower (s : string) : string :=
  match s with
  | EmptyString => EmptyString
  | String c s' => String (lower_char c) (lower s')
  end.

Fixpoint filter (p : ascii -> bool) (s : string) : string :=
  match s with
  | EmptyString => EmptyString
  | String c s' => if p c then String c (filter p s') else filter p s'
  end.

(** [s.replace(c, empty)] for a one-character [c]. *)
Definition remove_char (c : ascii) (s : string) : string :=
  filter (fun x => negb (Ascii.eqb x c)) s.

Fixpoint forallb (p : ascii -> bool) (s : string) : bool :=
  match s with
  | EmptyString => true
  | String c s' => p c && forallb p s'
  end.

Definition is_empty (s : string) : bool :=
  match s with
  | EmptyString => true
  | String _ _ => false
  end.

(** [s.lstrip()], [s.rstrip()], [s.strip()]. *)
Fixpoint lstrip (s : string) : string :=
  match s with
  | EmptyString => EmptyString
  | String c s' => if isspace c then lstrip s' else s
  end.

Fixpoint rstrip (s : string) : string :=
  match s with
  | EmptyString => EmptyString
  | String c s' =>
      let r := rstrip s' in
      if isspace c && is_empty r then EmptyString else String c r
  end.

Definition strip (s : string) : string := rstrip (lstrip s).

(** [s.lstrip(c)] for a one-character [c]. *)
Fixpoint lstrip_char (c : ascii) (s : string) : string :=
  match s with
  | EmptyString => EmptyString
  | String x s' => if Ascii.eqb x c then lstrip_char c s' else s
  end.

(** [s.split(c)[0]]: the text before the first [c]. *)
Fixpoint before_char (c : ascii) (s : string) : string :=
  match s with
  | EmptyString => EmptyString
  | String x s' => if Ascii.eqb x c then EmptyString
                   else String x (before_char c s')
  end.

(** [needle in hay]. *)
Fixpoint contains (needle hay : string) : bool :=
  String.prefix needle hay ||
  match hay with
  | EmptyString => false
  | String _ hay' => contains needle hay'
  end.

(** [s.split()]: the maximal runs of non-space characters; [cur] is the
    run being read. *)
Fixpoint split_go (cur : string) (s : string) : list string :=
  match s with
  | EmptyString => if is_empty cur then [] else [cur]
  | String c s' =>
      if isspace c then
        (if is_empty cur then split_go EmptyString s'
         else cur :: split_go EmptyString s')
      else split_go (cur ++ String c EmptyString) s'
  end.

Definition split (s : string) : list string := split_go EmptyString s.

(** [sep.join(parts)]. *)
Definition join (sep : string) (parts : list string) : string :=
  String.concat sep parts.

(** [re.sub(r"\s+", " ", s)]; [in_run] tells whether the previous
    character was already part of the run being replaced. *)
Fixpoint collapse_spaces_go (in_run : bool) (s : string) : string :=
  match s with
  | EmptyString => EmptyString
  | String c s' =>
      if isspace c then
        (if in_run then collapse_spaces_go true s'
         else String " " (collapse_spaces_go true s'))
      else String c (collapse_spaces_go false s')
  end.

Definition collapse_spaces (s : string) : string :=
  collapse_spaces_go false s.

(** [re.fullmatch(r"\d+", s)]. *)
Definition all_digits (s : string) : bool :=
  negb (is_empty s) && forallb isdigit s.

(** Value of a string of decimal digits. *)
Definition digit_value (c : ascii) : Z := Z.of_nat (code c - 48).

Fixpoint digits_value_go (acc : Z) (s : string) : Z :=
  match s with
  | EmptyString => acc
  | String c s' => digits_value_go (10 * acc + digit_value c) s'
  end.

Definition digits_value (s : string) : Z := digits_value_go 0 s.

(** [set(a) & set(b)] has [overlap a b] elements. *)
Definition mem (w : string) (l : list string) : bool :=
  existsb (String.eqb w) l.

Definition overlap (a b : list string) : nat :=
  List.length (List.filter (fun w => mem w b) (nodup string_dec a)).

End PyStr.

(* ================================================================== *)
(** ** The regular expressions of literacy_agent.py

    Matching works on the list of characters of the text.  [pct_match]
    is the language of the pattern [\d{1,3}(?:\.\d+)?\s*%]; [search_pct] is
    [re.search] for that pattern, returning group 1 of the leftmost match. *)

Module Re.
Import PyStr.
Local Open Scope char_scope.
Local Open Scope list_scope.

Definition chars := list ascii.

(** The optional group [(?:\.\d+)?]. *)
Definition frac_match (f : chars) : Prop :=
  f = [] \/
  exists fs, f = "." :: fs /\ fs <> [] /\ List.forallb isdigit fs = true.

(** A whole match of [(\d{1,3}(?:\.\d+)?)\s*%], split in its parts. *)
Definition pct_parts (ds f ws : chars) : Prop :=
  (1 <= List.length ds <= 3)%nat /\
  List.forallb isdigit ds = true /\
  frac_match f /\
  List.forallb isspace ws = true.

Definition pct_match (m : chars) : Prop :=
  exists ds f ws, m = ds ++ f ++ ws ++ ["%"] /\ pct_parts ds f ws.

(** The text has a substring in the language of the pattern. *)
Definition has_pct (text : chars) : Prop :=
  exists pre m post, text = pre ++ m ++ post /\ pct_match m.

(** The longest prefix satisfying [p], and the rest. *)
Fixpoint span (p : ascii -> bool) (s : chars) : chars * chars :=
  match s with
  | [] => ([], [])
  | c :: s' =>
      if p c then let (a, b) := span p s' in (c :: a, b)
      else ([], s)
  end.

(** [\s*%] at the head of [s]. *)
Definition match_ws_pct (s : chars) : bool :=
  match snd (span isspace s) with
  | "%" :: _ => true
  | _ => false
  end.

(** The pattern anchored at the head of [s]; the result is group 1.
    The digit runs are taken greedily; a shorter choice leaves a digit in
    front of [\s*%] and cannot match. *)
Definition match_at (s : chars) : option chars :=
  let (ds, r) := span isdigit s in
  if ((1 <=? List.length ds) && (List.length ds <=? 3))%nat then
    match r with
    | "." :: r1 =>
        let (fs, r2) := span isdigit r1 in
        if negb (Nat.eqb (List.length fs) 0) && match_ws_pct r2
        then Some (ds ++ "." :: fs)
        else if match_ws_pct r then Some ds else None
    | _ => if match_ws_pct r then Some ds else None
    end
  else None.

(** [re.search]: the first position at which the pattern matches. *)
Fixpoint search_pct (s : chars) : option chars :=
  match match_at s with
  | Some g => Some g
  | None =>
      match s with
      | [] => None
      | _ :: s' => search_pct s'
      end
  end.

Definition four_digits (a b c d : ascii) : bool :=
  isdigit a && isdigit b && isdigit c && isdigit d.

(** [re.search(r"\((\d{4})\)", s)], group 1. *)
Fixpoint search_paren_year (s : chars) : option chars :=
  match s with
  | [] => None
  | x :: s' =>
      match s with
      | "(" :: a :: b :: c :: d :: ")" :: _ =>
          if four_digits a b c d then Some [a; b; c; d]
          else search_paren_year s'
      | _ => search_paren_year s'
      end
  end.

(** [re.search(r"(\d{4})", s)], group 1. *)
Fixpoint search_year (s : chars) : option chars :=
  match s with
  | [] => None
  | x :: s' =>
      match s with
      | a :: b :: c :: d :: _ =>
          if four_digits a b c d then Some [a; b; c; d]
          else search_year s'
      | _ => search_year s'
      end
  end.

End Re.

(* ================================================================== *)
(** ** The pandas operations of [process_excel] *)

Module Pandas.
Import Py.
Local Open Scope string_scope.

(** A dataframe, column by column, with a default integer index: every
    column holds one value per row. *)
Definition frame (A : Type) : Type := list (string * list A).

(** [df.shape[1]] and [df.shape[0]]. *)
Definition n_columns {A : Type} (df : frame A) : nat := List.length df.

Definition n_rows {A : Type} (df : frame A) : nat :=
  match df with
  | [] => 0%nat
  | (_, values) :: _ => List.length values
  end.

Definition column_names {A : Type} (df : frame A) : list string :=
  map fst df.

(** A result record as a dict: keys in insertion order. *)
Definition record : Type := list (string * value).

Fixpoint record_get (k : string) (r : record) : value :=
  match r with
  | [] => VNone
  | (k', v) :: r' => if String.eqb k k' then v else record_get k r'
  end.

(** [pd.DataFrame(results)] for a list of dicts with equal keys: no
    column at all for the empty list, else one column per key of the
    first dict. *)
Definition DataFrame (results : list record) : frame value :=
  match results with
  | [] => []
  | first :: _ =>
      map (fun kv => (fst kv, map (record_get (fst kv)) results)) first
  end.

(** [df.drop(columns=[c])]: a [KeyError] when there is no such column. *)
Definition drop_column {S A : Type} (c : string) (df : frame A)
  : M S (frame A) :=
  if existsb (String.eqb c) (column_names df)
  then ret (List.filter (fun col => negb (String.eqb c (fst col))) df)
  else raise ("['" ++ c ++ "'] not found in axis").

(** [pd.concat([left, right], axis=1)] of two frames over the same
    index: the columns of [left] followed by those of [right]. *)
Record concat (A B : Type) : Type := {
  left : frame A;
  right : frame B
}.
Arguments left {A B} c.
Arguments right {A B} c.

End Pandas.

(* ================================================================== *)
(** ** literacy_agent.py *)

Module LiteracyAgent.
Import PyStr Py.
Local Open Scope string_scope.

(** *** The parsed page

    A [BeautifulSoup] document is represented by what the agent reads
    from it: its tables in document order, each with its class tokens and
    its rows ([find_all("tr")]), each row with the text of its first [th]
    and first [td]; and the text of every [p] and [li] element. *)
Record tr : Type := {
  th : option string;      (* tr.find("th").get_text(" ", strip=True) *)
  td : option string       (* tr.find("td").get_text(" ", strip=True) *)
}.

Record table : Type := {
  class_ : option (list string);
  trs : list tr
}.

Record soup : Type := {
  tables : list table;
  p_li : list string
}.

(** The result dict of the two page parsers. *)
Record info : Type := {
  literacy : option Q;
  year : option Z;
  source : string;
  raw : string
}.

(** The result dict of [get_literacy_for_place]. *)
Record out : Type := {
  input_name : string;
  wiki_title : option string;
  out_literacy : option Q;
  literacy_year : option Z;
  notes : option string
}.

(** The first element of the JSON search list. *)
Record search_item : Type := {
  title : option string    (* search.get("title") *)
}.

(** Requests sent to Wikipedia, recorded in order. *)
Inductive event : Type :=
| SearchRequest (srsearch : string)
| PageRequest (page_title : string).

(** The environment of the agent over a network state [W]. *)
Record env (W : Type) : Type := {
  (** [requests.get(WIKI_SEARCH_URL, ...)], [raise_for_status()], [r.json()]
      and the lookup of [query.search], as one step of the world; [Raise]
      stands for an exception of any of them. *)
  search_reply : string -> W -> W * result (list search_item);
  (** [requests.get(url, ...)] for a page: the status code and body, or an
      exception of [requests]. *)
  page_reply : string -> W -> W * result (Z * string);
  (** [BeautifulSoup(html, "lxml")]. *)
  BeautifulSoup : string -> soup;
  (** [float(s)]; [None] when it raises. *)
  py_float : string -> option Q
}.
Arguments search_reply {W} e _ _.
Arguments page_reply {W} e _ _.
Arguments BeautifulSoup {W} e _.
Arguments py_float {W} e _.

(** The outcomes that [get_literacy_for_place] writes to [notes]. *)
Definition known_note (n : option string) : Prop :=
  (exists e, n = Some ("search-error: " ++ e)) \/
  n = Some "no-wikipedia-search-result" \/
  n = Some "failed-fetch-page" \/
  n = Some "wikipedia-infobox" \/
  n = Some "wikipedia-body" \/
  n = Some "no-literacy-found".

Section Agent.

Variable W : Type.
Variable E : env W.

Record state : Type := {
  world : W;
  trace : list event
}.

Definition request {A : Type} (ev : event) (reply : W -> W * result A)
  : M state A :=
  fun s =>
    let (w', r) := reply (world s) in
    ({| world := w'; trace := trace s ++ [ev] |}, r).

Definition wiki_search (title : string) : M state (option search_item) :=
  (items <- request (SearchRequest title) (search_reply E title) ;;
   match items with
   | [] => ret None
   | item :: _ => ret (Some item)
   end)%py.

(** [page_title.replace(" ", "_")] raises [AttributeError] on [None]. *)
Definition fetch_wiki_html (page_title : option string)
  : M state (option string) :=
  match page_title with
  | None =>
      raise "'NoneType' object has no attribute 'replace'"
  | Some t =>
      (r <- request (PageRequest t) (page_reply E t) ;;
       let '(status_code, text) := r in
       if negb (status_code =? 200)%Z then ret None else ret (Some text))%py
  end.

Definition extract_percentage (text : string) : option Q :=
  match Re.search_pct (list_ascii_of_string text) with
  | None => None
  | Some g => py_float E (string_of_list_ascii g)
  end.

(** [class_=lambda c: c and "infobox" in c]: the function is tried on
    each class token and on the whole attribute value. *)
Definition is_infobox (t : table) : bool :=
  match class_ t with
  | None => false
  | Some tokens =>
      existsb (fun c => negb (is_empty c) && contains "infobox" c) tokens
      || (negb (is_empty (join " " tokens))
          && contains "infobox" (join " " tokens))
  end.

Definition year_in_parentheses (text : string) : option Z :=
  option_map (fun g => digits_value (string_of_list_ascii g))
             (Re.search_paren_year (list_ascii_of_string text)).

Definition first_year (text : string) : option Z :=
  option_map (fun g => digits_value (string_of_list_ascii g))
             (Re.search_year (list_ascii_of_string text)).

Definition mentions_literacy (label : string) : bool :=
  contains "literacy" label || contains "literates" label.

(** The loop over the rows of the infobox table. *)
Fixpoint infobox_rows (rows : list tr) : option info :=
  match rows with
  | [] => None
  | r :: rows' =>
      match th r, td r with
      | Some h, Some d =>
          let label := lower h in
          if mentions_literacy label then
            let text := d in
            Some {| literacy := extract_percentage text;
                    year := year_in_parentheses text;
                    source := "wikipedia-infobox";
                    raw := text |}
          else infobox_rows rows'
      | _, _ => infobox_rows rows'
      end
  end.

Definition parse_infobox_for_literacy (s : soup) : option info :=
  match List.find is_infobox (tables s) with
  | None => None
  | Some t => infobox_rows (trs t)
  end.

(** The loop over the paragraphs and list items. *)
Fixpoint body_items (items : list string) : option info :=
  match items with
  | [] => None
  | txt :: items' =>
      if contains "literacy" (lower txt) || contains "literate" (lower txt)
      then
        match extract_percentage txt with
        | Some pct =>
            Some {| literacy := Some pct;
                    year := first_year txt;
                    source := "wikipedia-body";
                    raw := txt |}
        | None => body_items items'
        end
      else body_items items'
  end.

Definition parse_body_for_literacy (s : soup) : option info :=
  body_items (p_li s).

Definition initial_out (place : string) : out :=
  {| input_name := place; wiki_title := None; out_literacy := None;
     literacy_year := None; notes := None |}.

Definition set_notes (o : out) (n : string) : out :=
  {| input_name := input_name o; wiki_title := wiki_title o;
     out_literacy := out_literacy o; literacy_year := literacy_year o;
     notes := Some n |}.

Definition set_wiki_title (o : out) (t : option string) : out :=
  {| input_name := input_name o; wiki_title := t;
     out_literacy := out_literacy o; literacy_year := literacy_year o;
     notes := notes o |}.

Definition set_found (o : out) (i : info) : out :=
  {| input_name := input_name o; wiki_title := wiki_title o;
     out_literacy := literacy i; literacy_year := year i;
     notes := Some (source i) |}.

(** [if info and info.get("literacy") is not None]. *)
Definition with_literacy (i : option info) : option info :=
  match i with
  | Some x => match literacy x with Some _ => Some x | None => None end
  | None => None
  end.

(** [get_literacy_for_place] from the parsed page on.  The two parsers
    do not raise in this model, so their [try] blocks are left out. *)
Definition from_soup (o : out) (s : soup) : out :=
  match with_literacy (parse_infobox_for_literacy s) with
  | Some i => set_found o i
  | None =>
      match with_literacy (parse_body_for_literacy s) with
      | Some b => set_found o b
      | None => set_notes o "no-literacy-found"
      end
  end.

Definition get_literacy_for_place (place : string) : M state out :=
  let o := initial_out place in
  (r <- attempt (wiki_search place) ;;
   match r with
   | Raise e => ret (set_notes o ("search-error: " ++ e))
   | Ok None => ret (set_notes o "no-wikipedia-search-result")
   | Ok (Some search) =>
       let t := title search in
       let o := set_wiki_title o t in
       html <- fetch_wiki_html t ;;
       match html with
       | None | Some EmptyString => ret (set_notes o "failed-fetch-page")
       | Some h => ret (from_soup o (BeautifulSoup E h))
       end
   end)%py.

(** *** process_excel *)

(** The type of the cells of the input sheet, and
    [.astype(str).fillna(...)] on one cell. *)
Variable cell : Type.
Variable astype_str : cell -> string.

Definition empty_input (place : string) : out :=
  {| input_name := place; wiki_title := None; out_literacy := None;
     literacy_year := None; notes := Some "empty-input" |}.

Definition error_out (place : string) (e : exn) : out :=
  {| input_name := place; wiki_title := None; out_literacy := None;
     literacy_year := None; notes := Some ("error: " ++ e) |}.

(** The body of the loop over the places, for one place. *)
Definition lookup_place (place : string) : M state out :=
  if is_empty (strip place) then ret (empty_input place)
  else
    (r <- attempt (get_literacy_for_place place) ;;
     match r with
     | Ok res => ret res
     | Raise e => ret (error_out place e)
     end)%py.

(** The loop over the places; the results are appended in order. *)
Fixpoint lookup_all (places : list string) : M state (list out) :=
  match places with
  | [] => ret []
  | place :: rest =>
      (res <- lookup_place place ;;
       results <- lookup_all rest ;;
       ret (res :: results))%py
  end.

Definition to_record (o : out) : Pandas.record :=
  [ ("input_name", VStr (input_name o));
    ("wiki_title", of_option VStr (wiki_title o));
    ("literacy", of_option VFloat (out_literacy o));
    ("literacy_year", of_option VInt (literacy_year o));
    ("notes", of_option VStr (notes o)) ].

(** The frame handed to [to_excel]; a raised exception means that no
    file is written. *)
Definition process_excel (df : Pandas.frame cell)
  : M state (Pandas.concat cell value) :=
  match df with
  | [] => raise "Input Excel must have at least one column with place names"
  | (first_col, values) :: _ =>
      let places := map astype_str values in
      (results <- lookup_all places ;;
       let res_df := Pandas.DataFrame (map to_record results) in
       dropped <- Pandas.drop_column "input_name" res_df ;;
       ret {| Pandas.left := df; Pandas.right := dropped |})%py
  end.

End Agent.

Arguments world {W} s.
Arguments trace {W} s.
Arguments Build_state {W} world trace.
Arguments request {W A} ev reply _.
Arguments wiki_search {W} E title _.
Arguments fetch_wiki_html {W} E page_title _.
Arguments extract_percentage {W} E text.
Arguments infobox_rows {W} E rows.
Arguments parse_infobox_for_literacy {W} E s.
Arguments body_items {W} E items.
Arguments parse_body_for_literacy {W} E s.
Arguments from_soup {W} E o s.
Arguments get_literacy_for_place {W} E place _.
Arguments lookup_place {W} E place _.
Arguments lookup_all {W} E places _.
Arguments process_excel {W} E {cell} astype_str df _.

End LiteracyAgent.

(* ================================================================== *)
(** ** ai_agent_population.py *)

Module PopulationAgent.
Import PyStr Py.
Local Open Scope string_scope.

(** *** The election table *)

Record entry : Type := {
  name : string;
  population : Z
}.

(** A dict keyed by normalized names, in insertion order. *)
Definition election_data : Type := list (string * entry).

Fixpoint dict_get (k : string) (d : election_data) : option entry :=
  match d with
  | [] => None
  | (k', v) :: d' => if String.eqb k k' then Some v else dict_get k d'
  end.

(** [d[k] = v]: an existing key keeps its place. *)
Fixpoint dict_set (k : string) (v : entry) (d : election_data)
  : election_data :=
  match d with
  | [] => [(k, v)]
  | (k', v') :: d' =>
      if String.eqb k k' then (k, v) :: d' else (k', v') :: dict_set k v d'
  end.

Definition keep_name_char (c : ascii) : bool :=
  islower_az c || isdigit c || Ascii.eqb c " ".

Definition normalize_name (s : string) : string :=
  let s2 := lower (strip s) in
  let s2 := collapse_spaces s2 in
  filter keep_name_char s2.

(** The election page as the loader reads it: the cell texts of every row
    of every table, and the lines of the page text. *)
Record election_page : Type := {
  page_tables : list (list (list string));
  page_lines : list string
}.

(** [int(x)] for [x] made of digits and spaces only: spaces are accepted
    around the digits, not between them. *)
Definition int_of_spaced_digits (x : string) : option Z :=
  let y := strip x in
  if all_digits y then Some (digits_value y) else None.

(** The split of the cells of a row into numbers and name parts. *)
Fixpoint classify_cells (cells : list string) : list Z * list string :=
  match cells with
  | [] => ([], [])
  | c :: cells' =>
      let (nums, name_parts) := classify_cells cells' in
      let c_stripped := remove_char " " (remove_char "," c) in
      if all_digits c_stripped then
        match int_of_spaced_digits (remove_char "," c) with
        | Some n => (n :: nums, name_parts)
        | None => (nums, name_parts)
        end
      else (nums, c :: name_parts)
  end.

(** [max(parts, key=len)]: the first part of greatest length. *)
Fixpoint longest (best : string) (parts : list string) : string :=
  match parts with
  | [] => best
  | p :: parts' =>
      if (String.length best <? String.length p)%nat
      then longest p parts' else longest best parts'
  end.

Definition max_len (parts : list string) : option string :=
  match parts with
  | [] => None
  | p :: parts' => Some (longest p parts')
  end.

Definition max_num (nums : list Z) : option Z :=
  match nums with
  | [] => None
  | n :: nums' => Some (fold_left Z.max nums' n)
  end.

Definition load_row (d : election_data) (cells : list string)
  : election_data :=
  match cells with
  | [] => d
  | _ =>
      let (nums, name_parts) := classify_cells cells in
      match max_num nums, max_len name_parts with
      | Some total, Some name_candidate =>
          dict_set (normalize_name name_candidate)
                   {| name := name_candidate; population := total |} d
      | _, _ => d
      end
  end.

Definition load_tables (tables : list (list (list string)))
  : election_data :=
  fold_left (fun d table => fold_left load_row table d) tables [].

(** [parts[:-1]] and [parts[-1]]. *)
Definition load_line (d : election_data) (line : string) : election_data :=
  let parts := split line in
  match rev parts with
  | [] => d
  | last_part :: rev_init =>
      let last := remove_char "," last_part in
      if all_digits last && (1 <? List.length parts)%nat then
        let name := join " " (rev rev_init) in
        dict_set (normalize_name name)
                 {| name := name; population := digits_value last |} d
      else d
  end.

Definition load_page (p : election_page) : election_data :=
  let d := load_tables (page_tables p) in
  match d with
  | [] => fold_left load_line (page_lines p) []
  | _ => d
  end.

(** *** Wikidata replies *)

(** The first element of the [search] list. *)
Record entity : Type := {
  id : option string;       (* search.get("id") *)
  label : option string;    (* search.get("label") *)
  title : option string     (* search.get("title") *)
}.

(** The [value] of a [datavalue]: a dict with an [amount], or anything
    else. *)
Inductive dvalue : Type :=
| Quantity (amount : string)
| OtherValue.

(** The [P585] entry of the qualifiers of a claim: absent; present with
    the [time] of its first snak ([None] when that key is missing); or
    present but raising inside the [try] block (an empty list, a value
    that is no dict). *)
Inductive p585 : Type :=
| NoP585
| P585Time (time : option string)
| P585Malformed.

Record claim : Type := {
  datavalue : option dvalue;   (* None: missing or empty *)
  qualifier : p585
}.

Record pop_result : Type := {
  res_population : option Z;
  res_year : option Z
}.

(** The result dict of [get_population_for_place]. *)
Record out : Type := {
  input_name : string;
  wikidata_id : option string;
  wikidata_label : option string;
  out_population : option Z;
  population_year : option Z;
  notes : option string
}.

(** Requests sent to the election site and to Wikidata, in order. *)
Inductive event : Type :=
| ElectionRequest
| EntitySearch (search : string)
| ClaimsRequest (entity_id : option string).

(** [a or b] on optional strings: [a] when it is a non-empty string. *)
Definition py_or (a b : option string) : option string :=
  match a with
  | Some s => if is_empty s then b else a
  | None => b
  end.

(** The environment of the agent over a network state [W]. *)
Record env (W : Type) : Type := {
  (** [requests.get(ELECTION_SITE_URL)] and [raise_for_status()]. *)
  election_reply : W -> W * result string;
  (** [BeautifulSoup(r.content, "lxml")] on the election page. *)
  BeautifulSoup : string -> election_page;
  (** The Wikidata search: [requests.get], [raise_for_status()],
      [r.json()] and the [search] list. *)
  search_reply : string -> W -> W * result (list entity);
  (** The Wikidata claims request, down to the [P1082] list. *)
  claims_reply : option string -> W -> W * result (list claim);
  (** [float(s)] and [int(s)] on strings; [None] when they raise.
      [float] accepts the spellings of the infinities and of nan. *)
  py_float : string -> option pyfloat;
  py_int : string -> option Z
}.
Arguments election_reply {W} e _.
Arguments BeautifulSoup {W} e _.
Arguments search_reply {W} e _ _.
Arguments claims_reply {W} e _ _.
Arguments py_float {W} e _.
Arguments py_int {W} e _.

(** The outcomes that [get_population_for_place] writes to [notes]. *)
Definition known_note (n : option string) : Prop :=
  n = Some "election-site" \/
  (exists e, n = Some ("search-error: " ++ e)) \/
  n = Some "no-wikidata-entity-found" \/
  (exists e, n = Some ("claims-error: " ++ e)) \/
  n = Some "no-population-found" \/
  n = Some "population-parsing-failed" \/
  n = Some "wikidata".

Section Agent.

Variable W : Type.
Variable E : env W.

Record state : Type := {
  world : W;
  ELECTION_DATA : election_data;
  trace : list event
}.

Definition request {A : Type} (ev : event) (reply : W -> W * result A)
  : M state A :=
  fun s =>
    let (w', r) := reply (world s) in
    ({| world := w'; ELECTION_DATA := ELECTION_DATA s;
        trace := trace s ++ [ev] |}, r).

Definition get_election_data : M state election_data :=
  fun s => (s, Ok (ELECTION_DATA s)).

Definition set_election_data (d : election_data) : M state unit :=
  fun s => ({| world := world s; ELECTION_DATA := d; trace := trace s |},
            Ok tt).

Definition load_election_data : M state unit :=
  (d <- get_election_data ;;
   match d with
   | _ :: _ => ret tt
   | [] =>
       r <- attempt (request ElectionRequest (election_reply E)) ;;
       match r with
       | Raise _ => ret tt
       | Ok content => set_election_data (load_page (BeautifulSoup E content))
       end
   end)%py.

Definition found (v : entry) : pop_result :=
  {| res_population := Some (population v); res_year := Some 2025 |}.

Definition partial_match (norm_place k : string) : bool :=
  String.eqb norm_place k || contains norm_place k || contains k norm_place.

Definition word_score (norm_place k : string) : nat :=
  overlap (split norm_place) (split k).

(** The word-overlap loop: [best] and [best_score] so far. *)
Fixpoint best_overlap (norm_place : string) (d : election_data)
         (best : option entry) (best_score : nat) : option entry :=
  match d with
  | [] => best
  | (k, v) :: d' =>
      let score := word_score norm_place k in
      if ((best_score <? score) && (0 <? score))%nat
      then best_overlap norm_place d' (Some v) score
      else best_overlap norm_place d' best best_score
  end.

Definition lookup_in (d : election_data) (place : string)
  : option pop_result :=
  match d with
  | [] => None
  | _ =>
      let norm_place := normalize_name place in
      match dict_get norm_place d with
      | Some v => Some (found v)
      | None =>
          match List.find (fun kv => partial_match norm_place (fst kv)) d with
          | Some (_, v) => Some (found v)
          | None =>
              match best_overlap norm_place d None 0 with
              | Some best => Some (found best)
              | None => None
              end
          end
      end
  end.

(** No key of the table matches the normalized place: neither exactly,
    nor as a substring either way, nor by a common word. *)
Definition unmatched (d : election_data) (place : string) : Prop :=
  forall k v, In (k, v) d ->
    normalize_name place <> k /\
    contains (normalize_name place) k = false /\
    contains k (normalize_name place) = false /\
    word_score (normalize_name place) k = 0%nat.

Definition election_lookup (place : string) : M state (option pop_result) :=
  (_ <- load_election_data ;;
   d <- get_election_data ;;
   ret (lookup_in d place))%py.

Definition search_wikidata_entity (label : string)
  : M state (option entity) :=
  (results <- request (EntitySearch label) (search_reply E label) ;;
   match results with
   | [] => ret None
   | e :: _ => ret (Some e)
   end)%py.

(** The [amount] read from the main snak of a claim. *)
Definition amount_of (c : claim) : option pyfloat :=
  match datavalue c with
  | Some (Quantity a) => py_float E a
  | _ => None
  end.

(** The year read from the [P585] qualifier of a claim. *)
Definition year_of (c : claim) : option Z :=
  match qualifier c with
  | P585Time (Some time_str) =>
      if is_empty time_str then None
      else py_int E (before_char "-" (lstrip_char "+" time_str))
  | _ => None
  end.

(** The guard [if not datavalue: continue]. *)
Definition has_datavalue (c : claim) : bool :=
  match datavalue c with
  | Some _ => true
  | None => false
  end.

(** One iteration of the loop over the claims. *)
Definition choose_step (acc : option claim * option Z) (c : claim)
  : option claim * option Z :=
  let (best_claim, best_year) := acc in
  match datavalue c with
  | None => acc
  | Some _ =>
      match year_of c with
      | Some year =>
          match best_year with
          | None => (Some c, Some year)
          | Some by_ => if (by_ <? year)%Z then (Some c, Some year) else acc
          end
      | None =>
          match best_claim with
          | None => (Some c, best_year)
          | Some _ => acc
          end
      end
  end.

Definition choose_claim (claims : list claim) : option claim * option Z :=
  fold_left choose_step claims (None, None).

(** [int(amount)] on a float: truncation toward zero; OverflowError on
    an infinity and ValueError on nan. *)
Definition int_of_float (x : pyfloat) : result Z :=
  match x with
  | Finite q => Ok (Z.quot (Qnum q) (Zpos (Qden q)))
  | Infinity _ => Raise "cannot convert float infinity to integer"
  | NaN => Raise "cannot convert float NaN to integer"
  end.

(** The code after the loop: the result dict built from the chosen
    claim.  [float] is guarded by a [try], [int] is not. *)
Definition result_of_claim (best_claim : claim) (best_year : option Z)
  : result pop_result :=
  match amount_of best_claim with
  | None => Ok {| res_population := None; res_year := best_year |}
  | Some amount =>
      match int_of_float amount with
      | Ok n => Ok {| res_population := Some n; res_year := best_year |}
      | Raise e => Raise e
      end
  end.

Definition population_from (claims : list claim)
  : result (option pop_result) :=
  match claims with
  | [] => Ok None
  | _ =>
      match choose_claim claims with
      | (None, _) => Ok None
      | (Some best_claim, best_year) =>
          match result_of_claim best_claim best_year with
          | Ok r => Ok (Some r)
          | Raise e => Raise e
          end
      end
  end.

Definition get_population_from_claims (entity_id : option string)
  : M state (option pop_result) :=
  (claims <- request (ClaimsRequest entity_id) (claims_reply E entity_id) ;;
   lift (population_from claims))%py.

Definition initial_out (place : string) : out :=
  {| input_name := place; wikidata_id := None; wikidata_label := None;
     out_population := None; population_year := None; notes := None |}.

Definition set_notes (o : out) (n : string) : out :=
  {| input_name := input_name o; wikidata_id := wikidata_id o;
     wikidata_label := wikidata_label o;
     out_population := out_population o;
     population_year := population_year o; notes := Some n |}.

Definition set_population (o : out) (p : pop_result) : out :=
  {| input_name := input_name o; wikidata_id := wikidata_id o;
     wikidata_label := wikidata_label o;
     out_population := res_population p;
     population_year := res_year p; notes := notes o |}.

Definition set_entity (o : out) (e : entity) : out :=
  {| input_name := input_name o; wikidata_id := id e;
     wikidata_label := py_or (label e) (title e);
     out_population := out_population o;
     population_year := population_year o; notes := notes o |}.

Definition get_population_for_place (place : string) : M state out :=
  let o := initial_out place in
  (r <- attempt (election_lookup place) ;;
   let elect := match r with Ok e => e | Raise _ => None end in
   match elect with
   | Some e => ret (set_notes (set_population o e) "election-site")
   | None =>
       r <- attempt (search_wikidata_entity place) ;;
       match r with
       | Raise e => ret (set_notes o ("search-error: " ++ e))
       | Ok None => ret (set_notes o "no-wikidata-entity-found")
       | Ok (Some search) =>
           let entity_id := id search in
           let o := set_entity o search in
           r <- attempt (get_population_from_claims entity_id) ;;
           match r with
           | Raise e => ret (set_notes o ("claims-error: " ++ e))
           | Ok None => ret (set_notes o "no-population-found")
           | Ok (Some pop) =>
               let o := set_population o pop in
               match out_population o with
               | None => ret (set_notes o "population-parsing-failed")
               | Some _ => ret (set_notes o "wikidata")
               end
           end
       end
   end)%py.

(** *** process_excel *)

(** The type of the cells of the input sheet, and
    [.astype(str).fillna(...)] on one cell. *)
Variable cell : Type.
Variable astype_str : cell -> string.

Definition empty_input (place : string) : out :=
  {| input_name := place; wikidata_id := None; wikidata_label := None;
     out_population := None; population_year := None;
     notes := Some "empty-input" |}.

(** The body of the loop over the places, for one place. *)
Definition lookup_place (place : string) : M state out :=
  if is_empty (strip place) then ret (empty_input place)
  else get_population_for_place place.

(** The loop over the places; the results are appended in order. *)
Fixpoint lookup_all (places : list string) : M state (list out) :=
  match places with
  | [] => ret []
  | place :: rest =>
      (res <- lookup_place place ;;
       results <- lookup_all rest ;;
       ret (res :: results))%py
  end.

Definition to_record (o : out) : Pandas.record :=
  [ ("input_name", VStr (input_name o));
    ("wikidata_id", of_option VStr (wikidata_id o));
    ("wikidata_label", of_option VStr (wikidata_label o));
    ("population", of_option VInt (out_population o));
    ("population_year", of_option VInt (population_year o));
    ("notes", of_option VStr (notes o)) ].

(** The frame handed to [to_excel]; a raised exception means that no
    file is written. *)
Definition process_excel (df : Pandas.frame cell)
  : M state (Pandas.concat cell value) :=
  match df with
  | [] => raise "Input Excel must have at least one column with place names"
  | (first_col, values) :: _ =>
      let places := map astype_str values in
      (results <- lookup_all places ;;
       let res_df := Pandas.DataFrame (map to_record results) in
       dropped <- Pandas.drop_column "input_name" res_df ;;
       ret {| Pandas.left := df; Pandas.right := dropped |})%py
  end.

End Agent.

Arguments world {W} s.
Arguments ELECTION_DATA {W} s.
Arguments trace {W} s.
Arguments Build_state {W} world ELECTION_DATA trace.
Arguments request {W A} ev reply _.
Arguments get_election_data {W} _.
Arguments set_election_data {W} d _.
Arguments load_election_data {W} E _.
Arguments election_lookup {W} E place _.
Arguments search_wikidata_entity {W} E label _.
Arguments amount_of {W} E c.
Arguments year_of {W} E c.
Arguments choose_step {W} E acc c.
Arguments choose_claim {W} E claims.
Arguments result_of_claim {W} E best_claim best_year.
Arguments population_from {W} E claims.
Arguments get_population_from_claims {W} E entity_id _.
Arguments get_population_for_place {W} E place _.
Arguments lookup_place {W} E place _.
Arguments lookup_all {W} E places _.
Arguments process_excel {W} E {cell} astype_str df _.

End PopulationAgent.

(* ================================================================== *)
(** ** Concrete environments used to run the agents *)

Module Scenario.
Import PyStr Py.
Local Open Scope string_scope.

(** [int] and [float] on plain decimal numerals, an optional leading
    plus sign allowed. *)
Definition simple_int (s : string) : option Z :=
  let t := lstrip_char "+" s in
  if all_digits t then Some (digits_value t) else None.

Fixpoint after_char (c : ascii) (s : string) : string :=
  match s with
  | EmptyString => EmptyString
  | String x s' => if Ascii.eqb x c then s' else after_char c s'
  end.

Definition simple_float (s : string) : option Q :=
  let t := lstrip_char "+" s in
  let i := before_char "." t in
  let f := after_char "." t in
  if all_digits i && PyStr.forallb isdigit f then
    Some (inject_Z (digits_value i)
          + inject_Z (digits_value f) / inject_Z (10 ^ Z.of_nat (String.length f)))%Q
  else None.

(** *** Literacy agent: the network is stateless ([unit]) *)

Definition chennai_soup : LiteracyAgent.soup :=
  {| LiteracyAgent.tables :=
       [ {| LiteracyAgent.class_ := Some ["wikitable"];
            LiteracyAgent.trs :=
              [ {| LiteracyAgent.th := Some "Literacy";
                   LiteracyAgent.td := Some "12 %" |} ] |};
         {| LiteracyAgent.class_ := Some ["infobox"; "vcard"];
            LiteracyAgent.trs :=
              [ {| LiteracyAgent.th := Some "Country";
                   LiteracyAgent.td := Some "India" |};
                {| LiteracyAgent.th := Some "Literacy (2011)";
                   LiteracyAgent.td := Some "90.33 % (2011)" |} ] |} ];
     LiteracyAgent.p_li :=
       [ "Chennai is a city."; "The literacy rate was 85 % in 2001." ] |}.

(** A page whose only table is no infobox. *)
Definition plain_soup : LiteracyAgent.soup :=
  {| LiteracyAgent.tables :=
       [ {| LiteracyAgent.class_ := Some ["wikitable"];
            LiteracyAgent.trs :=
              [ {| LiteracyAgent.th := Some "Literacy";
                   LiteracyAgent.td := Some "12 %" |} ] |} ];
     LiteracyAgent.p_li := [ "Nothing of interest." ] |}.

Definition search_chennai (t : string) (w : unit)
  : unit * result (list LiteracyAgent.search_item) :=
  (w, Ok [ {| LiteracyAgent.title := Some "Chennai" |} ]).

(** The page request times out. *)
Definition literacy_timeout : LiteracyAgent.env unit :=
  {| LiteracyAgent.search_reply := search_chennai;
     LiteracyAgent.page_reply := fun _ w => (w, Raise "Read timed out");
     LiteracyAgent.BeautifulSoup := fun _ => chennai_soup;
     LiteracyAgent.py_float := simple_float |}.

(** The page is served. *)
Definition literacy_online : LiteracyAgent.env unit :=
  {| LiteracyAgent.search_reply := search_chennai;
     LiteracyAgent.page_reply := fun _ w => (w, Ok (200%Z, "<html>"));
     LiteracyAgent.BeautifulSoup := fun _ => chennai_soup;
     LiteracyAgent.py_float := simple_float |}.

Definition literacy_start : LiteracyAgent.state unit :=
  {| LiteracyAgent.world := tt; LiteracyAgent.trace := [] |}.

(** *** Population agent *)

(** [float] on the spellings of the special values, and on plain decimal
    numerals. *)
Definition population_float (s : string) : option pyfloat :=
  if String.eqb s "inf" then Some (Infinity false)
  else if String.eqb s "-inf" then Some (Infinity true)
  else if String.eqb s "nan" then Some NaN
  else option_map Finite (simple_float s).

Definition election_page : PopulationAgent.election_page :=
  {| PopulationAgent.page_tables :=
       [ [ ["AC Name"; "Male"; "Female"; "Total"];
           ["1"; "Gummidipoondi"; "1,38,315"; "1,45,380"; "2,83,736"];
           ["2"; "Ponneri (SC)"; "1,30,101"; "1,36,387"; "2,66,520"] ] ];
     PopulationAgent.page_lines := [] |}.

(** A claim without a main value, dated 2020; one worth 100, dated 2010;
    one worth 7 without a date. *)
Definition claim_2020_novalue : PopulationAgent.claim :=
  {| PopulationAgent.datavalue := None;
     PopulationAgent.qualifier :=
       PopulationAgent.P585Time (Some "+2020-01-01T00:00:00Z") |}.

Definition claim_2010 : PopulationAgent.claim :=
  {| PopulationAgent.datavalue := Some (PopulationAgent.Quantity "+100");
     PopulationAgent.qualifier :=
       PopulationAgent.P585Time (Some "+2010-01-01T00:00:00Z") |}.

Definition claim_undated : PopulationAgent.claim :=
  {| PopulationAgent.datavalue := Some (PopulationAgent.Quantity "+7");
     PopulationAgent.qualifier := PopulationAgent.NoP585 |}.

Definition claim_2015 : PopulationAgent.claim :=
  {| PopulationAgent.datavalue := Some (PopulationAgent.Quantity "+250");
     PopulationAgent.qualifier :=
       PopulationAgent.P585Time (Some "+2015-00-00T00:00:00Z") |}.

(** A claim whose amount is no number, dated 2021. *)
Definition claim_2021_nan : PopulationAgent.claim :=
  {| PopulationAgent.datavalue := Some (PopulationAgent.Quantity "nan");
     PopulationAgent.qualifier :=
       PopulationAgent.P585Time (Some "+2021-01-01T00:00:00Z") |}.

Definition entity_q1 : PopulationAgent.entity :=
  {| PopulationAgent.id := Some "Q1";
     PopulationAgent.label := Some "Somewhere";
     PopulationAgent.title := None |}.

(** The election site answers; Wikidata knows one entity. *)
Definition population_online : PopulationAgent.env unit :=
  {| PopulationAgent.election_reply := fun w => (w, Ok "<html>");
     PopulationAgent.BeautifulSoup := fun _ => election_page;
     PopulationAgent.search_reply := fun _ w => (w, Ok [entity_q1]);
     PopulationAgent.claims_reply :=
       fun _ w => (w, Ok [claim_undated; claim_2010; claim_2015]);
     PopulationAgent.py_float := population_float;
     PopulationAgent.py_int := simple_int |}.

(** The election site is down. *)
Definition population_no_election : PopulationAgent.env unit :=
  {| PopulationAgent.election_reply := fun w => (w, Raise "Connection refused");
     PopulationAgent.BeautifulSoup := fun _ => election_page;
     PopulationAgent.search_reply := fun _ w => (w, Ok [entity_q1]);
     PopulationAgent.claims_reply :=
       fun _ w => (w, Ok [claim_undated; claim_2010; claim_2015]);
     PopulationAgent.py_float := population_float;
     PopulationAgent.py_int := simple_int |}.

Definition population_start : PopulationAgent.state unit :=
  {| PopulationAgent.world := tt; PopulationAgent.ELECTION_DATA := [];
     PopulationAgent.trace := [] |}.

(** A sheet with its header row only, and a sheet with two places and a
    blank cell; cells are their own text. *)
Definition header_only : Pandas.frame string := [ ("place", []) ].

Definition three_rows : Pandas.frame string :=
  [ ("place", ["Ponneri"; "   "; "Atlantis"]); ("state", ["TN"; "TN"; "-"]) ].

Definition cell_text (c : string) : string := c.

End Scenario.

(* ================================================================== *)
(** ** More sample inputs *)

Module Samples.
Import PyStr Py.
Local Open Scope string_scope.

(** A sheet whose first column holds blank text only. *)
Definition blank_rows : Pandas.frame string :=
  [ ("place", ["  "; EmptyString]); ("remark", ["a"; "b"]) ].

(** A row of comprehensive_excel_generator on which every indicator that
    can fire does. *)
Definition worst_row : ComprehensiveExcelGenerator.borrower :=
  {| ComprehensiveExcelGenerator.age := 62;
     ComprehensiveExcelGenerator.education_level := "Illiterate";
     ComprehensiveExcelGenerator.family_size := 8;
     ComprehensiveExcelGenerator.years_in_location := 2;
     ComprehensiveExcelGenerator.monthly_income := 300;
     ComprehensiveExcelGenerator.requested_loan_amount := 75000;
     ComprehensiveExcelGenerator.monthly_expenses := 290;
     ComprehensiveExcelGenerator.has_bank_account := false;
     ComprehensiveExcelGenerator.existing_loans := 3;
     ComprehensiveExcelGenerator.previous_defaults := 1;
     ComprehensiveExcelGenerator.savings_amount := 0;
     ComprehensiveExcelGenerator.credit_score := Some 450%Z;
     ComprehensiveExcelGenerator.owns_house := false;
     ComprehensiveExcelGenerator.house_type := "Kutcha";
     ComprehensiveExcelGenerator.owns_land := false;
     ComprehensiveExcelGenerator.owns_vehicle := false;
     ComprehensiveExcelGenerator.collateral_offered := false;
     ComprehensiveExcelGenerator.collateral_value := 0;
     ComprehensiveExcelGenerator.guarantor_available := false;
     ComprehensiveExcelGenerator.shg_member := false;
     ComprehensiveExcelGenerator.mobile_ownership := false;
     ComprehensiveExcelGenerator.aadhaar_linked := false;
     ComprehensiveExcelGenerator.seasonal_migration := true;
     ComprehensiveExcelGenerator.financial_literacy_score := 2;
     ComprehensiveExcelGenerator.community_reputation := "Poor";
     ComprehensiveExcelGenerator.local_leader_recommendation := false;
     ComprehensiveExcelGenerator.electricity_connection := false;
     ComprehensiveExcelGenerator.water_source := "Hand Pump";
     ComprehensiveExcelGenerator.toilet_facility := false;
     ComprehensiveExcelGenerator.road_connectivity := "Mud";
     ComprehensiveExcelGenerator.internet_usage := false;
     ComprehensiveExcelGenerator.market_access_score := 1;
     ComprehensiveExcelGenerator.pan_card := false;
     ComprehensiveExcelGenerator.insurance_life := false;
     ComprehensiveExcelGenerator.insurance_health := false;
     ComprehensiveExcelGenerator.credit_history_length := 0;
     ComprehensiveExcelGenerator.voter_id := false |}.

(** The highest draws of the API in a monsoon month, and a request for a
    personal loan. *)
Definition peak_draws : BankingIntelligenceAPI.draws :=
  {| BankingIntelligenceAPI.base_draw := 45;
     BankingIntelligenceAPI.current_month := 7;
     BankingIntelligenceAPI.monsoon_draw := 10;
     BankingIntelligenceAPI.climate_risk := 40;
     BankingIntelligenceAPI.economic_risk := 35;
     BankingIntelligenceAPI.social_risk := 25;
     BankingIntelligenceAPI.technology_risk := 20;
     BankingIntelligenceAPI.regulatory_risk := 15;
     BankingIntelligenceAPI.drought_risk_level := "High";
     BankingIntelligenceAPI.market_sentiment := "Volatile" |}.

Definition personal_request : Json.json :=
  Json.JObject [ ("loan_amount", Json.JInt 50000);
                 ("loan_purpose", Json.JString "Personal") ].

(** A request whose purpose is a list. *)
Definition list_purpose_request : Json.json :=
  Json.JObject [ ("loan_purpose", Json.JArray [Json.JString "Personal"]) ].

(** A row of excel_based_data_generator on which no indicator fires. *)
Definition spotless_row : ExcelBasedDataGenerator.borrower :=
  {| ExcelBasedDataGenerator.age := 30;
     ExcelBasedDataGenerator.education_level := "Secondary";
     ExcelBasedDataGenerator.family_size := 4;
     ExcelBasedDataGenerator.years_in_location := 10;
     ExcelBasedDataGenerator.monthly_income := 20000;
     ExcelBasedDataGenerator.requested_loan_amount := 50000;
     ExcelBasedDataGenerator.monthly_expenses := 15000;
     ExcelBasedDataGenerator.has_bank_account := true;
     ExcelBasedDataGenerator.existing_loans := 0;
     ExcelBasedDataGenerator.previous_defaults := 0;
     ExcelBasedDataGenerator.savings_amount := 30000;
     ExcelBasedDataGenerator.owns_land := true;
     ExcelBasedDataGenerator.owns_vehicle := true;
     ExcelBasedDataGenerator.electricity_access := true;
     ExcelBasedDataGenerator.road_connectivity := "Paved";
     ExcelBasedDataGenerator.internet_access := true;
     ExcelBasedDataGenerator.collateral_value := 60000;
     ExcelBasedDataGenerator.shg_member := true;
     ExcelBasedDataGenerator.mobile_ownership := true;
     ExcelBasedDataGenerator.aadhaar_linked := true;
     ExcelBasedDataGenerator.seasonal_migration := false;
     ExcelBasedDataGenerator.financial_literacy_score := 7;
     ExcelBasedDataGenerator.pan_card := true;
     ExcelBasedDataGenerator.insurance_coverage := true;
     ExcelBasedDataGenerator.credit_history_length := 3 |}.

End Samples.

(* ================================================================== *)
(** ** Invariants of the agents' data *)

Module Invariants.
Import PyStr PopulationAgent.

(** What the election loader maintains: distinct keys, every key the
    normalized name of its entry, no negative population. *)
Definition table_ok (d : election_data) : Prop :=
  NoDup (map fst d) /\
  forall k v, In (k, v) d -> k = normalize_name (name v) /\ (0 <= population v)%Z.

End Invariants.

(* ================================================================== *)
(** ** generate_enhanced_data.py: the risk components and the loan amount *)

Module EnhancedRisk.
Import Py.
Local Open Scope string_scope.

Definition calculate_demographic_risk
           (age income : Z) (education : string) (family_size : Z) : Q :=
  let age_risk : Q :=
    if ((25 <=? age) && (age <=? 50))%Z then 0.1%Q
    else if ((age <? 25) || (60 <? age))%Z then 0.7%Q
    else 0.4%Q in
  let income_risk :=
    Qmax 0%Q (Qmin 1%Q (inject_Z (30000 - income) / 30000)%Q) in
  let education_risk : Q :=
    if String.eqb education "illiterate" then 0.8%Q
    else if String.eqb education "primary" then 0.6%Q
    else if String.eqb education "secondary" then 0.4%Q
    else if String.eqb education "higher_secondary" then 0.3%Q
    else if String.eqb education "graduate" then 0.1%Q
    else if String.eqb education "postgraduate" then 0.05%Q
    else 0.5%Q in
  let family_risk := Qmin 1%Q (Qmax 0%Q (inject_Z (family_size - 4) * 0.1)%Q) in
  ((age_risk + income_risk + education_risk + family_risk) / 4)%Q.

(** [expenses / income] raises ZeroDivisionError for a zero income. *)
Definition calculate_financial_risk
           (credit_months existing_loans : Z) (has_savings : bool)
           (income expenses : Z) : result Q :=
  let credit_risk : Q :=
    if (credit_months <? 24)%Z
    then Qmax 0%Q (inject_Z (24 - credit_months) / 24)%Q
    else 0.1%Q in
  let loan_risk := Qmin 1%Q (inject_Z existing_loans / 3)%Q in
  let savings_risk : Q := if has_savings then 0.2%Q else 0.6%Q in
  if (income =? 0)%Z then Raise "division by zero"
  else
    let expense_ratio := (inject_Z expenses / inject_Z income)%Q in
    let expense_risk := Qmax 0%Q (Qmin 1%Q ((expense_ratio - 0.5) / 0.3)%Q) in
    Ok ((credit_risk + loan_risk + savings_risk + expense_risk) / 4)%Q.

Definition calculate_asset_risk
           (owns_land : bool) (land_size : Q)
           (owns_livestock : bool) (livestock_count : Z) : Q :=
  let land_risk : Q :=
    if owns_land then Qmax 0%Q ((2 - land_size) / 2)%Q else 0.8%Q in
  let livestock_risk : Q :=
    if owns_livestock then Qmax 0%Q (inject_Z (5 - livestock_count) / 5)%Q
    else 0.6%Q in
  ((land_risk + livestock_risk) / 2)%Q.

Definition calculate_geographic_risk
           (bank_distance market_distance : Q) (road_score : Z)
           (has_electricity : bool) : Q :=
  let bank_risk := Qmin 1%Q (bank_distance / 20)%Q in
  let market_risk := Qmin 1%Q (market_distance / 25)%Q in
  let road_risk := (inject_Z (5 - road_score) / 4)%Q in
  let electricity_risk : Q := if has_electricity then 0.2%Q else 0.6%Q in
  ((bank_risk + market_risk + road_risk + electricity_risk) / 4)%Q.

Definition calculate_social_risk
           (shg_member govt_beneficiary mobile_phone : bool) : Q :=
  let shg_risk : Q := if shg_member then 0.2%Q else 0.6%Q in
  let govt_risk : Q := if govt_beneficiary then 0.3%Q else 0.5%Q in
  let mobile_risk : Q := if mobile_phone then 0.1%Q else 0.7%Q in
  ((shg_risk + govt_risk + mobile_risk) / 3)%Q.

(** [int(x)] on a float: truncation toward zero. *)
Definition int_of_float (q : Q) : Z := Z.quot (Qnum q) (Zpos (Qden q)).

(** [generate_loan_amount]; [months] is the draw
    [np.random.uniform(3, 8)]. *)
Definition generate_loan_amount
           (months : Q) (income : Z) (risk_score : Q)
           (owns_land owns_livestock : bool) : Z :=
  let base_amount := (inject_Z income * months)%Q in
  let risk_factor := (1.5%Q - risk_score)%Q in
  let risk_factor := if owns_land then (risk_factor * 1.3%Q)%Q else risk_factor in
  let risk_factor :=
    if owns_livestock then (risk_factor * 1.1%Q)%Q else risk_factor in
  let loan_amount := int_of_float (base_amount * risk_factor) in
  Z.max 5000 (Z.min 500000 loan_amount).

(** The values drawn for one borrower that its risk scores depend on. *)
Record draws : Type := {
  age : Z;                        (* np.random.randint(18, 75) *)
  income : Z;                     (* generate_realistic_income(age) *)
  education : string;
  family_size : Z;                (* np.random.randint(2, 8) *)
  credit_history_months : Z;      (* np.random.randint(0, 120) *)
  existing_loans : Z;             (* np.random.randint(0, 4) *)
  has_savings_account : bool;
  monthly_expenses : Z;           (* generate_realistic_expenses(...) *)
  owns_land : bool;
  land_size_acres : Q;            (* uniform(0.1, 5.0) if owns_land else 0 *)
  owns_livestock : bool;
  livestock_count : Z;            (* randint(1, 20) if owns_livestock else 0 *)
  distance_to_bank : Q;           (* np.random.uniform(0.5, 25.0) *)
  distance_to_market : Q;         (* np.random.uniform(0.2, 30.0) *)
  road_connectivity : Z;          (* np.random.randint(1, 5) *)
  electricity_access : bool;
  group_membership : bool;
  government_scheme_beneficiary : bool;
  mobile_phone_ownership : bool;
  loan_months : Q                 (* np.random.uniform(3, 8) *)
}.

(** What the draws satisfy that the scores rely on. *)
Definition draws_ok (d : draws) : Prop :=
  (0 < income d)%Z /\ (0 <= credit_history_months d)%Z /\
  (0 <= existing_loans d)%Z /\
  (0 <= land_size_acres d)%Q /\ (0 <= livestock_count d)%Z /\
  (0 <= distance_to_bank d)%Q /\ (0 <= distance_to_market d)%Q /\
  (1 <= road_connectivity d <= 5)%Z.

Record risks : Type := {
  demographic_risk : Q;
  financial_risk : Q;
  asset_risk : Q;
  geographic_risk : Q;
  social_risk : Q;
  overall_risk : Q;
  risk_category : string;
  loan_amount : Z
}.

(** The score part of the loop body of [generate_enhanced_borrower_data]. *)
Definition borrower_risks (d : draws) : result risks :=
  let demographic :=
    calculate_demographic_risk (age d) (income d) (education d) (family_size d) in
  match calculate_financial_risk (credit_history_months d) (existing_loans d)
          (has_savings_account d) (income d) (monthly_expenses d) with
  | Raise e => Raise e
  | Ok financial =>
      let asset :=
        calculate_asset_risk (owns_land d) (land_size_acres d)
                             (owns_livestock d) (livestock_count d) in
      let geographic :=
        calculate_geographic_risk (distance_to_bank d) (distance_to_market d)
                                  (road_connectivity d) (electricity_access d) in
      let social :=
        calculate_social_risk (group_membership d)
                              (government_scheme_beneficiary d)
                              (mobile_phone_ownership d) in
      let overall :=
        (demographic * 0.20%Q + financial * 0.30%Q + asset * 0.20%Q +
         geographic * 0.20%Q + social * 0.10%Q)%Q in
      Ok {| demographic_risk := demographic;
            financial_risk := financial;
            asset_risk := asset;
            geographic_risk := geographic;
            social_risk := social;
            overall_risk := overall;
            risk_category := GenerateEnhancedData.categorize_risk overall;
            loan_amount :=
              generate_loan_amount (loan_months d) (income d) overall
                                   (owns_land d) (owns_livestock d) |}
  end.

Definition unit_interval (q : Q) : Prop := (0 <= q /\ q <= 1)%Q.

(** [round(x, ndigits)] on a float: the nearest multiple of
    [10 ** -ndigits], a tie going to the even one. *)
Definition round_half_even (q : Q) : Z :=
  let n := Qnum q in
  let d := Zpos (Qden q) in
  let f := (n / d)%Z in
  let r := (n mod d)%Z in
  if (2 * r <? d)%Z then f
  else if (d <? 2 * r)%Z then (f + 1)%Z
  else if Z.even f then f else (f + 1)%Z.

Definition round (x : Q) (ndigits : Z) : Q :=
  let p := inject_Z (10 ^ ndigits) in
  (inject_Z (round_half_even (x * p)) / p)%Q.

(** The risk fields of the borrower dict: the scores are stored rounded
    to four digits, the category is computed from the unrounded overall
    risk. *)
Record borrower : Type := {
  stored_demographic_risk : Q;
  stored_financial_risk : Q;
  stored_asset_risk : Q;
  stored_geographic_risk : Q;
  stored_social_risk : Q;
  overall_risk_score : Q;
  stored_risk_category : string;
  stored_loan_amount : Z
}.

Definition borrower_dict (d : draws) : result borrower :=
  match borrower_risks d with
  | Raise e => Raise e
  | Ok r =>
      Ok {| stored_demographic_risk := round (demographic_risk r) 4;
            stored_financial_risk := round (financial_risk r) 4;
            stored_asset_risk := round (asset_risk r) 4;
            stored_geographic_risk := round (geographic_risk r) 4;
            stored_social_risk := round (social_risk r) 4;
            overall_risk_score := round (overall_risk r) 4;
            stored_risk_category := risk_category r;
            stored_loan_amount := loan_amount r |}
  end.

Definition sample_draws : draws :=
  {| age := 34; income := 20000; education := "secondary"; family_size := 5;
     credit_history_months := 12; existing_loans := 1;
     has_savings_account := true; monthly_expenses := 15000;
     owns_land := true; land_size_acres := 1.5%Q;
     owns_livestock := false; livestock_count := 0;
     distance_to_bank := 10%Q; distance_to_market := 5%Q;
     road_connectivity := 3; electricity_access := true;
     group_membership := true; government_scheme_beneficiary := false;
     mobile_phone_ownership := true; loan_months := 5%Q |}.

(** Two borrowers in the ranges of the draws who differ in the distance
    to the bank only: 17.66 km and 17.68 km. *)
Definition draws_at (bank_distance : Q) : draws :=
  {| age := 34; income := 20000; education := "secondary"; family_size := 5;
     credit_history_months := 12; existing_loans := 1;
     has_savings_account := true; monthly_expenses := 18000;
     owns_land := true; land_size_acres := 1.5%Q;
     owns_livestock := false; livestock_count := 0;
     distance_to_bank := bank_distance; distance_to_market := 5%Q;
     road_connectivity := 3; electricity_access := true;
     group_membership := true; government_scheme_beneficiary := false;
     mobile_phone_ownership := true; loan_months := 5%Q |}.

Definition nearer_borrower : draws := draws_at 17.66%Q.

Definition farther_borrower : draws := draws_at 17.68%Q.

End EnhancedRisk.


(* ================================================================== *)
(** * Properties *)

(** ** Rational comparisons *)

Section QFacts.
Import Num.
Open Scope Q_scope.

Lemma Qle_bool_false (x y : Q) : Qle_bool x y = false <-> y < x.
Proof.
  split; intro H.
  - apply Qnot_le_lt. intro L. apply Qle_bool_iff in L. congruence.
  - destruct (Qle_bool x y) eqn:E; trivial.
    apply Qle_bool_iff in E. exfalso. apply (Qlt_not_le _ _ H E).
Qed.

Lemma Qlt_bool_iff (x y : Q) : Qlt_bool x y = true <-> x < y.
Proof.
  unfold Qlt_bool. rewrite negb_true_iff. apply Qle_bool_false.
Qed.

Lemma Qlt_bool_false (x y : Q) : Qlt_bool x y = false <-> y <= x.
Proof.
  unfold Qlt_bool. rewrite negb_false_iff. apply Qle_bool_iff.
Qed.

Lemma Qle_bool_Qeq (x y c : Q) : x == y -> Qle_bool x c = Qle_bool y c.
Proof.
  intro E. destruct (Qle_bool y c) eqn:Hy.
  - apply Qle_bool_iff. apply Qle_bool_iff in Hy. rewrite E. exact Hy.
  - apply Qle_bool_false. apply Qle_bool_false in Hy. rewrite E. exact Hy.
Qed.

Lemma Qlt_bool_Qeq (x y c : Q) : x == y -> Qlt_bool c x = Qlt_bool c y.
Proof.
  intro E. destruct (Qlt_bool c y) eqn:Hy.
  - apply Qlt_bool_iff. apply Qlt_bool_iff in Hy. rewrite E. exact Hy.
  - apply Qlt_bool_false. apply Qlt_bool_false in Hy. rewrite E. exact Hy.
Qed.

Lemma Qeq_bool_Qeq (x y c : Q) : x == y -> Qeq_bool x c = Qeq_bool y c.
Proof.
  intro E. destruct (Qeq_bool y c) eqn:Hy.
  - apply Qeq_bool_iff. apply Qeq_bool_iff in Hy. rewrite E. exact Hy.
  - destruct (Qeq_bool x c) eqn:Hx; trivial.
    apply Qeq_bool_iff in Hx. rewrite E in Hx.
    apply Qeq_bool_iff in Hx. congruence.
Qed.

Lemma np_clip_bounds (x lo hi : Q) :
  lo <= hi -> lo <= np_clip x lo hi /\ np_clip x lo hi <= hi.
Proof.
  intro H. unfold np_clip. split.
  - apply Q.min_glb; [apply Q.le_max_r | exact H].
  - apply Q.le_min_r.
Qed.

Lemma cut_right_Qeq (edges : list Q) :
  forall lo labels x y, x == y ->
    cut_right lo edges labels x = cut_right lo edges labels y.
Proof.
  induction edges as [|hi es IH]; intros lo labels x y E; simpl; trivial.
  destruct labels as [|l ls]; trivial.
  rewrite (Qlt_bool_Qeq x y lo E), (Qle_bool_Qeq x y hi E), (IH hi ls x y E).
  reflexivity.
Qed.

Lemma pd_cut_Qeq (bins : list Q) (labels : list string) (incl : bool) x y :
  x == y -> pd_cut x bins labels incl = pd_cut y bins labels incl.
Proof.
  intro E. unfold pd_cut. destruct bins as [|b0 es]; trivial.
  rewrite (Qeq_bool_Qeq x y b0 E), (cut_right_Qeq es b0 labels x y E).
  reflexivity.
Qed.

End QFacts.

(** Turns every boolean rational comparison of the goal into a hypothesis. *)
Ltac qcases :=
  repeat match goal with
    | |- context [Qle_bool ?a ?b] =>
        let E := fresh "E" in
        destruct (Qle_bool a b) eqn:E;
        [apply Qle_bool_iff in E | apply Qle_bool_false in E]
    | |- context [Qeq_bool ?a ?b] =>
        let E := fresh "E" in
        destruct (Qeq_bool a b) eqn:E;
        [apply Qeq_bool_iff in E | apply Qeq_bool_neq in E]
    end.

(* ------------------------------------------------------------------ *)
(** ** Scores are fixed-weight linear combinations *)

(** C1: in every dataframe returned by [calculate_comprehensive_risk_scores],
    the overall risk score of each row is the linear combination of that
    row's component scores with the constant weights 0.18, 0.25, 0.22, 0.15,
    0.12, 0.08 (comprehensive_excel_generator) and 0.2, 0.3, 0.25, 0.15, 0.1
    (excel_based_data_generator); the weight lists are closed constants,
    independent of the row. *)
Theorem overall_risk_fixed_weights :
  (forall df r,
      In r (ComprehensiveExcelGenerator.calculate_comprehensive_risk_scores df) ->
      (ComprehensiveExcelGenerator.overall_risk_score r ==
       Num.weighted_sum [0.18; 0.25; 0.22; 0.15; 0.12; 0.08]
         (ComprehensiveExcelGenerator.component_scores r))%Q) /\
  (forall df r,
      In r (ExcelBasedDataGenerator.calculate_comprehensive_risk_scores df) ->
      (ExcelBasedDataGenerator.overall_risk_score r ==
       Num.weighted_sum [0.2; 0.3; 0.25; 0.15; 0.1]
         (ExcelBasedDataGenerator.component_scores r))%Q).
Proof.
  split; intros df r Hin.
  - unfold ComprehensiveExcelGenerator.calculate_comprehensive_risk_scores in Hin.
    apply in_map_iff in Hin. destruct Hin as [b [<- _]].
    unfold ComprehensiveExcelGenerator.component_scores,
      ComprehensiveExcelGenerator.score_row. simpl. ring.
  - unfold ExcelBasedDataGenerator.calculate_comprehensive_risk_scores in Hin.
    apply in_map_iff in Hin. destruct Hin as [b [<- _]].
    unfold ExcelBasedDataGenerator.component_scores,
      ExcelBasedDataGenerator.score_row. simpl. ring.
Qed.

Lemma overall_risk_fixed_weights_witness :
  (In (ComprehensiveExcelGenerator.score_row SampleRows.comprehensive_row)
      (ComprehensiveExcelGenerator.calculate_comprehensive_risk_scores
         [SampleRows.comprehensive_row]) /\
   (ComprehensiveExcelGenerator.overall_risk_score
      (ComprehensiveExcelGenerator.score_row SampleRows.comprehensive_row) ==
    Num.weighted_sum [0.18; 0.25; 0.22; 0.15; 0.12; 0.08]
      (ComprehensiveExcelGenerator.component_scores
         (ComprehensiveExcelGenerator.score_row SampleRows.comprehensive_row)))%Q) /\
  (In (ExcelBasedDataGenerator.score_row SampleRows.excel_based_row)
      (ExcelBasedDataGenerator.calculate_comprehensive_risk_scores
         [SampleRows.excel_based_row]) /\
   (ExcelBasedDataGenerator.overall_risk_score
      (ExcelBasedDataGenerator.score_row SampleRows.excel_based_row) ==
    Num.weighted_sum [0.2; 0.3; 0.25; 0.15; 0.1]
      (ExcelBasedDataGenerator.component_scores
         (ExcelBasedDataGenerator.score_row SampleRows.excel_based_row)))%Q).
Proof.
  split; (split; [left; reflexivity|]).
  - apply (proj1 overall_risk_fixed_weights [SampleRows.comprehensive_row]).
    left; reflexivity.
  - apply (proj2 overall_risk_fixed_weights [SampleRows.excel_based_row]).
    left; reflexivity.
Defined.

(** The overall score of the worst sample row, evaluated. *)
Example comprehensive_row_overall :
  Qred (ComprehensiveExcelGenerator.overall_risk_score
          (ComprehensiveExcelGenerator.score_row SampleRows.comprehensive_row))
  = (3321 # 200)%Q.
Proof. vm_compute. reflexivity. Qed.

(* ------------------------------------------------------------------ *)
(** ** Scores stay within [0, 100] *)

Section Bounds.
Import Num.
Open Scope Q_scope.

Lemma np_clip_0_100 (x : Q) : within_0_100 (np_clip x 0 100).
Proof. apply np_clip_bounds. discriminate. Qed.

Lemma comprehensive_row_bounds (b : ComprehensiveExcelGenerator.borrower) :
  let r := ComprehensiveExcelGenerator.score_row b in
  Forall within_0_100 (ComprehensiveExcelGenerator.component_scores r) /\
  within_0_100 (ComprehensiveExcelGenerator.overall_risk_score r).
Proof.
  unfold ComprehensiveExcelGenerator.component_scores,
    ComprehensiveExcelGenerator.score_row; simpl.
  set (d := np_clip _ 0 100). set (f := np_clip _ 0 100).
  set (a := np_clip _ 0 100). set (s := np_clip _ 0 100).
  set (i := np_clip _ 0 100). set (c := np_clip _ 0 100).
  assert (Hd : within_0_100 d) by apply np_clip_0_100.
  assert (Hf : within_0_100 f) by apply np_clip_0_100.
  assert (Ha : within_0_100 a) by apply np_clip_0_100.
  assert (Hs : within_0_100 s) by apply np_clip_0_100.
  assert (Hi : within_0_100 i) by apply np_clip_0_100.
  assert (Hc : within_0_100 c) by apply np_clip_0_100.
  split; [repeat (apply Forall_cons; [assumption|]); apply Forall_nil|].
  clearbody d f a s i c. unfold within_0_100 in *. lra.
Qed.

Lemma excel_based_row_bounds (b : ExcelBasedDataGenerator.borrower) :
  let r := ExcelBasedDataGenerator.score_row b in
  Forall within_0_100 (ExcelBasedDataGenerator.component_scores r) /\
  within_0_100 (ExcelBasedDataGenerator.overall_risk_score r).
Proof.
  unfold ExcelBasedDataGenerator.component_scores,
    ExcelBasedDataGenerator.score_row; simpl.
  set (d := np_clip _ 0 100). set (f := np_clip _ 0 100).
  set (a := np_clip _ 0 100). set (s := np_clip _ 0 100).
  set (c := np_clip _ 0 100).
  assert (Hd : within_0_100 d) by apply np_clip_0_100.
  assert (Hf : within_0_100 f) by apply np_clip_0_100.
  assert (Ha : within_0_100 a) by apply np_clip_0_100.
  assert (Hs : within_0_100 s) by apply np_clip_0_100.
  assert (Hc : within_0_100 c) by apply np_clip_0_100.
  split; [repeat (apply Forall_cons; [assumption|]); apply Forall_nil|].
  clearbody d f a s c. unfold within_0_100 in *. lra.
Qed.

Lemma Qmax_0_bounds (x : Q) : x <= 1 -> 0 <= Qmax 0 x /\ Qmax 0 x <= 1.
Proof.
  intro H. split; [apply Q.le_max_l|].
  apply Q.max_lub; [discriminate | exact H].
Qed.

Lemma one_minus_ratio_le_1 (x c : Q) : 0 <= x -> 0 < c -> 1 - x / c <= 1.
Proof.
  intros Hx Hc.
  assert (0 <= x / c).
  { apply Qle_shift_div_l; [exact Hc|]. rewrite Qmult_0_l. exact Hx. }
  lra.
Qed.

(** Each of the four risk factors of generate_sample_data lies in [0, 1]
    when the draws are in the ranges of their generators. *)
Lemma sample_overall_risk_unit (d : GenerateSampleData.draws) :
  GenerateSampleData.in_range d ->
  0 <= GenerateSampleData.overall_risk d /\
  GenerateSampleData.overall_risk d <= 1.
Proof.
  intros (Hage & Hinc & Hc0 & Hc10).
  assert (Ha : 0 <= GenerateSampleData.age_risk d /\
               GenerateSampleData.age_risk d <= 1).
  { unfold GenerateSampleData.age_risk.
    destruct (_ && _); split; discriminate. }
  assert (He : 0 <= GenerateSampleData.education_risk d /\
               GenerateSampleData.education_risk d <= 1).
  { unfold GenerateSampleData.education_risk.
    destruct (GenerateSampleData.edu d); split; discriminate. }
  assert (Hi : 0 <= GenerateSampleData.income_risk d /\
               GenerateSampleData.income_risk d <= 1).
  { unfold GenerateSampleData.income_risk. apply Qmax_0_bounds.
    apply one_minus_ratio_le_1; [|reflexivity].
    change 0 with (inject_Z 0). rewrite <- Zle_Qle. lia. }
  assert (Hc : 0 <= GenerateSampleData.credit_risk d /\
               GenerateSampleData.credit_risk d <= 1).
  { unfold GenerateSampleData.credit_risk. apply Qmax_0_bounds.
    apply one_minus_ratio_le_1; [exact Hc0 | reflexivity]. }
  unfold GenerateSampleData.overall_risk, GenerateSampleData.risk_factors,
    GenerateSampleData.sum. simpl.
  generalize dependent (GenerateSampleData.age_risk d).
  generalize dependent (GenerateSampleData.education_risk d).
  generalize dependent (GenerateSampleData.income_risk d).
  generalize dependent (GenerateSampleData.credit_risk d).
  intros. unfold Qdiv. change (/ inject_Z 4) with (1 # 4). lra.
Qed.

End Bounds.

(** C2: every component score and the overall score written by
    [calculate_comprehensive_risk_scores] (both generators) lies in [0, 100];
    the overall risk of every borrower of generate_sample_data, the mean of
    its four risk factors, lies in [0, 100] as well (in fact in [0, 1]) for
    draws taken from the generator's ranges. *)
Theorem risk_scores_within_0_100 :
  (forall df r,
      In r (ComprehensiveExcelGenerator.calculate_comprehensive_risk_scores df) ->
      Forall Num.within_0_100 (ComprehensiveExcelGenerator.component_scores r) /\
      Num.within_0_100 (ComprehensiveExcelGenerator.overall_risk_score r)) /\
  (forall df r,
      In r (ExcelBasedDataGenerator.calculate_comprehensive_risk_scores df) ->
      Forall Num.within_0_100 (ExcelBasedDataGenerator.component_scores r) /\
      Num.within_0_100 (ExcelBasedDataGenerator.overall_risk_score r)) /\
  (forall ds b,
      Forall GenerateSampleData.in_range ds ->
      In b (GenerateSampleData.generate_sample_data ds) ->
      Num.within_0_100 (GenerateSampleData.overall_risk_score b)).
Proof.
  split; [|split].
  - intros df r Hin. apply in_map_iff in Hin. destruct Hin as [b [<- _]].
    apply comprehensive_row_bounds.
  - intros df r Hin. apply in_map_iff in Hin. destruct Hin as [b [<- _]].
    apply excel_based_row_bounds.
  - intros ds b Hall Hin. apply in_map_iff in Hin. destruct Hin as [d [<- Hd]].
    rewrite Forall_forall in Hall.
    destruct (sample_overall_risk_unit d (Hall d Hd)) as [H0 H1].
    split; simpl; [exact H0 | lra].
Qed.

Lemma risk_scores_within_0_100_witness :
  Num.within_0_100
    (ComprehensiveExcelGenerator.overall_risk_score
       (ComprehensiveExcelGenerator.score_row SampleRows.comprehensive_row)) /\
  Num.within_0_100
    (ExcelBasedDataGenerator.overall_risk_score
       (ExcelBasedDataGenerator.score_row SampleRows.excel_based_row)) /\
  Num.within_0_100
    (GenerateSampleData.overall_risk_score
       (GenerateSampleData.make_borrower SampleRows.sample_draws)).
Proof.
  destruct risk_scores_within_0_100 as (Hc & He & Hs).
  split; [|split].
  - apply (Hc [SampleRows.comprehensive_row]). left; reflexivity.
  - apply (He [SampleRows.excel_based_row]). left; reflexivity.
  - apply (Hs [SampleRows.sample_draws]).
    + constructor; [|constructor].
      unfold GenerateSampleData.in_range; simpl.
      repeat split; try lia; try discriminate; reflexivity.
    + left; reflexivity.
Defined.

(* ------------------------------------------------------------------ *)
(** ** Risk categories are static threshold functions of the score *)

Section Categories.
Import Num.
Open Scope Q_scope.

Lemma comprehensive_cut (s : Q) :
  let l := pd_cut s ComprehensiveExcelGenerator.bins
             ComprehensiveExcelGenerator.labels true in
  (0 <= s /\ s <= 20 -> l = Some "Low Risk"%string) /\
  (20 < s /\ s <= 40 -> l = Some "Medium Risk"%string) /\
  (40 < s /\ s <= 65 -> l = Some "High Risk"%string) /\
  (65 < s /\ s <= 100 -> l = Some "Very High Risk"%string).
Proof.
  unfold pd_cut, cut_right, ComprehensiveExcelGenerator.bins,
    ComprehensiveExcelGenerator.labels, Qlt_bool; simpl.
  split; [|split; [|split]]; intros [H1 H2]; qcases; simpl; trivial; lra.
Qed.

Lemma five_levels (f : Q -> string) :
  (forall s, f s =
     if Qle_bool s 0.2 then "Very Low"%string
     else if Qle_bool s 0.4 then "Low"%string
     else if Qle_bool s 0.6 then "Medium"%string
     else if Qle_bool s 0.8 then "High"%string
     else "Very High"%string) ->
  forall s,
    (s <= 0.2 -> f s = "Very Low"%string) /\
    (0.2 < s /\ s <= 0.4 -> f s = "Low"%string) /\
    (0.4 < s /\ s <= 0.6 -> f s = "Medium"%string) /\
    (0.6 < s /\ s <= 0.8 -> f s = "High"%string) /\
    (0.8 < s -> f s = "Very High"%string).
Proof.
  intros Hf s. rewrite Hf.
  split; [|split; [|split; [|split]]]; intros H;
    qcases; trivial; lra.
Qed.

Lemma five_levels_Qeq (f : Q -> string) :
  (forall s, f s =
     if Qle_bool s 0.2 then "Very Low"%string
     else if Qle_bool s 0.4 then "Low"%string
     else if Qle_bool s 0.6 then "Medium"%string
     else if Qle_bool s 0.8 then "High"%string
     else "Very High"%string) ->
  forall s1 s2, s1 == s2 -> f s1 = f s2.
Proof.
  intros Hf s1 s2 E. rewrite !Hf.
  rewrite !(Qle_bool_Qeq s1 s2 _ E). reflexivity.
Qed.

Lemma comprehensive_cut_outside (s : Q) :
  s < 0 \/ 100 < s ->
  pd_cut s ComprehensiveExcelGenerator.bins
         ComprehensiveExcelGenerator.labels true = None.
Proof.
  unfold pd_cut, cut_right, ComprehensiveExcelGenerator.bins,
    ComprehensiveExcelGenerator.labels, Qlt_bool; simpl.
  intros [H|H]; qcases; simpl; trivial; lra.
Qed.

(** *** Rounding to four digits *)

Lemma round_half_even_close (q : Q) :
  inject_Z (EnhancedRisk.round_half_even q) - (1 # 2) <= q /\
  q <= inject_Z (EnhancedRisk.round_half_even q) + (1 # 2).
Proof.
  destruct q as [n d]. unfold EnhancedRisk.round_half_even.
  cbn [Qnum Qden].
  pose proof (Z.div_mod n (Z.pos d)) as Hdm.
  pose proof (Z.mod_pos_bound n (Z.pos d)) as Hr.
  assert (Hd : (0 < Z.pos d)%Z) by lia.
  specialize (Hr Hd). assert (Hne : Z.pos d <> 0%Z) by lia.
  specialize (Hdm Hne).
  set (f := (n / Z.pos d)%Z) in *. set (r := (n mod Z.pos d)%Z) in *.
  assert (Hlo : forall k : Z,
             (2 * k * Z.pos d - Z.pos d <= 2 * n)%Z ->
             inject_Z k - (1 # 2) <= n # d).
  { intros k Hk. unfold Qle, Qminus, Qplus, Qopp, inject_Z.
    cbn [Qnum Qden]. rewrite !Pos2Z.inj_mul. nia. }
  assert (Hhi : forall k : Z,
             (2 * n <= 2 * k * Z.pos d + Z.pos d)%Z ->
             n # d <= inject_Z k + (1 # 2)).
  { intros k Hk. unfold Qle, Qplus, inject_Z.
    cbn [Qnum Qden]. rewrite !Pos2Z.inj_mul. nia. }
  destruct (2 * r <? Z.pos d)%Z eqn:E1;
    [apply Z.ltb_lt in E1 | apply Z.ltb_ge in E1].
  - split; [apply Hlo | apply Hhi]; nia.
  - destruct (Z.pos d <? 2 * r)%Z eqn:E2;
      [apply Z.ltb_lt in E2 | apply Z.ltb_ge in E2].
    + split; [apply Hlo | apply Hhi]; nia.
    + destruct (Z.even f); split; (apply Hlo || apply Hhi); nia.
Qed.

(** [round(x, 4)] is a multiple of 0.0001 at distance at most 0.00005. *)
Lemma round4_close (x : Q) :
  exists k : Z,
    EnhancedRisk.round x 4 = inject_Z k / 10000 /\
    inject_Z k - (1 # 2) <= x * 10000 /\
    x * 10000 <= inject_Z k + (1 # 2).
Proof.
  exists (EnhancedRisk.round_half_even (x * 10000)).
  split; [reflexivity|]. apply round_half_even_close.
Qed.

Lemma ten_thousandths_lt (k c : Z) :
  inject_Z k / 10000 < inject_Z c / 10000 -> inject_Z k <= inject_Z c - 1.
Proof.
  intro H.
  assert (Hz : (k < c)%Z).
  { unfold Qlt, Qdiv, Qmult, Qinv, inject_Z in H. cbn in H. lia. }
  assert (Hc : (k <= c - 1)%Z) by lia.
  rewrite Zle_Qle in Hc. unfold Z.sub in Hc. rewrite inject_Z_plus in Hc.
  exact Hc.
Qed.

Lemma ten_thousandths_eq (k c : Z) :
  inject_Z k / 10000 == inject_Z c / 10000 -> inject_Z k == inject_Z c.
Proof.
  intro H.
  assert (Hz : k = c).
  { unfold Qeq, Qdiv, Qmult, Qinv, inject_Z in H. cbn in H. lia. }
  rewrite Hz. reflexivity.
Qed.

(** A stored score on one side of a multiple of 0.0001 has the unrounded
    score on the same side; a stored score equal to it has the unrounded
    score within 0.00005. *)
Lemma round4_threshold (x : Q) (c : Z) :
  (EnhancedRisk.round x 4 < inject_Z c / 10000 -> x < inject_Z c / 10000) /\
  (inject_Z c / 10000 < EnhancedRisk.round x 4 -> inject_Z c / 10000 < x) /\
  (EnhancedRisk.round x 4 == inject_Z c / 10000 ->
   inject_Z c / 10000 - (1 # 20000) <= x /\
   x <= inject_Z c / 10000 + (1 # 20000)).
Proof.
  destruct (round4_close x) as (k & -> & Hlo & Hhi).
  set (a := inject_Z k) in *. set (b := inject_Z c) in *.
  split; [|split]; intro H.
  - apply ten_thousandths_lt in H. fold a b in H.
    unfold Qdiv. change (/ 10000) with (1 # 10000). lra.
  - apply ten_thousandths_lt in H. fold a b in H.
    unfold Qdiv. change (/ 10000) with (1 # 10000). lra.
  - apply ten_thousandths_eq in H. fold a b in H.
    unfold Qdiv. change (/ 10000) with (1 # 10000). split; lra.
Qed.

(** The label of a borrower of generate_enhanced_data against the score
    stored with it. *)
Lemma stored_score_levels (x : Q) :
  let s := EnhancedRisk.round x 4 in
  let l := GenerateEnhancedData.categorize_risk x in
  (s < 0.2 -> l = "Very Low"%string) /\
  (0.2 < s /\ s < 0.4 -> l = "Low"%string) /\
  (0.4 < s /\ s < 0.6 -> l = "Medium"%string) /\
  (0.6 < s /\ s < 0.8 -> l = "High"%string) /\
  (0.8 < s -> l = "Very High"%string) /\
  (s == 0.2 -> l = "Very Low"%string \/ l = "Low"%string) /\
  (s == 0.4 -> l = "Low"%string \/ l = "Medium"%string) /\
  (s == 0.6 -> l = "Medium"%string \/ l = "High"%string) /\
  (s == 0.8 -> l = "High"%string \/ l = "Very High"%string).
Proof.
  cbv zeta.
  assert (E2 : 0.2 == inject_Z 2000 / 10000) by reflexivity.
  assert (E4 : 0.4 == inject_Z 4000 / 10000) by reflexivity.
  assert (E6 : 0.6 == inject_Z 6000 / 10000) by reflexivity.
  assert (E8 : 0.8 == inject_Z 8000 / 10000) by reflexivity.
  destruct (round4_threshold x 2000) as (L2 & G2 & Q2).
  destruct (round4_threshold x 4000) as (L4 & G4 & Q4).
  destruct (round4_threshold x 6000) as (L6 & G6 & Q6).
  destruct (round4_threshold x 8000) as (L8 & G8 & Q8).
  rewrite <- E2 in L2, G2, Q2. rewrite <- E4 in L4, G4, Q4.
  rewrite <- E6 in L6, G6, Q6. rewrite <- E8 in L8, G8, Q8.
  clear E2 E4 E6 E8.
  set (s := EnhancedRisk.round x 4) in *. clearbody s.
  pose proof (five_levels GenerateEnhancedData.categorize_risk
                (fun _ => eq_refl) x) as (T1 & T2 & T3 & T4 & T5).
  assert (Hcase : x <= 0.2 \/ (0.2 < x /\ x <= 0.4) \/ (0.4 < x /\ x <= 0.6) \/
                  (0.6 < x /\ x <= 0.8) \/ 0.8 < x).
  { destruct (Qlt_le_dec 0.2 x); [|left; assumption].
    destruct (Qlt_le_dec 0.4 x); [|right; left; split; assumption].
    destruct (Qlt_le_dec 0.6 x); [|right; right; left; split; assumption].
    destruct (Qlt_le_dec 0.8 x); [|right; right; right; left; split; assumption].
    right; right; right; right; assumption. }
  repeat split.
  - intro H. apply T1. apply L2 in H. lra.
  - intros [H1 H2]. apply T2. apply G2 in H1. apply L4 in H2. lra.
  - intros [H1 H2]. apply T3. apply G4 in H1. apply L6 in H2. lra.
  - intros [H1 H2]. apply T4. apply G6 in H1. apply L8 in H2. lra.
  - intro H. apply T5. apply G8 in H. exact H.
  - intro H. apply Q2 in H.
    destruct (Qlt_le_dec 0.2 x); [right; apply T2; lra | left; apply T1; lra].
  - intro H. apply Q4 in H.
    destruct (Qlt_le_dec 0.4 x); [right; apply T3; lra | left; apply T2; lra].
  - intro H. apply Q6 in H.
    destruct (Qlt_le_dec 0.6 x); [right; apply T4; lra | left; apply T3; lra].
  - intro H. apply Q8 in H.
    destruct (Qlt_le_dec 0.8 x); [right; apply T5; lra | left; apply T4; lra].
Qed.

End Categories.

(** C3, as the code has it: the label is a static threshold function of
    the overall risk the generator computed.  comprehensive_excel_generator
    labels every row by [pd.cut] of its score, which maps [0,20], (20,40],
    (40,65], (65,100] to Low / Medium / High / Very High Risk (and nothing
    else to a label); generate_sample_data and [categorize_risk] map <= 0.2
    to Very Low, <= 0.4 to Low, <= 0.6 to Medium, <= 0.8 to High and anything
    above to Very High.  In the first two generators the stored score is the
    score that was labelled, so equal scores carry equal labels.  In
    generate_enhanced_data the stored score is the overall risk rounded to
    four digits while the label is computed from the unrounded value: the
    label follows the thresholds on the stored score strictly between the
    thresholds, and a stored score equal to 0.2, 0.4, 0.6 or 0.8 carries the
    label of either neighbouring level; equal unrounded risks carry equal
    labels. *)
Theorem risk_category_static_thresholds :
  (forall s : Q,
      let l := Num.pd_cut s ComprehensiveExcelGenerator.bins
                 ComprehensiveExcelGenerator.labels true in
      ((0 <= s /\ s <= 20 -> l = Some "Low Risk"%string) /\
       (20 < s /\ s <= 40 -> l = Some "Medium Risk"%string) /\
       (40 < s /\ s <= 65 -> l = Some "High Risk"%string) /\
       (65 < s /\ s <= 100 -> l = Some "Very High Risk"%string) /\
       (s < 0 \/ 100 < s -> l = None))%Q) /\
  (forall df r,
      In r (ComprehensiveExcelGenerator.calculate_comprehensive_risk_scores df) ->
      ComprehensiveExcelGenerator.risk_category r =
      Num.pd_cut (ComprehensiveExcelGenerator.overall_risk_score r)
        ComprehensiveExcelGenerator.bins ComprehensiveExcelGenerator.labels true) /\
  (forall df1 df2 r1 r2,
      In r1 (ComprehensiveExcelGenerator.calculate_comprehensive_risk_scores df1) ->
      In r2 (ComprehensiveExcelGenerator.calculate_comprehensive_risk_scores df2) ->
      (ComprehensiveExcelGenerator.overall_risk_score r1 ==
       ComprehensiveExcelGenerator.overall_risk_score r2)%Q ->
      ComprehensiveExcelGenerator.risk_category r1 =
      ComprehensiveExcelGenerator.risk_category r2) /\
  (forall s : Q,
      let l := GenerateSampleData.risk_category_of s in
      ((s <= 0.2 -> l = "Very Low"%string) /\
       (0.2 < s /\ s <= 0.4 -> l = "Low"%string) /\
       (0.4 < s /\ s <= 0.6 -> l = "Medium"%string) /\
       (0.6 < s /\ s <= 0.8 -> l = "High"%string) /\
       (0.8 < s -> l = "Very High"%string))%Q) /\
  (forall ds b,
      In b (GenerateSampleData.generate_sample_data ds) ->
      GenerateSampleData.risk_category b =
      GenerateSampleData.risk_category_of (GenerateSampleData.overall_risk_score b)) /\
  (forall ds1 ds2 b1 b2,
      In b1 (GenerateSampleData.generate_sample_data ds1) ->
      In b2 (GenerateSampleData.generate_sample_data ds2) ->
      (GenerateSampleData.overall_risk_score b1 ==
       GenerateSampleData.overall_risk_score b2)%Q ->
      GenerateSampleData.risk_category b1 = GenerateSampleData.risk_category b2) /\
  (forall s : Q,
      let l := GenerateEnhancedData.categorize_risk s in
      ((s <= 0.2 -> l = "Very Low"%string) /\
       (0.2 < s /\ s <= 0.4 -> l = "Low"%string) /\
       (0.4 < s /\ s <= 0.6 -> l = "Medium"%string) /\
       (0.6 < s /\ s <= 0.8 -> l = "High"%string) /\
       (0.8 < s -> l = "Very High"%string))%Q) /\
  (forall d b,
      EnhancedRisk.borrower_dict d = Py.Ok b ->
      exists r,
        EnhancedRisk.borrower_risks d = Py.Ok r /\
        EnhancedRisk.overall_risk_score b =
          EnhancedRisk.round (EnhancedRisk.overall_risk r) 4 /\
        EnhancedRisk.stored_risk_category b =
          GenerateEnhancedData.categorize_risk (EnhancedRisk.overall_risk r) /\
        let s := EnhancedRisk.overall_risk_score b in
        let l := EnhancedRisk.stored_risk_category b in
        ((s < 0.2 -> l = "Very Low"%string) /\
         (0.2 < s /\ s < 0.4 -> l = "Low"%string) /\
         (0.4 < s /\ s < 0.6 -> l = "Medium"%string) /\
         (0.6 < s /\ s < 0.8 -> l = "High"%string) /\
         (0.8 < s -> l = "Very High"%string) /\
         (s == 0.2 -> l = "Very Low"%string \/ l = "Low"%string) /\
         (s == 0.4 -> l = "Low"%string \/ l = "Medium"%string) /\
         (s == 0.6 -> l = "Medium"%string \/ l = "High"%string) /\
         (s == 0.8 -> l = "High"%string \/ l = "Very High"%string))%Q) /\
  (forall d1 d2 r1 r2,
      EnhancedRisk.borrower_risks d1 = Py.Ok r1 ->
      EnhancedRisk.borrower_risks d2 = Py.Ok r2 ->
      (EnhancedRisk.overall_risk r1 == EnhancedRisk.overall_risk r2)%Q ->
      EnhancedRisk.risk_category r1 = EnhancedRisk.risk_category r2).
Proof.
  split; [|split; [|split; [|split; [|split; [|split; [|split; [|split]]]]]]].
  - intro s. cbv zeta.
    destruct (comprehensive_cut s) as (H1 & H2 & H3 & H4).
    repeat split; trivial. apply comprehensive_cut_outside.
  - intros df r Hin. apply in_map_iff in Hin. destruct Hin as [b [<- _]].
    reflexivity.
  - intros df1 df2 r1 r2 H1 H2 E.
    apply in_map_iff in H1. destruct H1 as [b1 [<- _]].
    apply in_map_iff in H2. destruct H2 as [b2 [<- _]].
    unfold ComprehensiveExcelGenerator.score_row in *.
    cbn [ComprehensiveExcelGenerator.risk_category
         ComprehensiveExcelGenerator.overall_risk_score] in *.
    apply pd_cut_Qeq. exact E.
  - intro s. apply (five_levels GenerateSampleData.risk_category_of).
    reflexivity.
  - intros ds b Hin. apply in_map_iff in Hin. destruct Hin as [d [<- _]].
    reflexivity.
  - intros ds1 ds2 b1 b2 H1 H2 E.
    apply in_map_iff in H1. destruct H1 as [d1 [<- _]].
    apply in_map_iff in H2. destruct H2 as [d2 [<- _]].
    cbn [GenerateSampleData.make_borrower GenerateSampleData.risk_category
         GenerateSampleData.overall_risk_score] in *.
    apply (five_levels_Qeq GenerateSampleData.risk_category_of);
      [reflexivity | exact E].
  - intro s. apply (five_levels GenerateEnhancedData.categorize_risk).
    reflexivity.
  - intros d b Hb. unfold EnhancedRisk.borrower_dict in Hb.
    destruct (EnhancedRisk.borrower_risks d) as [r|e] eqn:Hr; [|discriminate].
    injection Hb as <-. exists r. split; [reflexivity|].
    cbn [EnhancedRisk.overall_risk_score EnhancedRisk.stored_risk_category].
    assert (Hcat : EnhancedRisk.risk_category r =
                   GenerateEnhancedData.categorize_risk (EnhancedRisk.overall_risk r)).
    { unfold EnhancedRisk.borrower_risks in Hr.
      destruct (EnhancedRisk.calculate_financial_risk _ _ _ _ _);
        [|discriminate].
      injection Hr as <-. reflexivity. }
    split; [reflexivity|]. split; [exact Hcat|].
    rewrite Hcat. apply stored_score_levels.
  - intros d1 d2 r1 r2 H1 H2 E.
    unfold EnhancedRisk.borrower_risks in H1, H2.
    destruct (EnhancedRisk.calculate_financial_risk _ _ _ _ _) in H1;
      [|discriminate].
    destruct (EnhancedRisk.calculate_financial_risk _ _ _ _ _) in H2;
      [|discriminate].
    injection H1 as <-. injection H2 as <-.
    cbn [EnhancedRisk.risk_category EnhancedRisk.overall_risk] in *.
    apply (five_levels_Qeq GenerateEnhancedData.categorize_risk);
      [reflexivity | exact E].
Qed.

Lemma risk_category_static_thresholds_witness :
  ComprehensiveExcelGenerator.risk_category
    (ComprehensiveExcelGenerator.score_row SampleRows.comprehensive_row)
  = Num.pd_cut
      (ComprehensiveExcelGenerator.overall_risk_score
         (ComprehensiveExcelGenerator.score_row SampleRows.comprehensive_row))
      ComprehensiveExcelGenerator.bins ComprehensiveExcelGenerator.labels true /\
  GenerateSampleData.risk_category
    (GenerateSampleData.make_borrower SampleRows.sample_draws)
  = GenerateSampleData.risk_category_of
      (GenerateSampleData.overall_risk_score
         (GenerateSampleData.make_borrower SampleRows.sample_draws)) /\
  Num.pd_cut 50 ComprehensiveExcelGenerator.bins
    ComprehensiveExcelGenerator.labels true = Some "High Risk"%string /\
  exists b,
    EnhancedRisk.borrower_dict EnhancedRisk.sample_draws = Py.Ok b /\
    EnhancedRisk.stored_risk_category b = "Low"%string.
Proof.
  destruct risk_category_static_thresholds
    as (Hcut & Hc & _ & _ & Hs & _ & _ & He & _).
  split; [|split; [|split]].
  - apply (Hc [SampleRows.comprehensive_row]). left; reflexivity.
  - apply (Hs [SampleRows.sample_draws]). left; reflexivity.
  - apply (proj1 (proj2 (proj2 (Hcut 50%Q)))).
    split; [reflexivity | discriminate].
  - assert (Hb : exists b, EnhancedRisk.borrower_dict EnhancedRisk.sample_draws
                           = Py.Ok b)
      by (eexists; vm_compute; reflexivity).
    destruct Hb as [b Hb]. exists b. split; [exact Hb|].
    destruct (He EnhancedRisk.sample_draws b Hb)
      as (r & _ & _ & _ & _ & Hlow & _).
    apply Hlow.
    vm_compute in Hb. injection Hb as <-.
    split; vm_compute; reflexivity.
Defined.

(** C3 as stated fails in generate_enhanced_data: two borrowers whose
    distance to the bank is 17.66 km and 17.68 km have the overall risks
    0.39998... and 0.40003..., both stored as 0.4, and are labelled Low and
    Medium: equal stored scores, different labels. *)
Lemma stored_score_label_counterexample :
  exists b1 b2,
    EnhancedRisk.borrower_dict EnhancedRisk.nearer_borrower = Py.Ok b1 /\
    EnhancedRisk.borrower_dict EnhancedRisk.farther_borrower = Py.Ok b2 /\
    EnhancedRisk.overall_risk_score b1 = 0.4000%Q /\
    EnhancedRisk.overall_risk_score b2 = 0.4000%Q /\
    EnhancedRisk.stored_risk_category b1 = "Low"%string /\
    EnhancedRisk.stored_risk_category b2 = "Medium"%string /\
    ~ (forall d1 d2 c1 c2,
          EnhancedRisk.borrower_dict d1 = Py.Ok c1 ->
          EnhancedRisk.borrower_dict d2 = Py.Ok c2 ->
          (EnhancedRisk.overall_risk_score c1 ==
           EnhancedRisk.overall_risk_score c2)%Q ->
          EnhancedRisk.stored_risk_category c1 =
          EnhancedRisk.stored_risk_category c2).
Proof.
  assert (H1 : exists b1,
             EnhancedRisk.borrower_dict EnhancedRisk.nearer_borrower = Py.Ok b1 /\
             EnhancedRisk.overall_risk_score b1 = 0.4000%Q /\
             EnhancedRisk.stored_risk_category b1 = "Low"%string).
  { eexists. split; [vm_compute; reflexivity|]. split; reflexivity. }
  assert (H2 : exists b2,
             EnhancedRisk.borrower_dict EnhancedRisk.farther_borrower = Py.Ok b2 /\
             EnhancedRisk.overall_risk_score b2 = 0.4000%Q /\
             EnhancedRisk.stored_risk_category b2 = "Medium"%string).
  { eexists. split; [vm_compute; reflexivity|]. split; reflexivity. }
  destruct H1 as (b1 & Hb1 & Hs1 & Hl1). destruct H2 as (b2 & Hb2 & Hs2 & Hl2).
  exists b1, b2. repeat split; trivial.
  intro H.
  specialize (H _ _ b1 b2 Hb1 Hb2). rewrite Hs1, Hs2, Hl1, Hl2 in H.
  specialize (H (Qeq_refl _)). discriminate.
Qed.

(* ------------------------------------------------------------------ *)
(** ** The banking intelligence API *)

Section Api.
Import BankingIntelligenceAPI.

Lemma calculate_risk_score_clamped (d : draws) :
  0 <= _calculate_risk_score d <= 100.
Proof. unfold _calculate_risk_score. cbv zeta. lia. Qed.

Lemma calculate_risk_score_range (d : draws) :
  draws_ok d -> 20 <= _calculate_risk_score d <= 55.
Proof.
  unfold draws_ok, randint_ok, _calculate_risk_score. cbv zeta.
  intros (Hb & _ & Hm).
  destruct (month_in (current_month d) [6; 7; 8]); lia.
Qed.

Lemma purpose_offset (p : string) :
  dict_get purpose_risk p 10 =
    if String.eqb p "Agriculture" then 10
    else if String.eqb p "Business" then 5
    else if String.eqb p "Personal" then 15
    else if String.eqb p "Home" then 0
    else if String.eqb p "Vehicle" then 8
    else 10.
Proof. reflexivity. Qed.

Lemma purpose_risk_get_hashable (p : Json.json) :
  Json.hashable p = true ->
  purpose_risk_get p 10 =
    Py.Ok match p with
          | Json.JString k => dict_get purpose_risk k 10
          | _ => 10
          end.
Proof. destruct p; intro H; try discriminate; reflexivity. Qed.

Lemma purpose_risk_get_unhashable (p : Json.json) :
  Json.hashable p = false ->
  purpose_risk_get p 10 =
    Py.Raise ("unhashable type: '" ++ Json.type_name p ++ "'")%string.
Proof. destruct p; intro H; try discriminate; reflexivity. Qed.

(** The view on a body that is an object: the three [get] calls succeed
    and the outcome is decided by the lookup of the purpose. *)
Lemma lending_on_object (d : draws) (members : list (string * Json.json)) :
  match purpose_risk_get (purpose_of members) 10 with
  | Py.Raise e =>
      get_lending_recommendation d (Json.JObject members) = Py.Raise e
  | Py.Ok offset =>
      exists r,
        get_lending_recommendation d (Json.JObject members) = Py.Ok r /\
        application_purpose r = purpose_of members /\
        env_overall_risk (environment r) = _calculate_risk_score d /\
        risk_score r = _calculate_risk_score d + offset /\
        (((risk_score r <? 40) = true /\
          recommendation r = "APPROVE"%string /\
          suggested_interest_rate r = 10.5%Q) \/
         ((risk_score r <? 40) = false /\ (risk_score r <? 70) = true /\
          recommendation r = "CONDITIONAL_APPROVE"%string /\
          suggested_interest_rate r = 12.0%Q) \/
         ((risk_score r <? 40) = false /\ (risk_score r <? 70) = false /\
          recommendation r = "DEFER"%string /\
          suggested_interest_rate r = 14.0%Q))
  end.
Proof.
  unfold get_lending_recommendation, Json.get.
  fold (purpose_of members).
  destruct (purpose_risk_get (purpose_of members) 10) as [offset|e];
    [|reflexivity].
  cbn [get_current_parameters indicators ri_overall_risk_score
       climate_drought_risk_level economic_market_sentiment].
  set (a := _calculate_risk_score d + offset).
  destruct (a <? 40) eqn:E40;
    [|destruct (a <? 70) eqn:E70];
    (eexists; split; [reflexivity|];
     cbn [application_purpose environment env_overall_risk risk_score
          recommendation suggested_interest_rate];
     split; [reflexivity|]; split; [reflexivity|]; split; [reflexivity|]).
  - left. rewrite E40. repeat split.
  - right. left. rewrite E40, E70. repeat split.
  - right. right. rewrite E40, E70. repeat split.
Qed.

Lemma lending_not_object (d : draws) (request_data : Json.json) :
  (forall members, request_data <> Json.JObject members) ->
  get_lending_recommendation d request_data =
    Py.Raise ("'" ++ Json.type_name request_data
              ++ "' object has no attribute 'get'")%string.
Proof.
  intro H. destruct request_data; try reflexivity.
  exfalso. apply (H members). reflexivity.
Qed.

End Api.

(** C6: every response of GET /api/risk-assessment has an
    [overall_risk_score] in [0, 100]; for draws in the ranges of
    [random.randint] the score lies in [20, 55]; and [risk_level] is "Low"
    exactly when the score is below 30, "Medium" exactly when it is at least
    30 and below 60, and "High" exactly when it is 60 or more. *)
Theorem risk_assessment_score_and_level (d : BankingIntelligenceAPI.draws) :
  let r := BankingIntelligenceAPI.get_risk_assessment d in
  let s := BankingIntelligenceAPI.overall_risk_score r in
  0 <= s <= 100 /\
  (BankingIntelligenceAPI.draws_ok d -> 20 <= s <= 55) /\
  (BankingIntelligenceAPI.risk_level r = "Low"%string <-> s < 30) /\
  (BankingIntelligenceAPI.risk_level r = "Medium"%string <-> 30 <= s < 60) /\
  (BankingIntelligenceAPI.risk_level r = "High"%string <-> 60 <= s).
Proof.
  cbv zeta. simpl.
  pose proof (calculate_risk_score_clamped d) as Hc.
  split; [exact Hc|]. split; [apply calculate_risk_score_range|].
  set (s := BankingIntelligenceAPI._calculate_risk_score d) in *.
  destruct (s <? 30) eqn:E30; [apply Z.ltb_lt in E30 | apply Z.ltb_ge in E30];
    [|destruct (s <? 60) eqn:E60;
        [apply Z.ltb_lt in E60 | apply Z.ltb_ge in E60]];
    (split; [|split]); split; intro H; try reflexivity; try discriminate; lia.
Qed.

Lemma risk_assessment_score_and_level_witness :
  let r := BankingIntelligenceAPI.get_risk_assessment
             BankingIntelligenceAPI.sample_draws in
  BankingIntelligenceAPI.draws_ok BankingIntelligenceAPI.sample_draws /\
  20 <= BankingIntelligenceAPI.overall_risk_score r <= 55 /\
  BankingIntelligenceAPI.risk_level r = "Medium"%string.
Proof.
  cbv zeta.
  destruct (risk_assessment_score_and_level BankingIntelligenceAPI.sample_draws)
    as (_ & Hr & _ & Hm & _).
  assert (Hok : BankingIntelligenceAPI.draws_ok BankingIntelligenceAPI.sample_draws).
  { unfold BankingIntelligenceAPI.draws_ok, BankingIntelligenceAPI.randint_ok.
    simpl. lia. }
  split; [exact Hok|]. split; [exact (Hr Hok)|].
  apply Hm. vm_compute. split; [discriminate | reflexivity].
Defined.

(** C7, as the code has it: the body of a POST to
    /api/lending-recommendation is any JSON value.  When it is an object
    whose loan purpose (the value of [loan_purpose], Business when the key
    is missing) is hashable, the adjusted risk is the environment's overall
    risk score plus the purpose offset (Agriculture 10, Business 5, Personal
    15, Home 0, Vehicle 8, 10 for any other string and for null, a boolean
    or a number), and the response is APPROVE at rate 10.5 exactly when the
    adjusted risk is below 40, CONDITIONAL_APPROVE at rate 12.0 exactly when
    it is at least 40 and below 70, and DEFER at rate 14.0 otherwise.  When
    the purpose is a list or an object the lookup raises TypeError, and when
    the body is no object the first [get] raises AttributeError: no
    recommendation is returned. *)
Theorem lending_recommendation_rule
    (d : BankingIntelligenceAPI.draws) (request_data : Json.json) :
  (forall members,
      request_data = Json.JObject members ->
      Json.hashable (BankingIntelligenceAPI.purpose_of members) = true ->
      exists r,
        BankingIntelligenceAPI.get_lending_recommendation d request_data
          = Py.Ok r /\
        let purpose := BankingIntelligenceAPI.application_purpose r in
        let base := BankingIntelligenceAPI.env_overall_risk
                      (BankingIntelligenceAPI.environment r) in
        let adjusted := BankingIntelligenceAPI.risk_score r in
        let offset :=
          match purpose with
          | Json.JString p =>
              if String.eqb p "Agriculture" then 10
              else if String.eqb p "Business" then 5
              else if String.eqb p "Personal" then 15
              else if String.eqb p "Home" then 0
              else if String.eqb p "Vehicle" then 8
              else 10
          | _ => 10
          end in
        purpose = BankingIntelligenceAPI.purpose_of members /\
        base = BankingIntelligenceAPI._calculate_risk_score d /\
        adjusted = base + offset /\
        ((BankingIntelligenceAPI.recommendation r = "APPROVE"%string /\
          BankingIntelligenceAPI.suggested_interest_rate r = 10.5%Q)
         <-> adjusted < 40) /\
        ((BankingIntelligenceAPI.recommendation r = "CONDITIONAL_APPROVE"%string /\
          BankingIntelligenceAPI.suggested_interest_rate r = 12.0%Q)
         <-> 40 <= adjusted < 70) /\
        ((BankingIntelligenceAPI.recommendation r = "DEFER"%string /\
          BankingIntelligenceAPI.suggested_interest_rate r = 14.0%Q)
         <-> 70 <= adjusted)) /\
  (forall members,
      request_data = Json.JObject members ->
      Json.hashable (BankingIntelligenceAPI.purpose_of members) = false ->
      BankingIntelligenceAPI.get_lending_recommendation d request_data =
        Py.Raise ("unhashable type: '"
                  ++ Json.type_name (BankingIntelligenceAPI.purpose_of members)
                  ++ "'")%string) /\
  ((forall members, request_data <> Json.JObject members) ->
   BankingIntelligenceAPI.get_lending_recommendation d request_data =
     Py.Raise ("'" ++ Json.type_name request_data
               ++ "' object has no attribute 'get'")%string).
Proof.
  split; [|split].
  - intros members -> Hh.
    pose proof (lending_on_object d members) as H.
    rewrite (purpose_risk_get_hashable _ Hh) in H.
    destruct H as (r & Hr & Hp & Hb & Ha & Hrec).
    exists r. split; [exact Hr|]. cbv zeta.
    split; [exact Hp|]. split; [exact Hb|].
    split.
    { rewrite Ha, Hb, Hp.
      destruct (BankingIntelligenceAPI.purpose_of members); reflexivity. }
    destruct Hrec as [(E40 & Hc & Hi)|[(E40 & E70 & Hc & Hi)|(E40 & E70 & Hc & Hi)]];
      rewrite Hc, Hi;
      try apply Z.ltb_lt in E40; try apply Z.ltb_ge in E40;
      try apply Z.ltb_lt in E70; try apply Z.ltb_ge in E70;
      (split; [|split]); split;
      try (intros [H _]; discriminate); try (intros; lia);
      intros; split; reflexivity.
  - intros members -> Hh.
    pose proof (lending_on_object d members) as H.
    rewrite (purpose_risk_get_unhashable _ Hh) in H. exact H.
  - apply lending_not_object.
Qed.

Lemma lending_recommendation_rule_witness :
  exists r,
    BankingIntelligenceAPI.get_lending_recommendation
      BankingIntelligenceAPI.sample_draws Samples.personal_request = Py.Ok r /\
    BankingIntelligenceAPI.risk_score r = 58 /\
    BankingIntelligenceAPI.recommendation r = "CONDITIONAL_APPROVE"%string /\
    BankingIntelligenceAPI.suggested_interest_rate r = 12.0%Q.
Proof.
  destruct (proj1 (lending_recommendation_rule
                     BankingIntelligenceAPI.sample_draws
                     Samples.personal_request)
              [ ("loan_amount"%string, Json.JInt 50000);
                ("loan_purpose"%string, Json.JString "Personal") ]
              eq_refl eq_refl)
    as (r & Hr & Hp & Hb & Ha & _ & Hc & _).
  exists r. split; [exact Hr|].
  assert (H58 : BankingIntelligenceAPI.risk_score r = 58).
  { rewrite Ha, Hb, Hp. vm_compute. reflexivity. }
  split; [exact H58|].
  apply Hc. rewrite H58. lia.
Defined.

(** C7 as stated fails: a POST whose loan purpose is a list gets no
    recommendation, the lookup of the purpose raises TypeError (HTTP 500). *)
Lemma lending_unhashable_purpose_counterexample :
  BankingIntelligenceAPI.get_lending_recommendation
    BankingIntelligenceAPI.sample_draws Samples.list_purpose_request
  = Py.Raise "unhashable type: 'list'"%string /\
  ~ (forall d request_data,
        exists r,
          BankingIntelligenceAPI.get_lending_recommendation d request_data
          = Py.Ok r).
Proof.
  assert (Hrun : BankingIntelligenceAPI.get_lending_recommendation
                   BankingIntelligenceAPI.sample_draws
                   Samples.list_purpose_request
                 = Py.Raise "unhashable type: 'list'"%string)
    by (vm_compute; reflexivity).
  split; [exact Hrun|].
  intro H.
  destruct (H BankingIntelligenceAPI.sample_draws Samples.list_purpose_request)
    as [r Hr].
  rewrite Hrun in Hr. discriminate.
Qed.

(* ------------------------------------------------------------------ *)
(** ** The percentage pattern: the search against the pattern's language *)

Section Regex.
Import PyStr Re.
Local Open Scope char_scope.
Local Open Scope list_scope.

Lemma space_not_digit (c : ascii) : isspace c = true -> isdigit c = false.
Proof.
  destruct c as [[] [] [] [] [] [] [] []]; vm_compute; congruence.
Qed.

Lemma span_spec (p : ascii -> bool) (s : chars) :
  forall a b, span p s = (a, b) ->
    s = a ++ b /\ List.forallb p a = true /\
    match b with
    | [] => True
    | c :: _ => p c = false
    end.
Proof.
  induction s as [|c s IH]; simpl; intros a b H.
  - inversion H; subst. repeat split.
  - destruct (p c) eqn:Hc.
    + destruct (span p s) as [a' b'] eqn:Hs. inversion H; subst.
      destruct (IH a' b eq_refl) as (-> & Ha & Hb).
      simpl. rewrite Hc, Ha. repeat split. exact Hb.
    + inversion H; subst. simpl. rewrite Hc. repeat split.
Qed.

(** [span] stops exactly at the end of a run that is followed by a
    character outside the class. *)
Lemma span_run (p : ascii -> bool) (a : chars) :
  forall b,
    List.forallb p a = true ->
    match b with
    | [] => True
    | c :: _ => p c = false
    end ->
    span p (a ++ b) = (a, b).
Proof.
  induction a as [|x a IH]; simpl; intros b Ha Hb.
  - destruct b as [|c b]; simpl; trivial. rewrite Hb. reflexivity.
  - apply andb_true_iff in Ha. destruct Ha as [Hx Ha].
    rewrite Hx, (IH b Ha Hb). reflexivity.
Qed.

Lemma match_ws_pct_sound (s : chars) :
  match_ws_pct s = true ->
  exists ws post, s = ws ++ "%" :: post /\ List.forallb isspace ws = true.
Proof.
  unfold match_ws_pct. destruct (span isspace s) as [ws r] eqn:Hs.
  destruct (span_spec _ _ _ _ Hs) as (-> & Hws & _). simpl.
  destruct r as [|c r]; [discriminate|].
  destruct (Ascii.eqb_spec c "%") as [->|Hne].
  - intros _. exists ws, r. split; trivial.
  - intro H. exfalso.
    destruct c as [[] [] [] [] [] [] [] []]; try discriminate H.
    apply Hne. reflexivity.
Qed.

Lemma match_ws_pct_complete (ws post : chars) :
  List.forallb isspace ws = true ->
  match_ws_pct (ws ++ "%" :: post) = true.
Proof.
  intro H. unfold match_ws_pct.
  rewrite (span_run isspace ws ("%" :: post) H); reflexivity.
Qed.

(** A successful anchored match is a word of the pattern's language at
    the head of the text, and the result is its group 1. *)
Lemma match_at_sound (s g : chars) :
  match_at s = Some g ->
  exists ds f ws post,
    g = ds ++ f /\ s = ds ++ f ++ ws ++ "%" :: post /\ pct_parts ds f ws.
Proof.
  unfold match_at. destruct (span isdigit s) as [ds r] eqn:Hs.
  destruct (span_spec _ _ _ _ Hs) as (-> & Hds & _).
  destruct ((1 <=? List.length ds)%nat && (List.length ds <=? 3)%nat) eqn:Hlen;
    [|discriminate].
  apply andb_true_iff in Hlen. destruct Hlen as [H1 H3].
  apply Nat.leb_le in H1. apply Nat.leb_le in H3.
  assert (Hplain : (if match_ws_pct r then Some ds else None) = Some g ->
    exists ds0 f ws post,
      g = ds0 ++ f /\ ds ++ r = ds0 ++ f ++ ws ++ "%" :: post /\
      pct_parts ds0 f ws).
  { destruct (match_ws_pct r) eqn:Hm; [|discriminate].
    intro E. inversion E; subst g.
    destruct (match_ws_pct_sound r Hm) as (ws & post & -> & Hws).
    exists ds, [], ws, post. rewrite app_nil_r. simpl.
    repeat split; trivial. left; reflexivity. }
  destruct r as [|c r1]; [exact Hplain|].
  destruct (Ascii.eqb_spec c ".") as [->|Hne].
  - destruct (span isdigit r1) as [fs r2] eqn:Hf.
    destruct (span_spec _ _ _ _ Hf) as (-> & Hfs & _).
    destruct (negb (Nat.eqb (List.length fs) 0) && match_ws_pct r2) eqn:Hm;
      [|exact Hplain].
    apply andb_true_iff in Hm. destruct Hm as [Hn Hm].
    intro E. inversion E; subst g.
    destruct (match_ws_pct_sound r2 Hm) as (ws & post & -> & Hws).
    exists ds, ("." :: fs), ws, post. simpl.
    repeat split; trivial.
    right. exists fs. repeat split; trivial.
    intro; subst fs. discriminate Hn.
  - destruct c as [[] [] [] [] [] [] [] []]; try exact Hplain.
    exfalso. apply Hne. reflexivity.
Qed.

Lemma search_pct_sound (s : chars) :
  forall g, search_pct s = Some g -> has_pct s.
Proof.
  induction s as [|c s IH]; intros g H.
  - simpl in H. destruct (match_at []) eqn:Hm; [|discriminate].
    vm_compute in Hm. discriminate.
  - simpl in H. destruct (match_at (c :: s)) as [g'|] eqn:Hm.
    + destruct (match_at_sound _ _ Hm) as (ds & f & ws & post & _ & Hs & Hp).
      exists [], (ds ++ f ++ ws ++ ["%"]), post. split.
      * simpl. rewrite Hs. rewrite <- !app_assoc. reflexivity.
      * exists ds, f, ws. split; trivial.
    + destruct (IH g H) as (pre & m & post & -> & Hm').
      exists (c :: pre), m, post. split; trivial.
Qed.

(** Conversely the anchored match finds every word of the language that
    starts the text. *)
Lemma match_at_complete (ds f ws post : chars) :
  pct_parts ds f ws ->
  match_at (ds ++ f ++ ws ++ "%" :: post) = Some (ds ++ f).
Proof.
  intros (Hlen & Hds & Hf & Hws).
  assert (Hhead : forall rest, match ws ++ "%" :: rest with
                       | [] => True
                       | c :: _ => isdigit c = false
                       end).
  { intro rest. destruct ws as [|w ws']; simpl; trivial.
    simpl in Hws. apply andb_true_iff in Hws.
    apply space_not_digit. apply Hws. }
  unfold match_at.
  assert (Hspan : span isdigit (ds ++ f ++ ws ++ "%" :: post)
                  = (ds, f ++ ws ++ "%" :: post)).
  { apply span_run; trivial.
    destruct Hf as [->|(fs & -> & _ & _)]; simpl; trivial. apply Hhead. }
  rewrite Hspan.
  replace ((1 <=? List.length ds)%nat && (List.length ds <=? 3)%nat) with true
    by (symmetry; apply andb_true_iff; split; apply Nat.leb_le; lia).
  destruct Hf as [->|(fs & -> & Hne & Hfs)].
  - rewrite app_nil_r. simpl.
    rewrite (match_ws_pct_complete ws post Hws).
    destruct ws as [|w ws']; simpl; trivial.
    destruct (Ascii.eqb_spec w ".") as [->|Hw].
    + simpl in Hws. discriminate Hws.
    + destruct w as [[] [] [] [] [] [] [] []]; trivial.
      exfalso. apply Hw. reflexivity.
  - simpl.
    rewrite (span_run isdigit fs (ws ++ "%" :: post) Hfs (Hhead post)).
    rewrite (match_ws_pct_complete ws post Hws).
    destruct fs; [congruence|]. reflexivity.
Qed.

Lemma search_pct_complete (s : chars) :
  has_pct s -> exists g, search_pct s = Some g.
Proof.
  intros (pre & m & post & -> & (ds & f & ws & -> & Hp)).
  induction pre as [|c pre IH].
  - simpl app. rewrite <- !app_assoc. simpl app.
    destruct ds as [|d ds'].
    + destruct Hp as ((Hl & _) & _). simpl in Hl. lia.
    + exists ((d :: ds') ++ f).
      pose proof (match_at_complete (d :: ds') f ws post Hp) as Hm.
      simpl in *. rewrite Hm. reflexivity.
  - simpl app. simpl search_pct.
    destruct (match_at _); [eexists; reflexivity | exact IH].
Qed.

(** [re.search] fails exactly on the texts without a substring in the
    language of the pattern. *)
Lemma search_pct_none_iff (s : chars) :
  search_pct s = None <-> ~ has_pct s.
Proof.
  split.
  - intros H Hp. destruct (search_pct_complete s Hp) as [g Hg]. congruence.
  - intro H. destruct (search_pct s) as [g|] eqn:E; trivial.
    exfalso. apply H. apply (search_pct_sound s g E).
Qed.

End Regex.

(* ------------------------------------------------------------------ *)
(** ** Python string operations *)

Section Strings.
Import PyStr.

Lemma prefix_iff (needle : string) :
  forall s, String.prefix needle s = true <->
            exists post, s = (needle ++ post)%string.
Proof.
  induction needle as [|a needle IH]; intros [|b s]; simpl.
  - split; [intros _; exists EmptyString; reflexivity | reflexivity].
  - split; [intros _; exists (String b s); reflexivity | reflexivity].
  - split; [discriminate | intros [post H]; discriminate].
  - destruct (ascii_dec a b) as [->|Hne].
    + rewrite IH. split; intros [post H]; exists post.
      * subst. reflexivity.
      * inversion H. reflexivity.
    + split; [discriminate | intros [post H]; inversion H; congruence].
Qed.

Lemma contains_unfold (needle hay : string) :
  contains needle hay =
    String.prefix needle hay ||
    match hay with
    | EmptyString => false
    | String _ hay' => contains needle hay'
    end.
Proof. destruct hay; reflexivity. Qed.

(** [needle in hay] holds exactly when [hay] splits around [needle]. *)
Lemma contains_spec (needle hay : string) :
  contains needle hay = true <->
  exists pre post, hay = (pre ++ needle ++ post)%string.
Proof.
  split.
  - induction hay as [|c hay IH]; rewrite contains_unfold; intro H;
      apply orb_true_iff in H; destruct H as [H|H].
    + apply prefix_iff in H. destruct H as [post H].
      exists EmptyString, post. exact H.
    + discriminate.
    + apply prefix_iff in H. destruct H as [post H].
      exists EmptyString, post. exact H.
    + destruct (IH H) as (pre & post & ->).
      exists (String c pre), post. reflexivity.
  - intros (pre & post & ->).
    induction pre as [|c pre IH]; rewrite contains_unfold.
    + simpl append.
      replace (String.prefix needle (needle ++ post)) with true; trivial.
      symmetry. apply prefix_iff. exists post. reflexivity.
    + simpl append. cbv beta iota. rewrite IH. apply orb_true_r.
Qed.

End Strings.

(* ------------------------------------------------------------------ *)
(** ** Extraction helpers return None on failure *)

Section LiteracyHelpers.
Import PyStr Py LiteracyAgent.
Context {W : Type} (E : env W).

Lemma extract_percentage_no_match (text : string) :
  ~ Re.has_pct (list_ascii_of_string text) ->
  extract_percentage E text = None.
Proof.
  intro H. unfold extract_percentage.
  apply search_pct_none_iff in H. rewrite H. reflexivity.
Qed.

Lemma find_all_false {A : Type} (f : A -> bool) (l : list A) :
  (forall x, In x l -> f x = false) -> List.find f l = None.
Proof.
  induction l as [|a l IH]; simpl; intro H; trivial.
  rewrite (H a (or_introl eq_refl)). apply IH.
  intros x Hx. apply H. right. exact Hx.
Qed.

Lemma infobox_rows_no_header (rows : list tr) :
  (forall r h, In r rows -> th r = Some h ->
               mentions_literacy (lower h) = false) ->
  infobox_rows E rows = None.
Proof.
  induction rows as [|r rows IH]; simpl; intro H; trivial.
  assert (IH' : infobox_rows E rows = None).
  { apply IH. intros r' h Hr. apply H. right. exact Hr. }
  destruct (th r) as [h|] eqn:Hth; [|exact IH'].
  destruct (td r) as [d|]; [|exact IH'].
  rewrite (H r h (or_introl eq_refl) Hth). exact IH'.
Qed.

Lemma parse_infobox_none (s : soup) :
  (forall t, In t (tables s) -> is_infobox t = false) \/
  (forall t r h, In t (tables s) -> is_infobox t = true ->
                 In r (trs t) -> th r = Some h ->
                 mentions_literacy (lower h) = false) ->
  parse_infobox_for_literacy E s = None.
Proof.
  unfold parse_infobox_for_literacy. intros [H|H].
  - rewrite (find_all_false _ _ H). reflexivity.
  - destruct (List.find is_infobox (tables s)) as [t|] eqn:Hf; trivial.
    apply find_some in Hf. destruct Hf as [Hin Hbox].
    apply infobox_rows_no_header. intros r h. apply (H t r h Hin Hbox).
Qed.

End LiteracyHelpers.

Section ElectionLookup.
Import PyStr Py PopulationAgent.
Context {W : Type} (E : env W).

Lemma dict_get_unmatched (np : string) (d : election_data) :
  (forall k v, In (k, v) d -> np <> k) -> dict_get np d = None.
Proof.
  induction d as [|[k v] d IH]; simpl; intro H; trivial.
  destruct (String.eqb_spec np k) as [->|_].
  - exfalso. apply (H k v); [left|]; reflexivity.
  - apply IH. intros k' v' Hin. apply (H k' v'). right. exact Hin.
Qed.

Lemma best_overlap_unmatched (np : string) (d : election_data) :
  (forall k v, In (k, v) d -> word_score np k = 0%nat) ->
  best_overlap np d None 0 = None.
Proof.
  induction d as [|[k v] d IH]; simpl; intro H; trivial.
  rewrite (H k v (or_introl eq_refl)). simpl.
  apply IH. intros k' v' Hin. apply (H k' v'). right. exact Hin.
Qed.

Lemma lookup_in_none (d : election_data) (place : string) :
  d = [] \/ unmatched d place -> lookup_in d place = None.
Proof.
  intros [->|H]; [reflexivity|].
  unfold lookup_in. destruct d as [|kv d']; [reflexivity|].
  set (d := kv :: d') in *.
  rewrite dict_get_unmatched by (intros k v Hin; apply (H k v Hin)).
  rewrite find_all_false.
  - rewrite best_overlap_unmatched; [reflexivity|].
    intros k v Hin. apply (H k v Hin).
  - intros [k v] Hin. destruct (H k v Hin) as (Hne & Hc1 & Hc2 & _).
    unfold partial_match. simpl. rewrite Hc1, Hc2.
    apply String.eqb_neq in Hne. rewrite Hne. reflexivity.
Qed.

(** [election_lookup] always returns: it loads the table when the cache
    is empty and answers from the table it then holds. *)
Lemma election_lookup_run (place : string) (st : state W) :
  exists st',
    election_lookup E place st =
      (st', Ok (lookup_in (ELECTION_DATA st') place)) /\
    trace st' = (trace st ++
                 match ELECTION_DATA st with
                 | [] => [ElectionRequest]
                 | _ => []
                 end).
Proof.
  unfold election_lookup, load_election_data, bind, get_election_data,
    attempt, request, set_election_data, ret.
  destruct st as [w d tr].
  destruct d as [|kv d];
    cbv beta iota zeta delta [world ELECTION_DATA trace].
  - destruct (election_reply E w) as [w' [content|e]].
    + exists {| world := w';
                ELECTION_DATA := load_page (BeautifulSoup E content);
                trace := tr ++ [ElectionRequest] |}.
      split; reflexivity.
    + exists {| world := w'; ELECTION_DATA := [];
                trace := tr ++ [ElectionRequest] |}.
      split; reflexivity.
  - exists {| world := w; ELECTION_DATA := kv :: d; trace := tr |}.
    split; [reflexivity|].
    cbv beta iota zeta delta [trace]. rewrite app_nil_r. reflexivity.
Qed.

End ElectionLookup.

(** C5: the extraction helpers signal failure by returning None.
    [extract_percentage] returns None on every text without a substring in
    the language of the percentage pattern; [parse_infobox_for_literacy]
    returns None on every page without an infobox table, and on every page
    whose infobox rows have no header mentioning literacy or literates;
    [election_lookup] returns None (and does not raise) whenever the
    election table it consulted is empty or holds no key matching the place
    exactly, as a substring, or by a common word. *)
Theorem extraction_helpers_return_none :
  (forall (W : Type) (E : LiteracyAgent.env W) (text : string),
      ~ Re.has_pct (list_ascii_of_string text) ->
      LiteracyAgent.extract_percentage E text = None) /\
  (forall (W : Type) (E : LiteracyAgent.env W) (s : LiteracyAgent.soup),
      (forall t, In t (LiteracyAgent.tables s) ->
                 LiteracyAgent.is_infobox t = false) \/
      (forall t r h,
          In t (LiteracyAgent.tables s) -> LiteracyAgent.is_infobox t = true ->
          In r (LiteracyAgent.trs t) -> LiteracyAgent.th r = Some h ->
          LiteracyAgent.mentions_literacy (PyStr.lower h) = false) ->
      LiteracyAgent.parse_infobox_for_literacy E s = None) /\
  (forall (W : Type) (E : PopulationAgent.env W) (place : string)
          (st st' : PopulationAgent.state W) r,
      PopulationAgent.election_lookup E place st = (st', r) ->
      PopulationAgent.ELECTION_DATA st' = [] \/
      PopulationAgent.unmatched (PopulationAgent.ELECTION_DATA st') place ->
      r = Py.Ok None).
Proof.
  split; [|split].
  - intros W E. apply extract_percentage_no_match.
  - intros W E. apply parse_infobox_none.
  - intros W E place st st' r Hrun Hd.
    destruct (election_lookup_run E place st) as (st1 & Hst1 & _).
    rewrite Hst1 in Hrun. inversion Hrun; subst.
    rewrite (lookup_in_none _ place Hd). reflexivity.
Qed.

Lemma extraction_helpers_return_none_witness :
  LiteracyAgent.extract_percentage Scenario.literacy_online "about 74.04 percent"
    = None /\
  LiteracyAgent.parse_infobox_for_literacy Scenario.literacy_online
    Scenario.plain_soup = None /\
  snd (PopulationAgent.election_lookup Scenario.population_online "Atlantis"
         Scenario.population_start) = Py.Ok None.
Proof.
  destruct extraction_helpers_return_none as (Hpct & Hbox & Hel).
  split; [|split].
  - apply Hpct. apply search_pct_none_iff. vm_compute. reflexivity.
  - apply Hbox. left. intros t [<-|[]]. vm_compute. reflexivity.
  - destruct (PopulationAgent.election_lookup Scenario.population_online
                "Atlantis" Scenario.population_start) as [st' r] eqn:Hrun.
    cbn [snd]. apply (Hel unit Scenario.population_online "Atlantis"%string
                      Scenario.population_start st' r Hrun).
    right. vm_compute in Hrun. inversion Hrun; subst st'.
    intros k v [Hin|[Hin|[]]]; inversion Hin; subst k v;
      (split; [vm_compute; discriminate|]); vm_compute; repeat split.
Defined.

(* ------------------------------------------------------------------ *)
(** ** Source precedence *)

Section PopulationPrecedence.
Import PyStr Py PopulationAgent.
Context {W : Type} (E : env W).

Lemma lookup_in_year (d : election_data) (place : string) (e : pop_result) :
  lookup_in d place = Some e -> res_year e = Some 2025.
Proof.
  unfold lookup_in. destruct d as [|kv d']; [discriminate|].
  destruct (dict_get _ _); [intro H; inversion H; reflexivity|].
  destruct (List.find _ _) as [[k v]|]; [intro H; inversion H; reflexivity|].
  destruct (best_overlap _ _ _ _); [intro H; inversion H; reflexivity|].
  discriminate.
Qed.

Lemma election_lookup_year place st st0 e :
  election_lookup E place st = (st0, Ok (Some e)) -> res_year e = Some 2025.
Proof.
  intro H. destruct (election_lookup_run E place st) as (st1 & Hrun & _).
  rewrite Hrun in H. inversion H; subst.
  eapply lookup_in_year; eassumption.
Qed.

(** With a match on the election site the function returns at once. *)
Lemma population_from_election place st st0 e :
  election_lookup E place st = (st0, Ok (Some e)) ->
  get_population_for_place E place st =
    (st0, Ok (set_notes (set_population (initial_out place) e) "election-site")).
Proof.
  intro H. unfold get_population_for_place, bind, attempt.
  rewrite H. reflexivity.
Qed.

(** Without one the next step is the Wikidata search. *)
Lemma population_from_wikidata place st st0 :
  election_lookup E place st = (st0, Ok None) ->
  exists rest,
    trace (fst (get_population_for_place E place st)) =
      trace st0 ++ EntitySearch place :: rest.
Proof.
  intro H. unfold get_population_for_place, bind, attempt.
  rewrite H. unfold search_wikidata_entity, bind, request.
  destruct (search_reply E place (world st0)) as [w1 [[|ent ents]|e]];
    simpl; try (exists []; reflexivity).
  unfold get_population_from_claims, bind, request, lift. simpl.
  destruct (claims_reply E (id ent) w1) as [w2 [claims|e]]; simpl.
  - destruct (population_from E claims) as [[pop|]|e]; simpl.
    + destruct (res_population pop); simpl; rewrite <- app_assoc;
        eexists; reflexivity.
    + rewrite <- app_assoc; eexists; reflexivity.
    + rewrite <- app_assoc; eexists; reflexivity.
  - rewrite <- app_assoc; eexists; reflexivity.
Qed.

End PopulationPrecedence.

Section LiteracyPrecedence.
Import PyStr Py LiteracyAgent.
Context {W : Type} (E : env W).

Lemma infobox_rows_source rows i :
  infobox_rows E rows = Some i -> source i = "wikipedia-infobox"%string.
Proof.
  induction rows as [|r rows IH]; simpl; [discriminate|].
  destruct (th r); [|exact IH]. destruct (td r); [|exact IH].
  destruct (mentions_literacy _); [|exact IH].
  intro H. inversion H. reflexivity.
Qed.

Lemma parse_infobox_source s i :
  parse_infobox_for_literacy E s = Some i ->
  source i = "wikipedia-infobox"%string.
Proof.
  unfold parse_infobox_for_literacy.
  destruct (List.find _ _); [apply infobox_rows_source | discriminate].
Qed.

Lemma body_items_source items b :
  body_items E items = Some b ->
  source b = "wikipedia-body"%string /\ literacy b <> None.
Proof.
  induction items as [|txt items IH]; simpl; [discriminate|].
  destruct (_ || _); [|exact IH].
  destruct (extract_percentage E txt); [|exact IH].
  intro H. inversion H. simpl. split; [reflexivity | discriminate].
Qed.

(** What [from_soup] writes, by the outcome of the infobox parser. *)
Lemma from_soup_infobox o s i pct :
  parse_infobox_for_literacy E s = Some i -> literacy i = Some pct ->
  from_soup E o s = set_found o i.
Proof.
  intros Hi Hl. unfold from_soup, with_literacy. rewrite Hi, Hl. reflexivity.
Qed.

Lemma from_soup_body o s :
  notes (from_soup E o s) = Some "wikipedia-body"%string ->
  with_literacy (parse_infobox_for_literacy E s) = None /\
  exists b, parse_body_for_literacy E s = Some b /\
            from_soup E o s = set_found o b.
Proof.
  unfold from_soup.
  destruct (with_literacy (parse_infobox_for_literacy E s)) as [i|] eqn:Hi.
  - unfold with_literacy in Hi.
    destruct (parse_infobox_for_literacy E s) as [i'|] eqn:Hp; [|discriminate].
    destruct (literacy i'); [|discriminate]. inversion Hi; subst i'.
    simpl. rewrite (parse_infobox_source s i Hp). discriminate.
  - intro H. split; [reflexivity|].
    unfold with_literacy in *.
    destruct (parse_body_for_literacy E s) as [b|]; [|discriminate H].
    destruct (literacy b); [|discriminate H].
    exists b. split; reflexivity.
Qed.

(** The run of [get_literacy_for_place] once the page is at hand. *)
Lemma literacy_from_page place st s1 s2 search h :
  wiki_search E place st = (s1, Ok (Some search)) ->
  fetch_wiki_html E (title search) s1 = (s2, Ok (Some h)) ->
  h <> EmptyString ->
  get_literacy_for_place E place st =
    (s2, Ok (from_soup E (set_wiki_title (initial_out place) (title search))
               (BeautifulSoup E h))).
Proof.
  intros Hs Hf Hne. unfold get_literacy_for_place, bind, attempt.
  rewrite Hs, Hf. destruct h; [congruence | reflexivity].
Qed.

End LiteracyPrecedence.

(** C10: both agents obey a fixed source precedence.  When
    [election_lookup] yields a match, [get_population_for_place] returns its
    value with year 2025 and notes election-site in the state left by the
    lookup, without any Wikidata request; Wikidata is searched when the
    lookup yields none.  Once the page is fetched, [get_literacy_for_place]
    returns the infobox value with notes wikipedia-infobox whenever the
    infobox parser yields a percentage, and a result noted wikipedia-body
    arises only when it did not, from the body parser. *)
Theorem source_precedence :
  (forall (W : Type) (E : PopulationAgent.env W) place st st0 e,
      PopulationAgent.election_lookup E place st = (st0, Py.Ok (Some e)) ->
      exists o,
        PopulationAgent.get_population_for_place E place st = (st0, Py.Ok o) /\
        PopulationAgent.out_population o = PopulationAgent.res_population e /\
        PopulationAgent.population_year o = Some 2025 /\
        PopulationAgent.notes o = Some "election-site"%string /\
        PopulationAgent.wikidata_id o = None) /\
  (forall (W : Type) (E : PopulationAgent.env W) place st st0,
      PopulationAgent.election_lookup E place st = (st0, Py.Ok None) ->
      exists rest,
        PopulationAgent.trace
          (fst (PopulationAgent.get_population_for_place E place st)) =
        PopulationAgent.trace st0 ++ PopulationAgent.EntitySearch place :: rest) /\
  (forall (W : Type) (E : LiteracyAgent.env W) place st s1 s2 search h,
      LiteracyAgent.wiki_search E place st = (s1, Py.Ok (Some search)) ->
      LiteracyAgent.fetch_wiki_html E (LiteracyAgent.title search) s1
        = (s2, Py.Ok (Some h)) ->
      h <> EmptyString ->
      let page := LiteracyAgent.BeautifulSoup E h in
      exists o,
        LiteracyAgent.get_literacy_for_place E place st = (s2, Py.Ok o) /\
        (forall i pct,
            LiteracyAgent.parse_infobox_for_literacy E page = Some i ->
            LiteracyAgent.literacy i = Some pct ->
            LiteracyAgent.out_literacy o = Some pct /\
            LiteracyAgent.literacy_year o = LiteracyAgent.year i /\
            LiteracyAgent.notes o = Some "wikipedia-infobox"%string) /\
        (LiteracyAgent.notes o = Some "wikipedia-body"%string ->
         LiteracyAgent.with_literacy
           (LiteracyAgent.parse_infobox_for_literacy E page) = None /\
         exists b,
           LiteracyAgent.parse_body_for_literacy E page = Some b /\
           LiteracyAgent.out_literacy o = LiteracyAgent.literacy b /\
           LiteracyAgent.literacy_year o = LiteracyAgent.year b)).
Proof.
  split; [|split].
  - intros W E place st st0 e H.
    eexists. split; [apply (population_from_election E place st st0 e H)|].
    simpl. rewrite (election_lookup_year E place st st0 e H).
    repeat split.
  - intros W E place st st0 H. apply (population_from_wikidata E place st st0 H).
  - intros W E place st s1 s2 search h Hs Hf Hne page.
    eexists. split; [apply (literacy_from_page E place st s1 s2 search h Hs Hf Hne)|].
    fold page. split.
    + intros i pct Hi Hl.
      rewrite (from_soup_infobox E _ page i pct Hi Hl). simpl.
      rewrite (parse_infobox_source E page i Hi). repeat split. exact Hl.
    + intro Hn. destruct (from_soup_body E _ page Hn) as (Hnone & b & Hb & Heq).
      split; [exact Hnone|]. exists b. rewrite Heq. repeat split. exact Hb.
Qed.

Lemma source_precedence_witness :
  (exists o,
      snd (PopulationAgent.get_population_for_place Scenario.population_online
             "Ponneri" Scenario.population_start) = Py.Ok o /\
      PopulationAgent.out_population o = Some 266520 /\
      PopulationAgent.population_year o = Some 2025 /\
      PopulationAgent.notes o = Some "election-site"%string) /\
  (exists rest,
      PopulationAgent.trace
        (fst (PopulationAgent.get_population_for_place Scenario.population_online
                "Atlantis" Scenario.population_start)) =
      [PopulationAgent.ElectionRequest] ++
      PopulationAgent.EntitySearch "Atlantis" :: rest) /\
  (exists o,
      snd (LiteracyAgent.get_literacy_for_place Scenario.literacy_online
             "Chennai" Scenario.literacy_start) = Py.Ok o /\
      LiteracyAgent.notes o = Some "wikipedia-infobox"%string).
Proof.
  destruct source_precedence as (Hp & Hw & Hl).
  split; [|split].
  - edestruct (Hp unit Scenario.population_online "Ponneri"%string
                 Scenario.population_start) as (o & Hrun & Hpop & Hy & Hn & _).
    { vm_compute. reflexivity. }
    exists o. rewrite Hrun. simpl. repeat split; assumption.
  - edestruct (Hw unit Scenario.population_online "Atlantis"%string
                 Scenario.population_start) as (rest & Hrest).
    { vm_compute. reflexivity. }
    exists rest. exact Hrest.
  - edestruct (Hl unit Scenario.literacy_online "Chennai"%string
                 Scenario.literacy_start) as (o & Hrun & Hbox & _).
    { vm_compute. reflexivity. }
    { vm_compute. reflexivity. }
    { discriminate. }
    exists o. rewrite Hrun. simpl. split; [reflexivity|].
    edestruct Hbox as (_ & _ & Hn).
    { vm_compute. reflexivity. }
    { simpl. reflexivity. }
    exact Hn.
Defined.



(* ------------------------------------------------------------------ *)
(** ** The choice among the population claims *)

Section Claims.
Import PyStr Py PopulationAgent.
Context {W : Type} (E : env W).

Lemma find_app {A : Type} (f : A -> bool) (l l' : list A) :
  List.find f (l ++ l') =
    match List.find f l with
    | Some a => Some a
    | None => List.find f l'
    end.
Proof.
  induction l as [|a l IH]; simpl; trivial.
  destruct (f a); trivial.
Qed.

Lemma choose_claim_snoc (l : list claim) (x : claim) :
  choose_claim E (l ++ [x]) = choose_step E (choose_claim E l) x.
Proof. unfold choose_claim. rewrite fold_left_app. reflexivity. Qed.

Lemma has_datavalue_some (c : claim) (dv : dvalue) :
  datavalue c = Some dv -> has_datavalue c = true.
Proof. unfold has_datavalue. intros ->. reflexivity. Qed.

Lemma has_datavalue_none (c : claim) :
  datavalue c = None -> has_datavalue c = false.
Proof. unfold has_datavalue. intros ->. reflexivity. Qed.

Lemma in_snoc {A : Type} (a x : A) (l : list A) :
  In a (l ++ [x]) -> In a l \/ a = x.
Proof.
  intro H. apply in_app_or in H. destruct H as [H|[H|[]]]; auto.
Qed.

(** The loop invariant: without a dated claim so far, the candidate is
    the first claim that has a datavalue; with one, it is a dated claim of
    greatest year among the claims that have a datavalue. *)
Lemma choose_claim_spec (claims : list claim) :
  match choose_claim E claims with
  | (best, None) =>
      (forall c y, In c claims -> has_datavalue c = true ->
                   year_of E c = Some y -> False) /\
      best = List.find has_datavalue claims
  | (best, Some y) =>
      exists c,
        best = Some c /\ In c claims /\ has_datavalue c = true /\
        year_of E c = Some y /\
        forall c' y', In c' claims -> has_datavalue c' = true ->
                      year_of E c' = Some y' -> y' <= y
  end.
Proof.
  induction claims as [|x l IH] using rev_ind.
  - simpl. split; [intros c y []|reflexivity].
  - rewrite choose_claim_snoc.
    destruct (choose_claim E l) as [best [y0|]]; unfold choose_step.
    + destruct IH as (c & -> & Hin & Hdv & Hy & Hmax).
      assert (Hkeep : forall y1, y0 <= y1 ->
                (has_datavalue x = true -> forall y, year_of E x = Some y -> y <= y1) ->
                forall c' y', In c' (l ++ [x]) -> has_datavalue c' = true ->
                              year_of E c' = Some y' -> y' <= y1).
      { intros y1 Hle Hx c' y' Hc' Hdv' Hy'.
        apply in_snoc in Hc'. destruct Hc' as [Hc'| ->].
        - specialize (Hmax c' y' Hc' Hdv' Hy'). lia.
        - apply (Hx Hdv' y' Hy'). }
      destruct (datavalue x) as [dv|] eqn:Hx.
      * destruct (year_of E x) as [y|] eqn:Hyx.
        -- destruct (y0 <? y) eqn:Hlt;
             [apply Z.ltb_lt in Hlt | apply Z.ltb_ge in Hlt].
           ++ exists x. split; [reflexivity|]. split.
              { apply in_or_app. right. left. reflexivity. }
              split; [apply (has_datavalue_some x dv Hx)|].
              split; [exact Hyx|].
              apply Hkeep; [lia|]. intros _ y' Hy'. inversion Hy'. lia.
           ++ exists c. split; [reflexivity|]. split.
              { apply in_or_app. left. exact Hin. }
              split; [exact Hdv|]. split; [exact Hy|].
              apply Hkeep; [lia|]. intros _ y' Hy'. inversion Hy'. lia.
        -- exists c. split; [reflexivity|]. split.
           { apply in_or_app. left. exact Hin. }
           split; [exact Hdv|]. split; [exact Hy|].
           apply Hkeep; [lia|]. intros _ y' Hy'. discriminate.
      * exists c. split; [reflexivity|]. split.
        { apply in_or_app. left. exact Hin. }
        split; [exact Hdv|]. split; [exact Hy|].
        apply Hkeep; [lia|]. intros Hdvx.
        rewrite (has_datavalue_none x Hx) in Hdvx. discriminate.
    + destruct IH as (Hnone & ->).
      rewrite find_app. cbn [List.find].
      assert (Hkeep :
                (has_datavalue x = true -> year_of E x = None) ->
                forall c y, In c (l ++ [x]) -> has_datavalue c = true ->
                            year_of E c = Some y -> False).
      { intros Hx c y Hc Hdv Hy.
        apply in_snoc in Hc. destruct Hc as [Hc| ->].
        - apply (Hnone c y Hc Hdv Hy).
        - rewrite (Hx Hdv) in Hy. discriminate. }
      destruct (datavalue x) as [dv|] eqn:Hx.
      * rewrite (has_datavalue_some x dv Hx).
        destruct (year_of E x) as [y|] eqn:Hyx.
        -- exists x. split; [reflexivity|]. split.
           { apply in_or_app. right. left. reflexivity. }
           split; [apply (has_datavalue_some x dv Hx)|].
           split; [exact Hyx|].
           intros c' y' Hc' Hdv' Hy'.
           apply in_snoc in Hc'. destruct Hc' as [Hc'| ->].
           ++ exfalso. apply (Hnone c' y' Hc' Hdv' Hy').
           ++ rewrite Hyx in Hy'. inversion Hy'. lia.
        -- destruct (List.find has_datavalue l);
             (split; [apply Hkeep; intros _; reflexivity | reflexivity]).
      * rewrite (has_datavalue_none x Hx).
        assert (Hdvx : has_datavalue x = true -> year_of E x = None).
        { intro Hdvx. rewrite (has_datavalue_none x Hx) in Hdvx. discriminate. }
        destruct (List.find has_datavalue l);
          (split; [apply Hkeep; exact Hdvx | reflexivity]).
Qed.

Lemma population_from_choose (claims : list claim) :
  population_from E claims =
    match choose_claim E claims with
    | (None, _) => Ok None
    | (Some best, best_year) =>
        match result_of_claim E best best_year with
        | Ok r => Ok (Some r)
        | Raise e => Raise e
        end
    end.
Proof. destruct claims; reflexivity. Qed.

(** The result dict carries the year handed in. *)
Lemma result_of_claim_year (c : claim) (y : option Z) (r : pop_result) :
  result_of_claim E c y = Ok r -> res_year r = y.
Proof.
  unfold result_of_claim.
  destruct (amount_of E c) as [[q|neg|]|]; cbn [int_of_float]; intro H;
    try discriminate; injection H as <-; reflexivity.
Qed.

(** What the code after the loop makes of the chosen claim. *)
Lemma result_of_claim_cases (c : claim) (y : option Z) :
  match amount_of E c with
  | None =>
      result_of_claim E c y = Ok {| res_population := None; res_year := y |}
  | Some (Finite q) =>
      result_of_claim E c y =
        Ok {| res_population := Some (Z.quot (Qnum q) (Z.pos (Qden q)));
              res_year := y |}
  | Some (Infinity _) =>
      result_of_claim E c y =
        Raise "cannot convert float infinity to integer"%string
  | Some NaN =>
      result_of_claim E c y =
        Raise "cannot convert float NaN to integer"%string
  end.
Proof.
  unfold result_of_claim.
  destruct (amount_of E c) as [[q|neg|]|]; reflexivity.
Qed.

End Claims.

(** C8, as the code has it: among the claims that have a datavalue (the
    others are skipped), if at least one carries a parseable P585 year the
    function answers from a claim of greatest year among them, whatever the
    order of the claims, so a dated claim is preferred over every undated
    one; if none carries a year it answers from the first claim that has a
    datavalue, with year None (and returns None when no claim has a
    datavalue).  The answer from a claim is its amount truncated to an
    integer with the year; the population is None when [float] fails on the
    amount, and when the amount is an infinity or nan, [int] raises and the
    function raises with it. *)
Theorem latest_valued_claim_chosen
    (W : Type) (E : PopulationAgent.env W) (claims : list PopulationAgent.claim) :
  (forall c y,
      In c claims -> PopulationAgent.has_datavalue c = true ->
      PopulationAgent.year_of E c = Some y ->
      exists c' y',
        In c' claims /\ PopulationAgent.has_datavalue c' = true /\
        PopulationAgent.year_of E c' = Some y' /\
        (forall c2 y2,
            In c2 claims -> PopulationAgent.has_datavalue c2 = true ->
            PopulationAgent.year_of E c2 = Some y2 -> y2 <= y') /\
        PopulationAgent.population_from E claims =
          match PopulationAgent.result_of_claim E c' (Some y') with
          | Py.Ok r => Py.Ok (Some r)
          | Py.Raise e => Py.Raise e
          end) /\
  ((forall c,
      In c claims -> PopulationAgent.has_datavalue c = true ->
      PopulationAgent.year_of E c = None) ->
   PopulationAgent.population_from E claims =
     match List.find PopulationAgent.has_datavalue claims with
     | Some c =>
         match PopulationAgent.result_of_claim E c None with
         | Py.Ok r => Py.Ok (Some r)
         | Py.Raise e => Py.Raise e
         end
     | None => Py.Ok None
     end) /\
  (forall c y,
      match PopulationAgent.amount_of E c with
      | None =>
          PopulationAgent.result_of_claim E c y =
            Py.Ok {| PopulationAgent.res_population := None;
                     PopulationAgent.res_year := y |}
      | Some (Py.Finite q) =>
          PopulationAgent.result_of_claim E c y =
            Py.Ok {| PopulationAgent.res_population :=
                       Some (Z.quot (Qnum q) (Z.pos (Qden q)));
                     PopulationAgent.res_year := y |}
      | Some (Py.Infinity _) =>
          PopulationAgent.result_of_claim E c y =
            Py.Raise "cannot convert float infinity to integer"%string
      | Some Py.NaN =>
          PopulationAgent.result_of_claim E c y =
            Py.Raise "cannot convert float NaN to integer"%string
      end).
Proof.
  split; [|split; [|apply result_of_claim_cases]];
    pose proof (choose_claim_spec E claims) as Hspec;
    rewrite (population_from_choose E claims);
    destruct (PopulationAgent.choose_claim E claims) as [best [y0|]].
  - destruct Hspec as (c0 & -> & Hin & Hdv & Hy & Hmax).
    intros c y _ _ _. exists c0, y0. repeat split; trivial.
  - destruct Hspec as (Hnone & ->).
    intros c y Hc Hdv Hy. exfalso. apply (Hnone c y Hc Hdv Hy).
  - destruct Hspec as (c0 & -> & Hin & Hdv & Hy & Hmax).
    intro Hnone. rewrite (Hnone c0 Hin Hdv) in Hy. discriminate.
  - destruct Hspec as (Hnone & ->). intros _.
    destruct (List.find PopulationAgent.has_datavalue claims); reflexivity.
Qed.

Lemma latest_valued_claim_chosen_witness :
  let claims := [Scenario.claim_undated; Scenario.claim_2015;
                 Scenario.claim_2020_novalue; Scenario.claim_2010] in
  let E := Scenario.population_online in
  exists c' y',
    In c' claims /\ PopulationAgent.has_datavalue c' = true /\
    PopulationAgent.year_of E c' = Some y' /\
    (forall c2 y2,
        In c2 claims -> PopulationAgent.has_datavalue c2 = true ->
        PopulationAgent.year_of E c2 = Some y2 -> y2 <= y') /\
    PopulationAgent.population_from E claims =
      match PopulationAgent.result_of_claim E c' (Some y') with
      | Py.Ok r => Py.Ok (Some r)
      | Py.Raise e => Py.Raise e
      end.
Proof.
  cbv zeta.
  assert (Hin : In Scenario.claim_2010
                  [Scenario.claim_undated; Scenario.claim_2015;
                   Scenario.claim_2020_novalue; Scenario.claim_2010]).
  { right. right. right. left. reflexivity. }
  assert (Hdv : PopulationAgent.has_datavalue Scenario.claim_2010 = true)
    by reflexivity.
  assert (Hy : PopulationAgent.year_of Scenario.population_online
                 Scenario.claim_2010 = Some 2010)
    by (vm_compute; reflexivity).
  exact (proj1 (latest_valued_claim_chosen unit Scenario.population_online _)
               Scenario.claim_2010 2010 Hin Hdv Hy).
Defined.

(** The choice on four claims, evaluated: the undated claim comes first and
    the claim dated 2020 has no datavalue, so the claim of 2015 wins. *)
Example population_from_four_claims :
  PopulationAgent.population_from Scenario.population_online
    [Scenario.claim_undated; Scenario.claim_2015; Scenario.claim_2020_novalue;
     Scenario.claim_2010]
  = Py.Ok (Some {| PopulationAgent.res_population := Some 250;
                   PopulationAgent.res_year := Some 2015 |}).
Proof. vm_compute. reflexivity. Qed.

(** A latest claim whose amount reads as nan: [int] raises, and the lookup
    of the place records the exception as a claims-error. *)
Example population_from_nan_amount :
  PopulationAgent.population_from Scenario.population_online
    [Scenario.claim_2010; Scenario.claim_2021_nan]
  = Py.Raise "cannot convert float NaN to integer"%string.
Proof. vm_compute. reflexivity. Qed.

(** C8 as stated fails: of a dated claim without a datavalue (2020) and a
    dated claim worth 100 (2010) the function returns the latter, although
    2020 is the greatest year among the year-bearing claims. *)
Lemma latest_claim_counterexample :
  let claims := [Scenario.claim_2020_novalue; Scenario.claim_2010] in
  (exists c y, In c claims /\
               PopulationAgent.year_of Scenario.population_online c = Some y) /\
  PopulationAgent.population_from Scenario.population_online claims =
    Py.Ok (Some {| PopulationAgent.res_population := Some 100;
                   PopulationAgent.res_year := Some 2010 |}) /\
  ~ (exists c y,
        In c claims /\
        PopulationAgent.year_of Scenario.population_online c = Some y /\
        (forall c' y',
            In c' claims ->
            PopulationAgent.year_of Scenario.population_online c' = Some y' ->
            y' <= y) /\
        PopulationAgent.population_from Scenario.population_online claims =
          match PopulationAgent.result_of_claim Scenario.population_online
                  c (Some y) with
          | Py.Ok r => Py.Ok (Some r)
          | Py.Raise e => Py.Raise e
          end).
Proof.
  cbv zeta.
  assert (Hv : PopulationAgent.population_from Scenario.population_online
                 [Scenario.claim_2020_novalue; Scenario.claim_2010]
               = Py.Ok (Some {| PopulationAgent.res_population := Some 100;
                                PopulationAgent.res_year := Some 2010 |}))
    by (vm_compute; reflexivity).
  split; [|split; [exact Hv|]].
  - exists Scenario.claim_2020_novalue, 2020. split; [left; reflexivity|].
    vm_compute. reflexivity.
  - intros (c & y & _ & _ & Hmax & Hres).
    assert (H2020 : 2020 <= y).
    { apply (Hmax Scenario.claim_2020_novalue 2020); [left; reflexivity|].
      vm_compute. reflexivity. }
    rewrite Hv in Hres.
    destruct (PopulationAgent.result_of_claim Scenario.population_online
                c (Some y)) as [r|e] eqn:Hr; [|discriminate].
    apply (result_of_claim_year Scenario.population_online) in Hr.
    injection Hres as <-. cbn [PopulationAgent.res_year] in Hr.
    injection Hr as <-. lia.
Qed.

(* ------------------------------------------------------------------ *)
(** ** Exceptions and notes of the two lookups *)

Section PopulationNotes.
Import PyStr Py PopulationAgent.
Context {W : Type} (E : env W).

(** [get_population_for_place] returns in every world, with one of the
    known notes. *)
Lemma get_population_returns (place : string) (st : state W) :
  exists st' o,
    get_population_for_place E place st = (st', Ok o) /\
    known_note (notes o).
Proof.
  unfold get_population_for_place, bind, attempt.
  destruct (election_lookup_run E place st) as (st0 & Hrun & _).
  rewrite Hrun.
  destruct (lookup_in (ELECTION_DATA st0) place) as [e|].
  { eexists. eexists. split; [reflexivity|]. left. reflexivity. }
  unfold search_wikidata_entity, bind, request.
  destruct (search_reply E place (world st0)) as [w1 [[|ent ents]|e]].
  - eexists. eexists. split; [reflexivity|].
    right. right. left. reflexivity.
  - unfold get_population_from_claims, bind, request.
    cbv beta iota zeta delta [world ELECTION_DATA trace ret lift].
    destruct (claims_reply E (id ent) w1) as [w2 [claims|e]].
    + destruct (population_from E claims) as [[pop|]|e] eqn:Hpop.
      * cbv beta iota zeta delta [out_population set_population].
        destruct (res_population pop).
        -- eexists. eexists. split; [reflexivity|].
           do 6 right. reflexivity.
        -- eexists. eexists. split; [reflexivity|].
           do 5 right. left. reflexivity.
      * eexists. eexists. split; [reflexivity|].
        do 4 right. left. reflexivity.
      * eexists. eexists. split; [reflexivity|].
        do 3 right. left. exists e. reflexivity.
    + eexists. eexists. split; [reflexivity|].
      do 3 right. left. exists e. reflexivity.
  - eexists. eexists. split; [reflexivity|].
    right. left. exists e. reflexivity.
Qed.

End PopulationNotes.

Section LiteracyNotes.
Import PyStr Py LiteracyAgent.
Context {W : Type} (E : env W).

Lemma from_soup_note (o : out) (s : soup) :
  known_note (notes (from_soup E o s)).
Proof.
  unfold from_soup.
  destruct (with_literacy (parse_infobox_for_literacy E s)) as [i|] eqn:Hi.
  - unfold with_literacy in Hi.
    destruct (parse_infobox_for_literacy E s) as [i'|] eqn:Hp; [|discriminate].
    destruct (literacy i'); [|discriminate]. inversion Hi; subst i'.
    cbn [notes set_found]. rewrite (parse_infobox_source E s i Hp).
    do 3 right. left. reflexivity.
  - destruct (with_literacy (parse_body_for_literacy E s)) as [b|] eqn:Hb.
    + unfold with_literacy in Hb.
      destruct (parse_body_for_literacy E s) as [b'|] eqn:Hp; [|discriminate].
      destruct (literacy b'); [|discriminate]. inversion Hb; subst b'.
      cbn [notes set_found].
      destruct (body_items_source E _ b Hp) as [-> _].
      do 4 right. left. reflexivity.
    + do 5 right. reflexivity.
Qed.

(** The outcomes of [get_literacy_for_place]: it returns with a known
    note, or it propagates the exception raised by [fetch_wiki_html]. *)
Lemma get_literacy_outcomes (place : string) (st : state W) :
  (exists st' o,
      get_literacy_for_place E place st = (st', Ok o) /\
      known_note (notes o)) \/
  (exists s1 search st' e,
      wiki_search E place st = (s1, Ok (Some search)) /\
      fetch_wiki_html E (title search) s1 = (st', Raise e) /\
      get_literacy_for_place E place st = (st', Raise e)).
Proof.
  unfold get_literacy_for_place, bind, attempt.
  destruct (wiki_search E place st) as [s1 [[search|]|e]] eqn:Hs.
  - destruct (fetch_wiki_html E (title search) s1) as [s2 [[h|]|e]] eqn:Hf.
    + left. destruct h as [|c h].
      * eexists. eexists. split; [reflexivity|].
        right. right. left. reflexivity.
      * eexists. eexists. split; [reflexivity|]. apply from_soup_note.
    + left. eexists. eexists. split; [reflexivity|].
      right. right. left. reflexivity.
    + right. exists s1, search, s2, e. repeat split; trivial.
  - left. eexists. eexists. split; [reflexivity|].
    right. left. reflexivity.
  - left. eexists. eexists. split; [reflexivity|].
    left. exists e. reflexivity.
Qed.

(** The guarded call in [process_excel] never raises. *)
Lemma lookup_place_returns (place : string) (st : state W) :
  exists st' o, lookup_place E place st = (st', Ok o).
Proof.
  unfold lookup_place, bind, attempt, ret.
  destruct (is_empty (strip place)); [eexists; eexists; reflexivity|].
  destruct (get_literacy_for_place E place st) as [s1 [o|e]];
    eexists; eexists; reflexivity.
Qed.

(** [get_literacy_for_place] by the replies of the network: the search
    is guarded; the page request is not. *)
Lemma get_literacy_by_replies (place : string) (st : state W) :
  match search_reply E place (world st) with
  | (_, Raise e) =>
      exists st',
        get_literacy_for_place E place st =
          (st', Ok (set_notes (initial_out place) ("search-error: " ++ e)))
  | (_, Ok []) =>
      exists st',
        get_literacy_for_place E place st =
          (st', Ok (set_notes (initial_out place) "no-wikipedia-search-result"))
  | (w1, Ok (hit :: _)) =>
      match title hit with
      | None => exists st' e, get_literacy_for_place E place st = (st', Raise e)
      | Some t =>
          match page_reply E t w1 with
          | (_, Raise e) =>
              exists st', get_literacy_for_place E place st = (st', Raise e)
          | (_, Ok _) =>
              exists st' o,
                get_literacy_for_place E place st = (st', Ok o) /\
                known_note (notes o)
          end
      end
  end.
Proof.
  unfold get_literacy_for_place, wiki_search, fetch_wiki_html, request.
  unfold bind, attempt, ret, raise.
  cbv beta.
  destruct (search_reply E place (world st)) as [w1 [[|hit rest]|e]].
  - eexists. reflexivity.
  - cbv beta iota zeta.
    destruct (title hit) as [t|].
    + cbv beta iota zeta delta [world trace].
      destruct (page_reply E t w1) as [w2 [[code html]|e]].
      * destruct (negb (code =? 200)).
        -- eexists. eexists. split; [reflexivity|].
           right. right. left. reflexivity.
        -- destruct html as [|c h].
           ++ eexists. eexists. split; [reflexivity|].
              right. right. left. reflexivity.
           ++ eexists. eexists. split; [reflexivity|]. apply from_soup_note.
      * eexists. reflexivity.
    + eexists. eexists. reflexivity.
  - eexists. reflexivity.
Qed.

(** The guarded call in [process_excel]: what the lookup returned, or the
    error record when it raised. *)
Lemma lookup_place_guard (place : string) (st : state W) :
  is_empty (strip place) = false ->
  lookup_place E place st =
    match get_literacy_for_place E place st with
    | (s1, Ok res) => (s1, Ok res)
    | (s1, Raise e) => (s1, Ok (error_out place e))
    end.
Proof.
  intro Hb. unfold lookup_place, bind, attempt, ret. rewrite Hb.
  destruct (get_literacy_for_place E place st) as [s1 [o|e]]; reflexivity.
Qed.

Lemma lookup_place_outcome (place : string) (st : state W) :
  exists st' o,
    lookup_place E place st = (st', Ok o) /\
    (is_empty (strip place) = false ->
     forall s1 e,
       get_literacy_for_place E place st = (s1, Raise e) ->
       st' = s1 /\ o = error_out place e) /\
    (is_empty (strip place) = false ->
     forall s1 res,
       get_literacy_for_place E place st = (s1, Ok res) ->
       st' = s1 /\ o = res).
Proof.
  destruct (is_empty (strip place)) eqn:Hb.
  - destruct (lookup_place_returns place st) as (st' & o & H).
    exists st', o. split; [exact H|]. split; intro; discriminate.
  - rewrite (lookup_place_guard place st Hb).
    destruct (get_literacy_for_place E place st) as [s1 [o|e]].
    + exists s1, o. split; [reflexivity|]. split; intros _ s2 x Hx.
      * discriminate.
      * injection Hx as <- <-. split; reflexivity.
    + exists s1, (error_out place e). split; [reflexivity|].
      split; intros _ s2 x Hx.
      * injection Hx as <- <-. split; reflexivity.
      * discriminate.
Qed.

End LiteracyNotes.

(** C4, as the code has it: [get_population_for_place] returns in every
    world, never propagating an exception of its lookups, with notes among
    election-site, search-error, no-wikidata-entity-found, claims-error,
    no-population-found, population-parsing-failed and wikidata.
    [get_literacy_for_place] either returns, with notes among search-error,
    no-wikipedia-search-result, failed-fetch-page, wikipedia-infobox,
    wikipedia-body and no-literacy-found, or propagates the exception raised
    by [fetch_wiki_html].  It returns whenever the first search hit has a
    title and the page request for that title does not raise, and it raises
    the exception of the page request when that request raises.  The call
    made by [process_excel] always returns a record: the record of the
    lookup, or, when the lookup raised, the record with notes error:
    followed by the message and no title, literacy or year. *)
Theorem lookups_notes_and_exceptions :
  (forall (W : Type) (E : PopulationAgent.env W) place st,
      exists st' o,
        PopulationAgent.get_population_for_place E place st = (st', Py.Ok o) /\
        PopulationAgent.known_note (PopulationAgent.notes o)) /\
  (forall (W : Type) (E : LiteracyAgent.env W) place st,
      (exists st' o,
          LiteracyAgent.get_literacy_for_place E place st = (st', Py.Ok o) /\
          LiteracyAgent.known_note (LiteracyAgent.notes o)) \/
      (exists s1 search st' e,
          LiteracyAgent.wiki_search E place st = (s1, Py.Ok (Some search)) /\
          LiteracyAgent.fetch_wiki_html E (LiteracyAgent.title search) s1
            = (st', Py.Raise e) /\
          LiteracyAgent.get_literacy_for_place E place st = (st', Py.Raise e))) /\
  (forall (W : Type) (E : LiteracyAgent.env W) place st,
      (forall w1 hit rest,
          LiteracyAgent.search_reply E place (LiteracyAgent.world st)
            = (w1, Py.Ok (hit :: rest)) ->
          exists t w2 reply,
            LiteracyAgent.title hit = Some t /\
            LiteracyAgent.page_reply E t w1 = (w2, Py.Ok reply)) ->
      exists st' o,
        LiteracyAgent.get_literacy_for_place E place st = (st', Py.Ok o) /\
        LiteracyAgent.known_note (LiteracyAgent.notes o)) /\
  (forall (W : Type) (E : LiteracyAgent.env W) place st w1 hit rest t w2 e,
      LiteracyAgent.search_reply E place (LiteracyAgent.world st)
        = (w1, Py.Ok (hit :: rest)) ->
      LiteracyAgent.title hit = Some t ->
      LiteracyAgent.page_reply E t w1 = (w2, Py.Raise e) ->
      exists st',
        LiteracyAgent.get_literacy_for_place E place st = (st', Py.Raise e)) /\
  (forall (W : Type) (E : LiteracyAgent.env W) place st,
      exists st' o,
        LiteracyAgent.lookup_place E place st = (st', Py.Ok o) /\
        (PyStr.is_empty (PyStr.strip place) = false ->
         forall s1 e,
           LiteracyAgent.get_literacy_for_place E place st = (s1, Py.Raise e) ->
           st' = s1 /\
           o = {| LiteracyAgent.input_name := place;
                  LiteracyAgent.wiki_title := None;
                  LiteracyAgent.out_literacy := None;
                  LiteracyAgent.literacy_year := None;
                  LiteracyAgent.notes := Some ("error: " ++ e)%string |}) /\
        (PyStr.is_empty (PyStr.strip place) = false ->
         forall s1 res,
           LiteracyAgent.get_literacy_for_place E place st = (s1, Py.Ok res) ->
           st' = s1 /\ o = res)).
Proof.
  split; [|split; [|split; [|split]]].
  - intros W E. apply get_population_returns.
  - intros W E. apply get_literacy_outcomes.
  - intros W E place st Hpage.
    pose proof (get_literacy_by_replies E place st) as H.
    destruct (LiteracyAgent.search_reply E place (LiteracyAgent.world st))
      as [w1 [[|hit rest]|e]].
    + destruct H as [st' H]. eexists. eexists. split; [exact H|].
      right. left. reflexivity.
    + destruct (Hpage w1 hit rest eq_refl) as (t & w2 & reply & Ht & Hp).
      rewrite Ht, Hp in H. exact H.
    + destruct H as [st' H]. eexists. eexists. split; [exact H|].
      left. exists e. reflexivity.
  - intros W E place st w1 hit rest t w2 e Hs Ht Hp.
    pose proof (get_literacy_by_replies E place st) as H.
    rewrite Hs, Ht, Hp in H. exact H.
  - intros W E place st.
    destruct (lookup_place_outcome E place st) as (st' & o & Hrun & Herr & Hok).
    exists st', o. split; [exact Hrun|]. split; assumption.
Qed.

Lemma lookups_notes_and_exceptions_witness :
  exists st' o,
    LiteracyAgent.get_literacy_for_place Scenario.literacy_online "Chennai"
      Scenario.literacy_start = (st', Py.Ok o) /\
    LiteracyAgent.known_note (LiteracyAgent.notes o).
Proof.
  apply (proj1 (proj2 (proj2 lookups_notes_and_exceptions))).
  intros w1 hit rest Hs. vm_compute in Hs. inversion Hs; subst w1 hit rest.
  exists "Chennai"%string, tt, (200, "<html>"%string).
  split; reflexivity.
Defined.

(** C4 as stated fails for the literacy agent: when the page request
    raises (here a timeout), [get_literacy_for_place] propagates the
    exception instead of returning a record. *)
Lemma literacy_exception_counterexample :
  LiteracyAgent.get_literacy_for_place Scenario.literacy_timeout "Chennai"
    Scenario.literacy_start
  = ({| LiteracyAgent.world := tt;
        LiteracyAgent.trace :=
          [LiteracyAgent.SearchRequest "Chennai";
           LiteracyAgent.PageRequest "Chennai"] |},
     Py.Raise "Read timed out"%string) /\
  ~ (forall (W : Type) (E : LiteracyAgent.env W) place st,
        exists st' o,
          LiteracyAgent.get_literacy_for_place E place st = (st', Py.Ok o)).
Proof.
  assert (Hrun : LiteracyAgent.get_literacy_for_place Scenario.literacy_timeout
                   "Chennai" Scenario.literacy_start
                 = ({| LiteracyAgent.world := tt;
                       LiteracyAgent.trace :=
                         [LiteracyAgent.SearchRequest "Chennai";
                          LiteracyAgent.PageRequest "Chennai"] |},
                    Py.Raise "Read timed out"%string))
    by (vm_compute; reflexivity).
  split; [exact Hrun|].
  intro H.
  destruct (H unit Scenario.literacy_timeout "Chennai"%string
              Scenario.literacy_start) as (st' & o & Hok).
  rewrite Hrun in Hok. discriminate.
Qed.

(* ------------------------------------------------------------------ *)
(** ** process_excel on a sheet without data rows *)

(** C9 fails on a sheet that has columns but no data row: the list of
    results is empty, [pd.DataFrame] of it has no column, and dropping
    [input_name] raises a KeyError before anything is written.  This holds
    for both agents, in every world, and no request is made. *)
Theorem process_excel_header_only_raises :
  (forall (W : Type) (E : PopulationAgent.env W) (cell : Type)
          (astype_str : cell -> string) first_col other_columns st,
      PopulationAgent.process_excel E astype_str
        ((first_col, []) :: other_columns) st
      = (st, Py.Raise "['input_name'] not found in axis"%string)) /\
  (forall (W : Type) (E : LiteracyAgent.env W) (cell : Type)
          (astype_str : cell -> string) first_col other_columns st,
      LiteracyAgent.process_excel E astype_str
        ((first_col, []) :: other_columns) st
      = (st, Py.Raise "['input_name'] not found in axis"%string)).
Proof.
  split; intros; reflexivity.
Qed.


(* ================================================================== *)
(** * Further properties of the agents *)

(* ------------------------------------------------------------------ *)
(** ** The requests of one population lookup *)

Section PopulationRequests.
Import PyStr Py PopulationAgent.
Context {W : Type} (E : env W).

(** One run of [get_population_for_place]: it returns a record for the
    place, and what it appends to the trace is an election request iff the
    cached table was empty, followed by nothing, by the entity search, or by
    the entity search and the claims request. *)
Lemma get_population_run (place : string) (st : state W) :
  exists st' o evs,
    get_population_for_place E place st = (st', Ok o) /\
    input_name o = place /\
    trace st' =
      trace st ++
      match ELECTION_DATA st with
      | [] => [ElectionRequest]
      | _ => []
      end ++ evs /\
    (evs = [] \/ evs = [EntitySearch place] \/
     exists entity_id, evs = [EntitySearch place; ClaimsRequest entity_id]).
Proof.
  unfold get_population_for_place, bind, attempt.
  destruct (election_lookup_run E place st) as (st0 & Hrun & Htr).
  rewrite Hrun.
  destruct (lookup_in (ELECTION_DATA st0) place) as [e|].
  { exists st0. eexists. exists []. split; [reflexivity|].
    split; [reflexivity|]. split; [|left; reflexivity].
    rewrite Htr, app_nil_r. reflexivity. }
  unfold search_wikidata_entity, bind, request.
  destruct (search_reply E place (world st0)) as [w1 [[|ent ents]|e]].
  - eexists. eexists. exists [EntitySearch place].
    split; [reflexivity|]. split; [reflexivity|].
    split; [|right; left; reflexivity].
    cbn [trace]. rewrite Htr, <- app_assoc. reflexivity.
  - unfold get_population_from_claims, bind, request.
    cbv beta iota zeta delta [world ELECTION_DATA trace ret lift].
    assert (Hshape : forall tr0,
              tr0 = (trace st0 ++ [EntitySearch place]) ++ [ClaimsRequest (id ent)] ->
              tr0 = trace st ++
                    match ELECTION_DATA st with
                    | [] => [ElectionRequest]
                    | _ :: _ => []
                    end ++ [EntitySearch place; ClaimsRequest (id ent)]).
    { intros tr0 ->. rewrite Htr, <- !app_assoc. reflexivity. }
    destruct (claims_reply E (id ent) w1) as [w2 [claims|e]].
    + destruct (population_from E claims) as [[pop|]|e].
      * cbv beta iota zeta delta [out_population set_population].
        destruct (res_population pop);
          (eexists; eexists; exists [EntitySearch place; ClaimsRequest (id ent)];
           split; [reflexivity|]; split; [reflexivity|];
           split; [apply Hshape; reflexivity | right; right; eexists; reflexivity]).
      * eexists. eexists. exists [EntitySearch place; ClaimsRequest (id ent)].
        split; [reflexivity|]. split; [reflexivity|].
        split; [apply Hshape; reflexivity | right; right; eexists; reflexivity].
      * eexists. eexists. exists [EntitySearch place; ClaimsRequest (id ent)].
        split; [reflexivity|]. split; [reflexivity|].
        split; [apply Hshape; reflexivity | right; right; eexists; reflexivity].
    + eexists. eexists. exists [EntitySearch place; ClaimsRequest (id ent)].
      split; [reflexivity|]. split; [reflexivity|].
      split; [apply Hshape; reflexivity | right; right; eexists; reflexivity].
  - eexists. eexists. exists [EntitySearch place].
    split; [reflexivity|]. split; [reflexivity|].
    split; [|right; left; reflexivity].
    cbn [trace]. rewrite Htr, <- app_assoc. reflexivity.
Qed.

End PopulationRequests.

(** X1: one call of [get_population_for_place] sends at most three
    requests, in a fixed order: the election page (only while the cached
    table is empty), then the Wikidata entity search for the place, then the
    claims request; a claims request is never sent without the search before
    it, and the returned record carries the place as its input name. *)
Theorem population_request_order
    (W : Type) (E : PopulationAgent.env W) (place : string)
    (st : PopulationAgent.state W) :
  exists st' o evs,
    PopulationAgent.get_population_for_place E place st = (st', Py.Ok o) /\
    PopulationAgent.input_name o = place /\
    PopulationAgent.trace st' =
      PopulationAgent.trace st ++
      match PopulationAgent.ELECTION_DATA st with
      | [] => [PopulationAgent.ElectionRequest]
      | _ => []
      end ++ evs /\
    (evs = [] \/ evs = [PopulationAgent.EntitySearch place] \/
     exists entity_id,
       evs = [PopulationAgent.EntitySearch place;
              PopulationAgent.ClaimsRequest entity_id]).
Proof. apply get_population_run. Qed.

(* ------------------------------------------------------------------ *)
(** ** process_excel on sheets with data rows *)

Section PopulationSheets.
Import PyStr Py PopulationAgent.
Context {W : Type} (E : env W).

Lemma lookup_place_run (place : string) (st : state W) :
  exists st' o,
    lookup_place E place st = (st', Ok o) /\
    input_name o = place /\
    (is_empty (strip place) = true -> st' = st /\ o = empty_input place).
Proof.
  unfold lookup_place.
  destruct (is_empty (strip place)) eqn:Hb.
  - exists st, (empty_input place).
    split; [reflexivity|]. split; [reflexivity|]. intros _. split; reflexivity.
  - destruct (get_population_run E place st) as (st' & o & evs & Hrun & Hn & _).
    exists st', o. split; [exact Hrun|]. split; [exact Hn|]. discriminate.
Qed.

(** The loop returns one record per place, in order; blank places get
    the empty-input record. *)
Lemma lookup_all_run (places : list string) :
  forall st, exists st' results,
    lookup_all E places st = (st', Ok results) /\
    Forall2 (fun place o =>
               input_name o = place /\
               (is_empty (strip place) = true -> o = empty_input place))
            places results.
Proof.
  induction places as [|place rest IH]; intro st.
  - exists st, []. split; [reflexivity | constructor].
  - destruct (lookup_place_run place st) as (s1 & o & Hrun & Hn & Hb).
    destruct (IH s1) as (s2 & results & Hrest & Hall).
    exists s2, (o :: results). split.
    + cbn [lookup_all]. unfold bind. rewrite Hrun, Hrest. reflexivity.
    + constructor; [|exact Hall]. split; [exact Hn|].
      intro H. apply (Hb H).
Qed.

(** A run over blank places only sends nothing and changes nothing. *)
Lemma lookup_all_blank (places : list string) (st : state W) :
  Forall (fun place => is_empty (strip place) = true) places ->
  lookup_all E places st = (st, Ok (map empty_input places)).
Proof.
  induction 1 as [|place rest Hb _ IH]; [reflexivity|].
  cbn [lookup_all map]. unfold bind, lookup_place. rewrite Hb.
  unfold ret at 1. rewrite IH. reflexivity.
Qed.

Lemma dataframe_columns (o : out) (results : list out) :
  Pandas.drop_column (S := state W) "input_name"
    (Pandas.DataFrame (map to_record (o :: results)))
  = ret [ ("wikidata_id",
           map (fun r => of_option VStr (wikidata_id r)) (o :: results));
          ("wikidata_label",
           map (fun r => of_option VStr (wikidata_label r)) (o :: results));
          ("population",
           map (fun r => of_option VInt (out_population r)) (o :: results));
          ("population_year",
           map (fun r => of_option VInt (population_year r)) (o :: results));
          ("notes",
           map (fun r => of_option VStr (notes r)) (o :: results)) ]%string.
Proof.
  unfold Pandas.drop_column, Pandas.DataFrame, Pandas.column_names.
  cbn [map to_record fst existsb String.eqb Ascii.eqb Bool.eqb orb andb negb
       List.filter].
  rewrite !map_map.
  repeat (f_equal; try reflexivity).
Qed.

End PopulationSheets.

(** X2: on a sheet with at least one data row the population agent's
    [process_excel] returns the frame it writes: the original columns
    unchanged, followed by the columns wikidata_id, wikidata_label,
    population, population_year and notes (input_name is dropped), built
    from one result record per row, in row order, each record carrying the
    text of its row; rows whose text is blank carry the empty-input record. *)
Theorem population_process_excel_rows
    (W : Type) (E : PopulationAgent.env W) (cell : Type)
    (astype_str : cell -> string) (first_col : string) (v : cell)
    (values : list cell) (other_columns : Pandas.frame cell)
    (st : PopulationAgent.state W) :
  let df := (first_col, v :: values) :: other_columns in
  exists st' results,
    Forall2 (fun c o =>
               PopulationAgent.input_name o = astype_str c /\
               (PyStr.is_empty (PyStr.strip (astype_str c)) = true ->
                o = PopulationAgent.empty_input (astype_str c)))
            (v :: values) results /\
    PopulationAgent.process_excel E astype_str df st =
      (st',
       Py.Ok
         {| Pandas.left := df;
            Pandas.right :=
              [ ("wikidata_id",
                 map (fun r => Py.of_option Py.VStr (PopulationAgent.wikidata_id r))
                     results);
                ("wikidata_label",
                 map (fun r => Py.of_option Py.VStr (PopulationAgent.wikidata_label r))
                     results);
                ("population",
                 map (fun r => Py.of_option Py.VInt (PopulationAgent.out_population r))
                     results);
                ("population_year",
                 map (fun r => Py.of_option Py.VInt (PopulationAgent.population_year r))
                     results);
                ("notes",
                 map (fun r => Py.of_option Py.VStr (PopulationAgent.notes r))
                     results) ]%string |}).
Proof.
  cbv zeta.
  destruct (lookup_all_run E (map astype_str (v :: values)) st)
    as (st' & results & Hrun & Hall).
  exists st', results. split.
  - clear Hrun. revert results Hall.
    generalize (v :: values) as cells.
    induction cells as [|c cells IH]; intros results Hall;
      inversion Hall; subst; constructor; auto.
  - unfold PopulationAgent.process_excel, Py.bind. rewrite Hrun.
    destruct results as [|o results]; [inversion Hall|].
    rewrite (dataframe_columns o results). reflexivity.
Qed.

(** X3: when every first-column text of the sheet is empty or blank, the
    population agent's [process_excel] sends no request and leaves the
    cached election table alone (the state is unchanged), and every row gets
    notes empty-input with all other result values None. *)
Theorem population_blank_sheet_no_lookup
    (W : Type) (E : PopulationAgent.env W) (cell : Type)
    (astype_str : cell -> string) (first_col : string) (v : cell)
    (values : list cell) (other_columns : Pandas.frame cell)
    (st : PopulationAgent.state W) :
  Forall (fun c => PyStr.is_empty (PyStr.strip (astype_str c)) = true)
         (v :: values) ->
  let df := (first_col, v :: values) :: other_columns in
  PopulationAgent.process_excel E astype_str df st =
    (st,
     Py.Ok
       {| Pandas.left := df;
          Pandas.right :=
            [ ("wikidata_id", map (fun _ => Py.VNone) (v :: values));
              ("wikidata_label", map (fun _ => Py.VNone) (v :: values));
              ("population", map (fun _ => Py.VNone) (v :: values));
              ("population_year", map (fun _ => Py.VNone) (v :: values));
              ("notes", map (fun _ => Py.VStr "empty-input") (v :: values))
            ]%string |}).
Proof.
  intros Hblank. cbv zeta.
  unfold PopulationAgent.process_excel, Py.bind.
  rewrite (lookup_all_blank E (map astype_str (v :: values)) st).
  - change (map PopulationAgent.empty_input (map astype_str (v :: values)))
      with (PopulationAgent.empty_input (astype_str v)
            :: map PopulationAgent.empty_input (map astype_str values)).
    rewrite (dataframe_columns (W := W)).
    change (PopulationAgent.empty_input (astype_str v)
            :: map PopulationAgent.empty_input (map astype_str values))
      with (map PopulationAgent.empty_input (map astype_str (v :: values))).
    rewrite !map_map. reflexivity.
  - apply Forall_map. exact Hblank.
Qed.

Lemma population_blank_sheet_no_lookup_witness :
  fst (PopulationAgent.process_excel Scenario.population_online Scenario.cell_text
         Samples.blank_rows Scenario.population_start)
  = Scenario.population_start.
Proof.
  unfold Samples.blank_rows.
  rewrite (population_blank_sheet_no_lookup unit Scenario.population_online
             string Scenario.cell_text "place"%string "  "%string
             [EmptyString]).
  - reflexivity.
  - repeat constructor.
Defined.

Section LiteracySheets.
Import PyStr Py LiteracyAgent.
Context {W : Type} (E : env W).

Lemma from_soup_input_name (o : out) (s : soup) :
  input_name (from_soup E o s) = input_name o.
Proof.
  unfold from_soup.
  destruct (with_literacy (parse_infobox_for_literacy E s)); [reflexivity|].
  destruct (with_literacy (parse_body_for_literacy E s)); reflexivity.
Qed.

Lemma get_literacy_input_name (place : string) (st st' : state W) (o : out) :
  get_literacy_for_place E place st = (st', Ok o) -> input_name o = place.
Proof.
  unfold get_literacy_for_place, bind, attempt.
  destruct (wiki_search E place st) as [s1 [[search|]|e]].
  - destruct (fetch_wiki_html E (title search) s1) as [s2 [[h|]|e]].
    + destruct h as [|c h]; intro H; inversion H; subst.
      * reflexivity.
      * apply from_soup_input_name.
    + intro H; inversion H; reflexivity.
    + discriminate.
  - intro H; inversion H; reflexivity.
  - intro H; inversion H; reflexivity.
Qed.

(** The guarded lookup of one place: blank text is answered without any
    request; an exception of the lookup becomes an error record. *)
Lemma literacy_lookup_place_run (place : string) (st : state W) :
  exists st' o,
    lookup_place E place st = (st', Ok o) /\
    input_name o = place /\
    (is_empty (strip place) = true -> st' = st /\ o = empty_input place) /\
    (is_empty (strip place) = false ->
     forall s1 e, get_literacy_for_place E place st = (s1, Raise e) ->
                  st' = s1 /\ o = error_out place e).
Proof.
  unfold lookup_place, bind, attempt, ret.
  destruct (is_empty (strip place)) eqn:Hb.
  - exists st, (empty_input place).
    split; [reflexivity|]. split; [reflexivity|].
    split; [intros _; split; reflexivity | discriminate].
  - destruct (get_literacy_for_place E place st) as [s1 [o|e]] eqn:Hrun.
    + exists s1, o. split; [reflexivity|].
      split; [apply (get_literacy_input_name place st s1 o Hrun)|].
      split; [discriminate|]. intros _ s2 e H. discriminate.
    + exists s1, (error_out place e). split; [reflexivity|].
      split; [reflexivity|]. split; [discriminate|].
      intros _ s2 e' H. inversion H; subst. split; reflexivity.
Qed.

Lemma literacy_lookup_all_run (places : list string) :
  forall st, exists st' results,
    lookup_all E places st = (st', Ok results) /\
    Forall2 (fun place o =>
               input_name o = place /\
               (is_empty (strip place) = true -> o = empty_input place))
            places results.
Proof.
  induction places as [|place rest IH]; intro st.
  - exists st, []. split; [reflexivity | constructor].
  - destruct (literacy_lookup_place_run place st) as (s1 & o & Hrun & Hn & Hb & _).
    destruct (IH s1) as (s2 & results & Hrest & Hall).
    exists s2, (o :: results). split.
    + cbn [lookup_all]. unfold bind. rewrite Hrun, Hrest. reflexivity.
    + constructor; [|exact Hall]. split; [exact Hn|].
      intro H. apply (Hb H).
Qed.

Lemma literacy_dataframe_columns (o : out) (results : list out) :
  Pandas.drop_column (S := state W) "input_name"
    (Pandas.DataFrame (map to_record (o :: results)))
  = ret [ ("wiki_title",
           map (fun r => of_option VStr (wiki_title r)) (o :: results));
          ("literacy",
           map (fun r => of_option VFloat (out_literacy r)) (o :: results));
          ("literacy_year",
           map (fun r => of_option VInt (literacy_year r)) (o :: results));
          ("notes",
           map (fun r => of_option VStr (notes r)) (o :: results)) ]%string.
Proof.
  unfold Pandas.drop_column, Pandas.DataFrame, Pandas.column_names.
  cbn [map to_record fst existsb String.eqb Ascii.eqb Bool.eqb orb andb negb
       List.filter].
  rewrite !map_map.
  repeat (f_equal; try reflexivity).
Qed.

End LiteracySheets.

(** X4: on a sheet with at least one data row the literacy agent's
    [process_excel] returns the frame it writes: the original columns
    unchanged, followed by the columns wiki_title, literacy, literacy_year
    and notes, built from one result record per row, in row order, each
    record carrying the text of its row; rows whose text is blank carry the
    empty-input record.  No exception of a lookup reaches the caller. *)
Theorem literacy_process_excel_rows
    (W : Type) (E : LiteracyAgent.env W) (cell : Type)
    (astype_str : cell -> string) (first_col : string) (v : cell)
    (values : list cell) (other_columns : Pandas.frame cell)
    (st : LiteracyAgent.state W) :
  let df := (first_col, v :: values) :: other_columns in
  exists st' results,
    Forall2 (fun c o =>
               LiteracyAgent.input_name o = astype_str c /\
               (PyStr.is_empty (PyStr.strip (astype_str c)) = true ->
                o = LiteracyAgent.empty_input (astype_str c)))
            (v :: values) results /\
    LiteracyAgent.process_excel E astype_str df st =
      (st',
       Py.Ok
         {| Pandas.left := df;
            Pandas.right :=
              [ ("wiki_title",
                 map (fun r => Py.of_option Py.VStr (LiteracyAgent.wiki_title r))
                     results);
                ("literacy",
                 map (fun r => Py.of_option Py.VFloat (LiteracyAgent.out_literacy r))
                     results);
                ("literacy_year",
                 map (fun r => Py.of_option Py.VInt (LiteracyAgent.literacy_year r))
                     results);
                ("notes",
                 map (fun r => Py.of_option Py.VStr (LiteracyAgent.notes r))
                     results) ]%string |}).
Proof.
  cbv zeta.
  destruct (literacy_lookup_all_run E (map astype_str (v :: values)) st)
    as (st' & results & Hrun & Hall).
  exists st', results. split.
  - clear Hrun. revert results Hall.
    generalize (v :: values) as cells.
    induction cells as [|c cells IH]; intros results Hall;
      inversion Hall; subst; constructor; auto.
  - unfold LiteracyAgent.process_excel, Py.bind. rewrite Hrun.
    destruct results as [|o results]; [inversion Hall|].
    rewrite (literacy_dataframe_columns o results). reflexivity.
Qed.

(** X5: in the loop of the literacy agent's [process_excel], a place whose
    lookup raises (the page request failed) yields the record with notes
    error: followed by the message and no title, literacy or year, in the
    state the failed lookup left; the loop goes on with the next place. *)
Theorem literacy_lookup_error_row
    (W : Type) (E : LiteracyAgent.env W) (place : string)
    (rest : list string) (st s1 : LiteracyAgent.state W) (e : Py.exn) :
  PyStr.is_empty (PyStr.strip place) = false ->
  LiteracyAgent.get_literacy_for_place E place st = (s1, Py.Raise e) ->
  exists st' results,
    LiteracyAgent.lookup_all E rest s1 = (st', Py.Ok results) /\
    LiteracyAgent.lookup_all E (place :: rest) st =
      (st',
       Py.Ok ({| LiteracyAgent.input_name := place;
                 LiteracyAgent.wiki_title := None;
                 LiteracyAgent.out_literacy := None;
                 LiteracyAgent.literacy_year := None;
                 LiteracyAgent.notes := Some ("error: " ++ e)%string |}
              :: results)).
Proof.
  intros Hb Hrun.
  destruct (literacy_lookup_all_run E rest s1) as (st' & results & Hrest & _).
  exists st', results. split; [exact Hrest|].
  cbn [LiteracyAgent.lookup_all].
  unfold Py.bind, LiteracyAgent.lookup_place, Py.attempt, Py.ret.
  rewrite Hb. unfold Py.bind. rewrite Hrun, Hrest. reflexivity.
Qed.

Lemma literacy_lookup_error_row_witness :
  exists st' results,
    LiteracyAgent.lookup_all Scenario.literacy_timeout ["Pune"%string]
      {| LiteracyAgent.world := tt;
         LiteracyAgent.trace :=
           [LiteracyAgent.SearchRequest "Chennai";
            LiteracyAgent.PageRequest "Chennai"] |}
    = (st', Py.Ok results) /\
    LiteracyAgent.lookup_all Scenario.literacy_timeout
      ["Chennai"%string; "Pune"%string] Scenario.literacy_start =
      (st',
       Py.Ok ({| LiteracyAgent.input_name := "Chennai";
                 LiteracyAgent.wiki_title := None;
                 LiteracyAgent.out_literacy := None;
                 LiteracyAgent.literacy_year := None;
                 LiteracyAgent.notes := Some "error: Read timed out"%string |}
              :: results)).
Proof.
  apply (literacy_lookup_error_row unit Scenario.literacy_timeout
           "Chennai"%string ["Pune"%string] Scenario.literacy_start _
           "Read timed out"%string).
  - vm_compute. reflexivity.
  - vm_compute. reflexivity.
Defined.

(* ------------------------------------------------------------------ *)
(** ** The election table: caching, matching and its keys *)

Section ElectionTable.
Import PyStr Py PopulationAgent.
Context {W : Type} (E : env W).

Lemma dict_get_in (np : string) (d : election_data) (v : entry) :
  dict_get np d = Some v -> In (np, v) d.
Proof.
  induction d as [|[k v'] d IH]; simpl; [discriminate|].
  destruct (String.eqb_spec np k) as [->|_].
  - intro H. inversion H. left. reflexivity.
  - intro H. right. apply IH. exact H.
Qed.

Lemma dict_get_some_key (np : string) (d : election_data) (v : entry) :
  In (np, v) d -> exists v', dict_get np d = Some v'.
Proof.
  induction d as [|[k v'] d IH]; simpl; [intros []|].
  intros [H|H].
  - inversion H; subst. rewrite String.eqb_refl. eexists. reflexivity.
  - destruct (String.eqb np k); [eexists; reflexivity | apply IH; exact H].
Qed.

(** The overlap loop keeps a candidate once it has one, and takes one as
    soon as a key shares a word with the place. *)
Lemma best_overlap_some (np : string) (d : election_data) :
  forall best score,
    (best <> None \/
     exists k v, In (k, v) d /\ (score < word_score np k)%nat) ->
    best_overlap np d best score <> None.
Proof.
  induction d as [|[k v] d IH]; intros best score H; simpl.
  - destruct H as [H|(k & v & [] & _)]. exact H.
  - destruct ((score <? word_score np k)%nat && (0 <? word_score np k)%nat) eqn:Hc.
    + apply IH. left. discriminate.
    + apply IH. destruct H as [H|(k' & v' & [Hin|Hin] & Hlt)].
      * left. exact H.
      * inversion Hin; subst k' v'. exfalso.
        apply andb_false_iff in Hc. destruct Hc as [Hc|Hc].
        -- apply Nat.ltb_ge in Hc. lia.
        -- apply Nat.ltb_ge in Hc. lia.
      * right. exists k', v'. split; assumption.
Qed.

Lemma lookup_in_found (d : election_data) (place : string) (e : pop_result) :
  lookup_in d place = Some e ->
  exists k v, In (k, v) d /\ e = found v.
Proof.
  unfold lookup_in. destruct d as [|kv d']; [discriminate|].
  set (d := kv :: d'). set (np := normalize_name place).
  destruct (dict_get np d) as [v|] eqn:Hg.
  { intro H. inversion H. exists np, v. split; [apply dict_get_in; exact Hg | reflexivity]. }
  destruct (List.find _ d) as [[k v]|] eqn:Hf.
  { intro H. inversion H. exists k, v.
    split; [apply (find_some _ _ Hf) | reflexivity]. }
  assert (Hbest : forall d0 best score b,
            best_overlap np d0 best score = Some b ->
            best = Some b \/ exists k, In (k, b) d0).
  { induction d0 as [|[k v] d0 IH]; intros best score b; simpl.
    - intro H. left. exact H.
    - destruct (_ && _).
      + intro H. destruct (IH _ _ _ H) as [H1|[k' H1]].
        * inversion H1; subst. right. exists k. left. reflexivity.
        * right. exists k'. right. exact H1.
      + intro H. destruct (IH _ _ _ H) as [H1|[k' H1]].
        * left. exact H1.
        * right. exists k'. right. exact H1. }
  destruct (best_overlap np d None 0) as [b|] eqn:Hb; [|discriminate].
  intro H. injection H as <-.
  destruct (Hbest d None 0%nat b Hb) as [Hx|[k Hx]]; [discriminate|].
  exists k, b. split; [exact Hx | reflexivity].
Qed.

End ElectionTable.

(** X6: the election table is fetched once: while the cached table is
    non-empty, [election_lookup] sends no request, leaves the state
    unchanged and answers from the cache; while it is empty (nothing was
    loaded, or the last fetch failed or parsed to nothing) every call sends
    the election request again. *)
Theorem election_table_cached
    (W : Type) (E : PopulationAgent.env W) (place : string)
    (st : PopulationAgent.state W) :
  (PopulationAgent.ELECTION_DATA st <> [] ->
   PopulationAgent.election_lookup E place st =
     (st, Py.Ok (PopulationAgent.lookup_in (PopulationAgent.ELECTION_DATA st) place))) /\
  (PopulationAgent.ELECTION_DATA st = [] ->
   PopulationAgent.trace (fst (PopulationAgent.election_lookup E place st)) =
     PopulationAgent.trace st ++ [PopulationAgent.ElectionRequest]).
Proof.
  destruct st as [w d tr]. cbn [PopulationAgent.ELECTION_DATA PopulationAgent.trace].
  split.
  - intro Hne. destruct d as [|kv d]; [congruence|]. reflexivity.
  - intros ->.
    unfold PopulationAgent.election_lookup, PopulationAgent.load_election_data,
      Py.bind, PopulationAgent.get_election_data, Py.attempt,
      PopulationAgent.request, PopulationAgent.set_election_data, Py.ret.
    cbv beta iota zeta delta [PopulationAgent.world PopulationAgent.ELECTION_DATA
                              PopulationAgent.trace].
    destruct (PopulationAgent.election_reply E w) as [w' [content|e]];
      reflexivity.
Qed.

Lemma election_table_cached_witness :
  let st := fst (PopulationAgent.election_lookup Scenario.population_online
                   "Ponneri" Scenario.population_start) in
  PopulationAgent.election_lookup Scenario.population_online "Atlantis" st
  = (st, Py.Ok None) /\
  PopulationAgent.trace
    (fst (PopulationAgent.election_lookup Scenario.population_no_election
            "Ponneri" Scenario.population_start))
  = [PopulationAgent.ElectionRequest].
Proof.
  cbv zeta. split.
  - rewrite (proj1 (election_table_cached unit Scenario.population_online
                      "Atlantis"%string _)).
    + vm_compute. reflexivity.
    + vm_compute. discriminate.
  - rewrite (proj2 (election_table_cached unit Scenario.population_no_election
                      "Ponneri"%string Scenario.population_start));
      reflexivity.
Defined.

(** X7: [election_lookup]'s matching is complete: on a non-empty table the
    lookup fails exactly when no key matches the normalized place exactly,
    as a substring either way, or by a common word; when it succeeds the
    answer is the population of an entry of the table, with year 2025. *)
Theorem election_match_complete
    (d : PopulationAgent.election_data) (place : string) :
  d <> [] ->
  (PopulationAgent.lookup_in d place = None <->
   PopulationAgent.unmatched d place) /\
  (forall e,
      PopulationAgent.lookup_in d place = Some e ->
      exists k v,
        In (k, v) d /\
        PopulationAgent.res_population e = Some (PopulationAgent.population v) /\
        PopulationAgent.res_year e = Some 2025).
Proof.
  intro Hne. split.
  - split.
    + intros Hnone k v Hin.
      unfold PopulationAgent.lookup_in in Hnone.
      destruct d as [|kv d']; [congruence|].
      set (d := kv :: d') in *.
      set (np := PopulationAgent.normalize_name place) in *.
      destruct (PopulationAgent.dict_get np d) as [v0|] eqn:Hg; [discriminate|].
      destruct (List.find _ d) as [[k0 v0]|] eqn:Hf; [discriminate|].
      destruct (PopulationAgent.best_overlap np d None 0) as [b|] eqn:Hb;
        [discriminate|].
      pose proof (find_none _ _ Hf (k, v) Hin) as Hpm.
      unfold PopulationAgent.partial_match in Hpm. cbn [fst] in Hpm.
      apply orb_false_iff in Hpm. destruct Hpm as [Hpm Hc2].
      apply orb_false_iff in Hpm. destruct Hpm as [Heq Hc1].
      split; [apply String.eqb_neq; exact Heq|].
      split; [exact Hc1|]. split; [exact Hc2|].
      destruct (PopulationAgent.word_score np k) as [|n] eqn:Hs; [reflexivity|].
      exfalso. apply (best_overlap_some np d None 0%nat); [|exact Hb].
      right. exists k, v. split; [exact Hin|]. rewrite Hs. lia.
    + intro H. apply lookup_in_none. right. exact H.
  - intros e He.
    destruct (lookup_in_found d place e He) as (k & v & Hin & ->).
    exists k, v. split; [exact Hin|]. split; reflexivity.
Qed.

Lemma election_match_complete_witness :
  PopulationAgent.lookup_in
    (PopulationAgent.load_page Scenario.election_page) "Atlantis" = None <->
  PopulationAgent.unmatched
    (PopulationAgent.load_page Scenario.election_page) "Atlantis".
Proof.
  apply (election_match_complete
           (PopulationAgent.load_page Scenario.election_page) "Atlantis"%string).
  vm_compute. discriminate.
Defined.

Section TableInvariant.
Import PyStr Py PopulationAgent Invariants.

Lemma dict_set_in (k : string) (v : entry) (d : election_data) :
  forall k' v', In (k', v') (dict_set k v d) ->
                (k', v') = (k, v) \/ In (k', v') d.
Proof.
  induction d as [|[k0 v0] d IH]; simpl; intros k' v' H.
  - destruct H as [H|[]]. left. symmetry. exact H.
  - destruct (String.eqb k k0).
    + destruct H as [H|H]; [left; symmetry; exact H | right; right; exact H].
    + destruct H as [H|H]; [right; left; exact H|].
      destruct (IH k' v' H) as [H1|H1]; [left; exact H1 | right; right; exact H1].
Qed.

Lemma dict_set_key_in (k : string) (v : entry) (d : election_data) (k' : string) :
  In k' (map fst (dict_set k v d)) -> k' = k \/ In k' (map fst d).
Proof.
  induction d as [|[k0 v0] d IH]; simpl.
  - intros [H|[]]. left. symmetry. exact H.
  - destruct (String.eqb_spec k k0) as [->|Hne]; simpl.
    + intros [H|H]; [left; symmetry; exact H | right; right; exact H].
    + intros [H|H]; [right; left; exact H|].
      destruct (IH H) as [H1|H1]; [left; exact H1 | right; right; exact H1].
Qed.

Lemma dict_set_nodup (k : string) (v : entry) (d : election_data) :
  NoDup (map fst d) -> NoDup (map fst (dict_set k v d)).
Proof.
  induction d as [|[k0 v0] d IH]; simpl; intro H.
  - constructor; [intros [] | constructor].
  - inversion H as [|x l Hnotin Hnd]; subst.
    destruct (String.eqb_spec k k0) as [->|Hne]; simpl.
    + constructor; assumption.
    + constructor; [|apply IH; exact Hnd].
      intro Hin. apply dict_set_key_in in Hin.
      destruct Hin as [Hin|Hin]; [congruence | contradiction].
Qed.

Lemma digits_value_go_nonneg (s : string) :
  forall acc, 0 <= acc -> 0 <= digits_value_go acc s.
Proof.
  induction s as [|c s IH]; cbn [digits_value_go]; intros acc H; [exact H|].
  apply IH. unfold digit_value. lia.
Qed.

Lemma digits_value_nonneg (s : string) : 0 <= digits_value s.
Proof. apply digits_value_go_nonneg. lia. Qed.

Lemma classify_cells_nonneg (cells : list string) :
  Forall (fun n => 0 <= n) (fst (classify_cells cells)).
Proof.
  induction cells as [|c cells IH]; simpl; [constructor|].
  destruct (classify_cells cells) as [nums parts]. simpl in IH.
  destruct (all_digits _); [|exact IH].
  unfold int_of_spaced_digits.
  destruct (all_digits (strip _)); [|exact IH].
  simpl. constructor; [apply digits_value_nonneg | exact IH].
Qed.

Lemma fold_max_nonneg (nums : list Z) :
  forall n, 0 <= n -> 0 <= fold_left Z.max nums n.
Proof.
  induction nums as [|m nums IH]; simpl; intros n H; [exact H|].
  apply IH. lia.
Qed.

Lemma dict_set_ok (nm : string) (p : Z) (d : election_data) :
  0 <= p -> table_ok d ->
  table_ok (dict_set (normalize_name nm) {| name := nm; population := p |} d).
Proof.
  intros Hp [Hnd Hall]. split; [apply dict_set_nodup; exact Hnd|].
  intros k v Hin. apply dict_set_in in Hin. destruct Hin as [Hin|Hin].
  - inversion Hin; subst. split; [reflexivity | exact Hp].
  - apply (Hall k v Hin).
Qed.

Lemma load_row_ok (d : election_data) (cells : list string) :
  table_ok d -> table_ok (load_row d cells).
Proof.
  intro H. unfold load_row. destruct cells as [|c cells]; [exact H|].
  pose proof (classify_cells_nonneg (c :: cells)) as Hn.
  destruct (classify_cells (c :: cells)) as [nums parts]. cbn [fst] in Hn.
  destruct nums as [|n nums]; [exact H|]. cbn [max_num].
  destruct (max_len parts) as [nm|]; [|exact H].
  apply dict_set_ok; [|exact H].
  inversion Hn; subst. apply fold_max_nonneg. assumption.
Qed.

Lemma load_line_ok (d : election_data) (line : string) :
  table_ok d -> table_ok (load_line d line).
Proof.
  intro H. unfold load_line. destruct (rev (split line)) as [|l ri]; [exact H|].
  destruct (_ && _); [|exact H].
  apply dict_set_ok; [apply digits_value_nonneg | exact H].
Qed.

Lemma fold_left_ok {A : Type} (f : election_data -> A -> election_data)
      (l : list A) :
  (forall d a, table_ok d -> table_ok (f d a)) ->
  forall d, table_ok d -> table_ok (fold_left f l d).
Proof.
  intro Hf. induction l as [|a l IH]; simpl; intros d H; [exact H|].
  apply IH, Hf, H.
Qed.

Lemma load_page_ok (p : election_page) : table_ok (load_page p).
Proof.
  assert (Hnil : table_ok []).
  { split; [constructor | intros k v []]. }
  assert (Ht : table_ok (load_tables (page_tables p))).
  { unfold load_tables. apply fold_left_ok; [|exact Hnil].
    intros d table Hd. apply fold_left_ok; [|exact Hd].
    intros d' cells. apply load_row_ok. }
  unfold load_page. destruct (load_tables (page_tables p)) as [|kv d].
  - apply fold_left_ok; [|exact Hnil]. intros d line. apply load_line_ok.
  - exact Ht.
Qed.

End TableInvariant.

Section TableInState.
Import PyStr Py PopulationAgent Invariants.
Context {W : Type} (E : env W).

Lemma election_lookup_table (place : string) (st : state W) :
  ELECTION_DATA (fst (election_lookup E place st)) = ELECTION_DATA st \/
  ELECTION_DATA st = [] /\
  exists content,
    ELECTION_DATA (fst (election_lookup E place st)) =
      load_page (BeautifulSoup E content).
Proof.
  destruct st as [w d tr].
  unfold election_lookup, load_election_data, bind, get_election_data,
    attempt, request, set_election_data, ret.
  cbv beta iota zeta delta [world ELECTION_DATA trace].
  destruct d as [|kv d]; [|left; reflexivity].
  destruct (election_reply E w) as [w' [content|e]].
  - right. split; [reflexivity|]. exists content. reflexivity.
  - left. reflexivity.
Qed.

(** The Wikidata part of the lookup does not touch the table. *)
Lemma get_population_table (place : string) (st : state W) :
  ELECTION_DATA (fst (get_population_for_place E place st)) =
  ELECTION_DATA (fst (election_lookup E place st)).
Proof.
  unfold get_population_for_place, bind, attempt.
  destruct (election_lookup_run E place st) as (st0 & Hrun & _).
  rewrite Hrun. cbn [fst].
  destruct (lookup_in (ELECTION_DATA st0) place) as [e|]; [reflexivity|].
  unfold search_wikidata_entity, bind, request.
  destruct (search_reply E place (world st0)) as [w1 [[|ent ents]|e]];
    try reflexivity.
  unfold get_population_from_claims, bind, request.
  cbv beta iota zeta delta [world ELECTION_DATA trace ret lift].
  destruct (claims_reply E (id ent) w1) as [w2 [claims|e]]; [|reflexivity].
  destruct (population_from E claims) as [[pop|]|e]; try reflexivity.
  cbv beta iota zeta delta [out_population set_population].
  destruct (res_population pop); reflexivity.
Qed.

End TableInState.

(** X8: the cached election table keeps its invariant through every
    lookup: its keys are distinct, every key is the normalized name of its
    entry, and no population is negative.  The table built from any page by
    the loader has the invariant, and [get_population_for_place] preserves
    it from any state that has it (the empty initial table does). *)
Theorem election_table_invariant :
  (forall p : PopulationAgent.election_page,
      Invariants.table_ok (PopulationAgent.load_page p)) /\
  (forall (W : Type) (E : PopulationAgent.env W) place
          (st : PopulationAgent.state W),
      Invariants.table_ok (PopulationAgent.ELECTION_DATA st) ->
      Invariants.table_ok
        (PopulationAgent.ELECTION_DATA
           (fst (PopulationAgent.get_population_for_place E place st)))).
Proof.
  split; [apply load_page_ok|].
  intros W E place st Hok. rewrite get_population_table.
  destruct (election_lookup_table E place st) as [->|(_ & content & ->)];
    [exact Hok | apply load_page_ok].
Qed.

Lemma election_table_invariant_witness :
  Invariants.table_ok
    (PopulationAgent.ELECTION_DATA
       (fst (PopulationAgent.get_population_for_place Scenario.population_online
               "Ponneri" Scenario.population_start))).
Proof.
  apply (proj2 election_table_invariant).
  split; [constructor | intros k v []].
Defined.

(** X9: place names are matched on a reduced alphabet and regardless of
    case: [normalize_name] returns only lower-case ASCII letters, digits
    and spaces, and gives the same result for a name and for its lower-cased
    form. *)
Theorem normalize_name_alphabet_and_case (s : string) :
  PyStr.forallb PopulationAgent.keep_name_char
    (PopulationAgent.normalize_name s) = true /\
  PopulationAgent.normalize_name (PyStr.lower s) =
  PopulationAgent.normalize_name s.
Proof.
  assert (Hfilter : forall p t, PyStr.forallb p (PyStr.filter p t) = true).
  { intros p t. induction t as [|c t IH]; simpl; trivial.
    destruct (p c) eqn:Hc; simpl; [rewrite Hc|]; exact IH. }
  assert (Hsp : forall c, PyStr.isspace (PyStr.lower_char c) = PyStr.isspace c).
  { intros [[] [] [] [] [] [] [] []]; vm_compute; reflexivity. }
  assert (Hll : forall c, PyStr.lower_char (PyStr.lower_char c) = PyStr.lower_char c).
  { intros [[] [] [] [] [] [] [] []]; vm_compute; reflexivity. }
  assert (Hlower : forall t, PyStr.lower (PyStr.lower t) = PyStr.lower t).
  { induction t as [|c t IH]; simpl; [reflexivity|]. rewrite Hll, IH. reflexivity. }
  assert (Hempty : forall t, PyStr.is_empty (PyStr.lower t) = PyStr.is_empty t).
  { intros [|c t]; reflexivity. }
  assert (Hl : forall t, PyStr.lstrip (PyStr.lower t) = PyStr.lower (PyStr.lstrip t)).
  { induction t as [|c t IH]; simpl; [reflexivity|].
    rewrite Hsp. destruct (PyStr.isspace c); [exact IH | reflexivity]. }
  assert (Hr : forall t, PyStr.rstrip (PyStr.lower t) = PyStr.lower (PyStr.rstrip t)).
  { induction t as [|c t IH]; simpl; [reflexivity|].
    rewrite Hsp, IH, Hempty.
    destruct (PyStr.isspace c && PyStr.is_empty (PyStr.rstrip t)); reflexivity. }
  split.
  - apply Hfilter.
  - unfold PopulationAgent.normalize_name, PyStr.strip.
    rewrite Hl, Hr, Hlower. reflexivity.
Qed.

(** X10: [get_population_from_claims] finds no population exactly when no
    claim of the P1082 list has a datavalue: the choice among the claims
    returns None iff every claim is skipped. *)
Theorem population_none_iff_no_datavalue
    (W : Type) (E : PopulationAgent.env W) (claims : list PopulationAgent.claim) :
  PopulationAgent.population_from E claims = Py.Ok None <->
  (forall c, In c claims -> PopulationAgent.has_datavalue c = false).
Proof.
  rewrite (population_from_choose E claims).
  pose proof (choose_claim_spec E claims) as Hspec.
  destruct (PopulationAgent.choose_claim E claims) as [best [y|]].
  - destruct Hspec as (c & -> & Hin & Hdv & _). split.
    + destruct (PopulationAgent.result_of_claim E c (Some y)); discriminate.
    + intro H. rewrite (H c Hin) in Hdv. discriminate.
  - destruct Hspec as (_ & ->).
    destruct (List.find PopulationAgent.has_datavalue claims) as [c|] eqn:Hf.
    + split.
      * destruct (PopulationAgent.result_of_claim E c None); discriminate.
      * intro H. apply find_some in Hf. destruct Hf as [Hin Hdv].
        rewrite (H c Hin) in Hdv. discriminate.
    + split; [|reflexivity]. intros _ c Hin. apply (find_none _ _ Hf c Hin).
Qed.

(* ------------------------------------------------------------------ *)
(** ** Reachable scores and labels of the spreadsheet generators *)

Section ReachableScores.
Import Num.
Open Scope Q_scope.

Lemma astype_int_range (b : bool) : (0 <= astype_int b <= 1)%Z.
Proof. destruct b; simpl; lia. Qed.

Lemma np_clip_le (x : Q) : 0 <= x -> np_clip x 0 100 <= x.
Proof.
  intro H. unfold np_clip.
  apply Qle_trans with (Qmax x 0); [apply Q.le_min_l|].
  apply Q.max_lub; [apply Qle_refl | exact H].
Qed.

(** A clipped weighted indicator sum stays below the weighted bound of the
    sum. *)
Lemma clipped_sum_bound (n m : Z) (w : Q) :
  (0 <= n <= m)%Z -> 0 <= w ->
  0 <= np_clip (inject_Z n * w) 0 100 /\
  np_clip (inject_Z n * w) 0 100 <= inject_Z m * w.
Proof.
  intros [H0 Hm] Hw. split; [apply np_clip_0_100|].
  assert (Hn : 0 <= inject_Z n).
  { change 0 with (inject_Z 0). rewrite <- Zle_Qle. exact H0. }
  apply Qle_trans with (inject_Z n * w).
  - apply np_clip_le. apply Qmult_le_0_compat; assumption.
  - apply Qmult_le_compat_r; [|exact Hw]. rewrite <- Zle_Qle. exact Hm.
Qed.

End ReachableScores.

(** Abstracts every indicator of the goal to a number in [0, 1]. *)
Ltac indicator_bounds :=
  repeat match goal with
    | |- context [Num.astype_int ?b] =>
        let H := fresh "H" in
        let v := fresh "v" in
        pose proof (astype_int_range b) as H;
        set (v := Num.astype_int b) in *; clearbody v
    end.

Section ComprehensiveSums.
Import Num ComprehensiveExcelGenerator.

Lemma demo_risk_range (b : borrower) : 0 <= demo_risk b <= 54.
Proof.
  unfold demo_risk.
  assert (Hx : astype_int (60 <? age b) + astype_int (age b <? 25) <= 1).
  { destruct (60 <? age b) eqn:H1; destruct (age b <? 25) eqn:H2; simpl; lia. }
  revert Hx. indicator_bounds. lia.
Qed.

Lemma financial_risk_range (b : borrower) : 0 <= financial_risk b <= 140.
Proof. unfold financial_risk. indicator_bounds. lia. Qed.

Lemma asset_risk_range (b : borrower) : 0 <= asset_risk b <= 86.
Proof. unfold asset_risk. indicator_bounds. lia. Qed.

Lemma social_risk_range (b : borrower) : 0 <= social_risk b <= 95.
Proof. unfold social_risk. indicator_bounds. lia. Qed.

Lemma infrastructure_risk_range (b : borrower) : 0 <= infrastructure_risk b <= 63.
Proof. unfold infrastructure_risk. indicator_bounds. lia. Qed.

Lemma doc_risk_range (b : borrower) : 0 <= doc_risk b <= 72.
Proof. unfold doc_risk. indicator_bounds. lia. Qed.

Lemma comprehensive_overall_range (b : borrower) :
  (0 <= overall_risk_score (score_row b) /\
   overall_risk_score (score_row b) <= 7267 # 400)%Q.
Proof.
  unfold score_row. cbv zeta. cbn [overall_risk_score].
  destruct (clipped_sum_bound _ 54 0.18 (demo_risk_range b)) as [Hd0 Hd1];
    [discriminate|].
  destruct (clipped_sum_bound _ 140 0.25 (financial_risk_range b)) as [Hf0 Hf1];
    [discriminate|].
  destruct (clipped_sum_bound _ 86 0.22 (asset_risk_range b)) as [Ha0 Ha1];
    [discriminate|].
  destruct (clipped_sum_bound _ 95 0.15 (social_risk_range b)) as [Hs0 Hs1];
    [discriminate|].
  destruct (clipped_sum_bound _ 63 0.12 (infrastructure_risk_range b)) as [Hi0 Hi1];
    [discriminate|].
  destruct (clipped_sum_bound _ 72 0.08 (doc_risk_range b)) as [Hc0 Hc1];
    [discriminate|].
  revert Hd0 Hd1 Hf0 Hf1 Ha0 Ha1 Hs0 Hs1 Hi0 Hi1 Hc0 Hc1.
  generalize (np_clip (inject_Z (demo_risk b) * 0.18) 0 100).
  generalize (np_clip (inject_Z (financial_risk b) * 0.25) 0 100).
  generalize (np_clip (inject_Z (asset_risk b) * 0.22) 0 100).
  generalize (np_clip (inject_Z (social_risk b) * 0.15) 0 100).
  generalize (np_clip (inject_Z (infrastructure_risk b) * 0.12) 0 100).
  generalize (np_clip (inject_Z (doc_risk b) * 0.08) 0 100).
  intros c i s a f d. unfold inject_Z.
  intros. split; lra.
Qed.

End ComprehensiveSums.

(** X11: in comprehensive_excel_generator the weights are applied twice
    (to the component scores and again in the overall score), so the overall
    risk score of every row lies in [0, 18.1675]: every row is labelled Low
    Risk, and the labels Medium Risk, High Risk and Very High Risk are never
    assigned.  The bound is attained by a row on which every indicator
    fires. *)
Theorem comprehensive_always_low_risk :
  (forall df r,
      In r (ComprehensiveExcelGenerator.calculate_comprehensive_risk_scores df) ->
      (0 <= ComprehensiveExcelGenerator.overall_risk_score r /\
       ComprehensiveExcelGenerator.overall_risk_score r <= 7267 # 400)%Q /\
      ComprehensiveExcelGenerator.risk_category r = Some "Low Risk"%string) /\
  (ComprehensiveExcelGenerator.overall_risk_score
     (ComprehensiveExcelGenerator.score_row Samples.worst_row) == 7267 # 400)%Q.
Proof.
  split.
  - intros df r Hin. apply in_map_iff in Hin. destruct Hin as [b [<- _]].
    pose proof (comprehensive_overall_range b) as [H0 H1].
    split; [split; assumption|].
    apply (comprehensive_cut
             (ComprehensiveExcelGenerator.overall_risk_score
                (ComprehensiveExcelGenerator.score_row b))).
    split; [exact H0|]. apply Qle_trans with (7267 # 400); [exact H1|discriminate].
  - vm_compute. reflexivity.
Qed.

Lemma comprehensive_always_low_risk_witness :
  ComprehensiveExcelGenerator.risk_category
    (ComprehensiveExcelGenerator.score_row Samples.worst_row)
  = Some "Low Risk"%string.
Proof.
  exact (proj2 (proj1 comprehensive_always_low_risk [Samples.worst_row]
                  (ComprehensiveExcelGenerator.score_row Samples.worst_row)
                  (or_introl eq_refl))).
Defined.

(** X12: for every row of comprehensive_excel_generator the recommended
    interest rate lies in the 12-20 range of the source comment (in fact
    below 13.46), and the default probability lies in [0, 0.25]: its clip to
    [0, 1] never acts, the value being the overall score divided by 400. *)
Theorem comprehensive_rate_and_probability :
  forall df r,
    In r (ComprehensiveExcelGenerator.calculate_comprehensive_risk_scores df) ->
    (12 <= ComprehensiveExcelGenerator.recommended_interest_rate r /\
     ComprehensiveExcelGenerator.recommended_interest_rate r <= 13.46 /\
     ComprehensiveExcelGenerator.recommended_interest_rate r <= 20 /\
     0 <= ComprehensiveExcelGenerator.default_probability r /\
     ComprehensiveExcelGenerator.default_probability r <= 0.25 /\
     ComprehensiveExcelGenerator.default_probability r ==
       ComprehensiveExcelGenerator.overall_risk_score r / 400)%Q.
Proof.
  intros df r Hin. apply in_map_iff in Hin. destruct Hin as [b [<- _]].
  pose proof (comprehensive_overall_range b) as [H0 H1].
  unfold ComprehensiveExcelGenerator.score_row in *. cbv zeta in *.
  cbn [ComprehensiveExcelGenerator.recommended_interest_rate
       ComprehensiveExcelGenerator.default_probability
       ComprehensiveExcelGenerator.overall_risk_score] in *.
  revert H0 H1.
  match goal with
  | |- (0 <= ?o)%Q -> _ => generalize o
  end.
  intros o H0 H1. unfold Qdiv.
  change (/ 100)%Q with (1 # 100)%Q. change (/ 400)%Q with (1 # 400)%Q.
  assert (Hclip : (Num.np_clip (o * (1 # 100) * 0.25) 0 1 == o * (1 # 400))%Q).
  { unfold Num.np_clip.
    rewrite Q.max_l by lra. rewrite Q.min_l by lra. ring. }
  rewrite Hclip. repeat split; lra.
Qed.

Lemma comprehensive_rate_and_probability_witness :
  (12 <= ComprehensiveExcelGenerator.recommended_interest_rate
           (ComprehensiveExcelGenerator.score_row Samples.worst_row))%Q.
Proof.
  exact (proj1 (comprehensive_rate_and_probability [Samples.worst_row]
                  (ComprehensiveExcelGenerator.score_row Samples.worst_row)
                  (or_introl eq_refl))).
Defined.

Section ExcelBasedSums.
Import Num ExcelBasedDataGenerator.

Lemma eb_demo_risk_range (b : borrower) : 0 <= demo_risk b <= 60.
Proof. unfold demo_risk. indicator_bounds. lia. Qed.

Lemma eb_financial_risk_range (b : borrower) : 0 <= financial_risk b <= 120.
Proof. unfold financial_risk. indicator_bounds. lia. Qed.

Lemma eb_asset_risk_range (b : borrower) : 0 <= asset_risk b <= 85.
Proof. unfold asset_risk. indicator_bounds. lia. Qed.

Lemma eb_social_risk_range (b : borrower) : 0 <= social_risk b <= 70.
Proof. unfold social_risk. indicator_bounds. lia. Qed.

Lemma eb_doc_risk_range (b : borrower) : 0 <= doc_risk b <= 55.
Proof. unfold doc_risk. indicator_bounds. lia. Qed.

Lemma excel_based_overall_range (b : borrower) :
  (0 <= overall_risk_score (score_row b) /\
   overall_risk_score (score_row b) <= 1651 # 80)%Q.
Proof.
  unfold score_row. cbv zeta. cbn [overall_risk_score].
  destruct (clipped_sum_bound _ 60 0.2 (eb_demo_risk_range b)) as [Hd0 Hd1];
    [discriminate|].
  destruct (clipped_sum_bound _ 120 0.3 (eb_financial_risk_range b)) as [Hf0 Hf1];
    [discriminate|].
  destruct (clipped_sum_bound _ 85 0.25 (eb_asset_risk_range b)) as [Ha0 Ha1];
    [discriminate|].
  destruct (clipped_sum_bound _ 70 0.15 (eb_social_risk_range b)) as [Hs0 Hs1];
    [discriminate|].
  destruct (clipped_sum_bound _ 55 0.1 (eb_doc_risk_range b)) as [Hc0 Hc1];
    [discriminate|].
  revert Hd0 Hd1 Hf0 Hf1 Ha0 Ha1 Hs0 Hs1 Hc0 Hc1.
  generalize (np_clip (inject_Z (demo_risk b) * 0.2) 0 100).
  generalize (np_clip (inject_Z (financial_risk b) * 0.3) 0 100).
  generalize (np_clip (inject_Z (asset_risk b) * 0.25) 0 100).
  generalize (np_clip (inject_Z (social_risk b) * 0.15) 0 100).
  generalize (np_clip (inject_Z (doc_risk b) * 0.1) 0 100).
  intros c s a f d. unfold inject_Z.
  intros. split; lra.
Qed.

Lemma excel_based_cut (s : Q) :
  let l := pd_cut s bins labels false in
  ((s == 0)%Q -> l = None) /\
  ((0 < s /\ s <= 25)%Q -> l = Some "Low Risk"%string).
Proof.
  unfold pd_cut, cut_right, bins, labels, Qlt_bool. cbn [andb].
  split.
  - intro H. qcases; simpl; trivial; lra.
  - intros [H1 H2]. qcases; simpl; trivial; lra.
Qed.

End ExcelBasedSums.

(** X13: in excel_based_data_generator the overall risk score of every row
    lies in [0, 20.6375], inside the first bin (0, 25] of the cut; as the
    cut does not include its lowest edge, a row is labelled Low Risk when
    its score is positive and gets no label at all (NaN) when its score is
    0, which a row without any risk indicator has. *)
Theorem excel_based_low_risk_or_unlabelled :
  (forall df r,
      In r (ExcelBasedDataGenerator.calculate_comprehensive_risk_scores df) ->
      (0 <= ExcelBasedDataGenerator.overall_risk_score r /\
       ExcelBasedDataGenerator.overall_risk_score r <= 1651 # 80)%Q /\
      ((0 < ExcelBasedDataGenerator.overall_risk_score r)%Q ->
       ExcelBasedDataGenerator.risk_category r = Some "Low Risk"%string) /\
      ((ExcelBasedDataGenerator.overall_risk_score r == 0)%Q ->
       ExcelBasedDataGenerator.risk_category r = None)) /\
  ExcelBasedDataGenerator.risk_category
    (ExcelBasedDataGenerator.score_row Samples.spotless_row) = None.
Proof.
  split.
  - intros df r Hin. apply in_map_iff in Hin. destruct Hin as [b [<- _]].
    pose proof (excel_based_overall_range b) as [H0 H1].
    pose proof (excel_based_cut
                  (ExcelBasedDataGenerator.overall_risk_score
                     (ExcelBasedDataGenerator.score_row b))) as [Hz Hp].
    split; [split; assumption|]. split.
    + intro Hpos. apply Hp. split; [exact Hpos|].
      apply Qle_trans with (1651 # 80); [exact H1 | discriminate].
    + exact Hz.
  - vm_compute. reflexivity.
Qed.

Lemma excel_based_low_risk_or_unlabelled_witness :
  ExcelBasedDataGenerator.risk_category
    (ExcelBasedDataGenerator.score_row SampleRows.excel_based_row)
  = Some "Low Risk"%string.
Proof.
  apply (proj1 (proj2 (proj1 excel_based_low_risk_or_unlabelled
                         [SampleRows.excel_based_row]
                         (ExcelBasedDataGenerator.score_row SampleRows.excel_based_row)
                         (or_introl eq_refl)))).
  vm_compute. reflexivity.
Defined.

(* ------------------------------------------------------------------ *)
(** ** The banking API: what the lending endpoint can answer *)

Section LendingReach.
Import BankingIntelligenceAPI.

Lemma purpose_offset_range (p : string) :
  0 <= dict_get purpose_risk p 10 <= 15 /\
  (dict_get purpose_risk p 10 = 15 -> p = "Personal"%string).
Proof.
  rewrite purpose_offset.
  destruct (String.eqb p "Agriculture"); [split; [lia | discriminate]|].
  destruct (String.eqb p "Business"); [split; [lia | discriminate]|].
  destruct (String.eqb_spec p "Personal") as [->|_]; [split; [lia | reflexivity]|].
  destruct (String.eqb p "Home"); [split; [lia | discriminate]|].
  destruct (String.eqb p "Vehicle"); split; try lia; discriminate.
Qed.

Lemma risk_score_55 (d : draws) :
  draws_ok d -> _calculate_risk_score d = 55 ->
  month_in (current_month d) [6; 7; 8] = true /\
  base_draw d = 45 /\ monsoon_draw d = 10.
Proof.
  unfold draws_ok, randint_ok, _calculate_risk_score. cbv zeta.
  intros (Hb & _ & Hm).
  destruct (month_in (current_month d) [6; 7; 8]); intro H; [|lia].
  split; [reflexivity|]. lia.
Qed.

End LendingReach.

(** X14: /api/lending-recommendation answers exactly the requests whose
    body is a JSON object with a hashable loan purpose; the others raise.
    With draws in the ranges of [random.randint], the adjusted risk of every
    answer lies in [20, 70], and the answer DEFER (rate 14.0) can only be
    given to a Personal loan in a monsoon month (June to August), when the
    base draw is 45 and the monsoon draw is 10; every other answer is
    APPROVE or CONDITIONAL_APPROVE. *)
Theorem lending_defer_only_personal_in_monsoon
    (d : BankingIntelligenceAPI.draws) (request_data : Json.json) :
  BankingIntelligenceAPI.draws_ok d ->
  ((exists r,
       BankingIntelligenceAPI.get_lending_recommendation d request_data = Py.Ok r)
   <-> exists members,
         request_data = Json.JObject members /\
         Json.hashable (BankingIntelligenceAPI.purpose_of members) = true) /\
  forall r,
    BankingIntelligenceAPI.get_lending_recommendation d request_data = Py.Ok r ->
    20 <= BankingIntelligenceAPI.risk_score r <= 70 /\
    (BankingIntelligenceAPI.recommendation r = "DEFER"%string ->
     BankingIntelligenceAPI.application_purpose r = Json.JString "Personal" /\
     BankingIntelligenceAPI.month_in
       (BankingIntelligenceAPI.current_month d) [6; 7; 8] = true /\
     BankingIntelligenceAPI.base_draw d = 45 /\
     BankingIntelligenceAPI.monsoon_draw d = 10) /\
    (BankingIntelligenceAPI.recommendation r <> "DEFER"%string ->
     BankingIntelligenceAPI.recommendation r = "APPROVE"%string \/
     BankingIntelligenceAPI.recommendation r = "CONDITIONAL_APPROVE"%string).
Proof.
  intro Hok.
  pose proof (calculate_risk_score_range d Hok) as Hbase.
  assert (Hobj : forall members,
             request_data = Json.JObject members ->
             match Json.hashable (BankingIntelligenceAPI.purpose_of members) with
             | true =>
                 exists r,
                   BankingIntelligenceAPI.get_lending_recommendation d request_data
                   = Py.Ok r
             | false =>
                 exists e,
                   BankingIntelligenceAPI.get_lending_recommendation d request_data
                   = Py.Raise e
             end).
  { intros members ->.
    pose proof (lending_on_object d members) as H.
    destruct (Json.hashable (BankingIntelligenceAPI.purpose_of members)) eqn:Hh.
    - rewrite (purpose_risk_get_hashable _ Hh) in H.
      destruct H as (r & Hr & _). exists r. exact Hr.
    - rewrite (purpose_risk_get_unhashable _ Hh) in H.
      eexists. exact H. }
  split.
  - split.
    + intros [r Hr].
      destruct request_data;
        try (rewrite lending_not_object in Hr; [discriminate|];
             intros m Hm; discriminate).
      exists members. split; [reflexivity|].
      specialize (Hobj members eq_refl).
      destruct (Json.hashable (BankingIntelligenceAPI.purpose_of members));
        [reflexivity|].
      destruct Hobj as [e He]. rewrite He in Hr. discriminate.
    + intros (members & Hm & Hh).
      specialize (Hobj members Hm). rewrite Hh in Hobj. exact Hobj.
  - intros r Hr.
    destruct request_data;
      try (rewrite lending_not_object in Hr; [discriminate|];
           intros m Hm; discriminate).
    pose proof (lending_on_object d members) as H.
    destruct (BankingIntelligenceAPI.purpose_risk_get
                (BankingIntelligenceAPI.purpose_of members) 10)
      as [off|e] eqn:Hget; [|rewrite H in Hr; discriminate].
    destruct H as (r' & Hr' & Hp & _ & Ha & Hrec).
    rewrite Hr' in Hr. injection Hr as <-.
    assert (Hoff : 0 <= off <= 15 /\
                   (off = 15 ->
                    BankingIntelligenceAPI.purpose_of members
                    = Json.JString "Personal")).
    { destruct (BankingIntelligenceAPI.purpose_of members) as [ | | | |p| | ];
        cbn [BankingIntelligenceAPI.purpose_risk_get] in Hget;
        try discriminate; injection Hget as <-;
        try (split; [lia | intro; discriminate]).
      destruct (purpose_offset_range p) as [Hr1 Hr2].
      split; [exact Hr1|]. intro H15. rewrite (Hr2 H15). reflexivity. }
    destruct Hoff as [Hoff Hpers].
    split; [rewrite Ha; lia|]. split.
    + intro Hdefer.
      destruct Hrec as [(_ & Hc & _)|[(_ & _ & Hc & _)|(_ & H70 & _)]];
        [rewrite Hc in Hdefer; discriminate
        |rewrite Hc in Hdefer; discriminate|].
      apply Z.ltb_ge in H70. rewrite Ha in H70.
      assert (Hb55 : BankingIntelligenceAPI._calculate_risk_score d = 55) by lia.
      assert (Ho15 : off = 15) by lia.
      destruct (risk_score_55 d Hok Hb55) as (Hm & Hbd & Hmd).
      rewrite Hp, (Hpers Ho15). repeat split; trivial.
    + intro Hnd.
      destruct Hrec as [(_ & Hc & _)|[(_ & _ & Hc & _)|(_ & _ & Hc & _)]];
        [left; exact Hc | right; exact Hc | contradiction].
Qed.

Lemma lending_defer_only_personal_in_monsoon_witness :
  exists r,
    BankingIntelligenceAPI.get_lending_recommendation Samples.peak_draws
      Samples.personal_request = Py.Ok r /\
    20 <= BankingIntelligenceAPI.risk_score r <= 70 /\
    BankingIntelligenceAPI.recommendation r = "DEFER"%string.
Proof.
  assert (Hok : BankingIntelligenceAPI.draws_ok Samples.peak_draws).
  { unfold BankingIntelligenceAPI.draws_ok, BankingIntelligenceAPI.randint_ok.
    simpl. lia. }
  assert (Hr : exists r,
             BankingIntelligenceAPI.get_lending_recommendation Samples.peak_draws
               Samples.personal_request = Py.Ok r /\
             BankingIntelligenceAPI.recommendation r = "DEFER"%string).
  { eexists. split; [vm_compute; reflexivity|]. reflexivity. }
  destruct Hr as (r & Hr & Hd).
  exists r. split; [exact Hr|]. split; [|exact Hd].
  exact (proj1 (proj2 (lending_defer_only_personal_in_monsoon
                         Samples.peak_draws Samples.personal_request Hok)
                  r Hr)).
Defined.

(* ------------------------------------------------------------------ *)
(** ** What the percentage search returns *)

Section RegexMore.
Import PyStr Re.
Local Open Scope char_scope.
Local Open Scope list_scope.

Lemma search_pct_here (s g : chars) :
  match_at s = Some g -> search_pct s = Some g.
Proof.
  intro H. destruct s as [|c s].
  - vm_compute in H. discriminate.
  - change (search_pct (c :: s))
      with (match match_at (c :: s) with
            | Some g0 => Some g0
            | None => search_pct s
            end).
    rewrite H. reflexivity.
Qed.

Lemma search_pct_next (c : ascii) (s : chars) :
  match_at (c :: s) = None -> search_pct (c :: s) = search_pct s.
Proof.
  intro H.
  change (search_pct (c :: s))
    with (match match_at (c :: s) with
          | Some g0 => Some g0
          | None => search_pct s
          end).
  rewrite H. reflexivity.
Qed.

Lemma search_pct_leftmost (s : chars) :
  forall g, search_pct s = Some g ->
    exists pre ds f ws post,
      s = pre ++ ds ++ f ++ ws ++ "%" :: post /\ g = ds ++ f /\
      pct_parts ds f ws /\
      forall pre' m' post',
        s = pre' ++ m' ++ post' -> pct_match m' ->
        (List.length pre <= List.length pre')%nat.
Proof.
  induction s as [|c s IH]; intros g H.
  - simpl in H. destruct (match_at []) eqn:Hm; [|discriminate].
    vm_compute in Hm. discriminate.
  - destruct (match_at (c :: s)) as [g'|] eqn:Hm.
    + rewrite (search_pct_here _ _ Hm) in H. inversion H; subst g'.
      destruct (match_at_sound _ _ Hm) as (ds & f & ws & post & Hg & Hs & Hp).
      exists [], ds, f, ws, post. simpl.
      repeat split; trivial; try apply Hp. intros. lia.
    + rewrite (search_pct_next c s Hm) in H.
      destruct (IH g H) as (pre & ds & f & ws & post & Hs & Hg & Hp & Hleft).
      exists (c :: pre), ds, f, ws, post.
      split; [simpl; rewrite Hs; reflexivity|].
      split; [exact Hg|]. split; [exact Hp|].
      intros pre' m' post' Hsplit Hm'.
      destruct pre' as [|c' pre''].
      * exfalso. destruct Hm' as (ds' & f' & ws' & -> & Hp').
        simpl in Hsplit. rewrite <- !app_assoc in Hsplit. simpl in Hsplit.
        rewrite Hsplit in Hm.
        rewrite (match_at_complete ds' f' ws' post' Hp') in Hm. discriminate.
      * simpl in Hsplit. inversion Hsplit; subst c'.
        simpl. apply le_n_S. apply (Hleft pre'' m' post'); trivial.
Qed.

Lemma match_at_long_run (ds rest : chars) :
  List.forallb isdigit ds = true -> (3 < List.length ds)%nat ->
  match rest with
  | [] => True
  | c :: _ => isdigit c = false
  end ->
  match_at (ds ++ rest) = None.
Proof.
  intros Hd Hlen Hrest. unfold match_at.
  rewrite (span_run isdigit ds rest Hd Hrest).
  replace ((List.length ds <=? 3)%nat) with false
    by (symmetry; apply Nat.leb_gt; exact Hlen).
  rewrite andb_false_r. reflexivity.
Qed.

Lemma search_pct_long_run (ds : chars) :
  List.forallb isdigit ds = true -> (3 <= List.length ds)%nat ->
  search_pct (ds ++ ["%"]) = Some (skipn (List.length ds - 3) ds).
Proof.
  induction ds as [|d ds IH]; intros Hd Hlen; [simpl in Hlen; lia|].
  simpl in Hd. apply andb_true_iff in Hd. destruct Hd as [Hd0 Hd].
  destruct (Nat.eq_dec (List.length ds) 2) as [H2|Hn2].
  - (* exactly three digits: the pattern matches at once *)
    replace (List.length (d :: ds) - 3)%nat with 0%nat by (simpl; lia).
    simpl skipn. apply search_pct_here.
    pose proof (match_at_complete (d :: ds) [] [] []) as Hm.
    simpl in Hm. rewrite app_nil_r in Hm. apply Hm.
    repeat split; simpl; try lia.
    + rewrite Hd0, Hd. reflexivity.
    + left. reflexivity.
  - (* more than three digits: no match here, go on *)
    assert (Hlen' : (3 <= List.length ds)%nat) by (simpl in Hlen; lia).
    change ((d :: ds) ++ ["%"]) with (d :: (ds ++ ["%"])).
    rewrite search_pct_next.
    + rewrite (IH Hd Hlen').
      replace (List.length (d :: ds) - 3)%nat
        with (S (List.length ds - 3)) by (simpl; lia).
      reflexivity.
    + change (d :: (ds ++ ["%"])) with ((d :: ds) ++ ["%"]).
      apply match_at_long_run.
      * simpl. rewrite Hd0, Hd. reflexivity.
      * simpl. lia.
      * reflexivity.
Qed.

End RegexMore.

(** X15: [extract_percentage] reads the leftmost percentage of the text:
    whenever the search succeeds, the text splits into a prefix, the group
    returned (one to three digits and an optional fraction), optional
    whitespace and a percent sign, and no substring in the language of the
    pattern starts inside the prefix. *)
Theorem percentage_search_leftmost (s g : Re.chars) :
  Re.search_pct s = Some g ->
  exists pre ds f ws post,
    s = (pre ++ ds ++ f ++ ws ++ "%"%char :: post)%list /\
    g = (ds ++ f)%list /\
    Re.pct_parts ds f ws /\
    forall pre' m' post',
      s = (pre' ++ m' ++ post')%list -> Re.pct_match m' ->
      (List.length pre <= List.length pre')%nat.
Proof. apply search_pct_leftmost. Qed.

Lemma percentage_search_leftmost_witness :
  exists pre ds f ws post,
    list_ascii_of_string "in 2011: 74.04 % and 80%" =
      (pre ++ ds ++ f ++ ws ++ "%"%char :: post)%list /\
    list_ascii_of_string "74.04" = (ds ++ f)%list /\
    Re.pct_parts ds f ws /\
    forall pre' m' post',
      list_ascii_of_string "in 2011: 74.04 % and 80%" = (pre' ++ m' ++ post')%list ->
      Re.pct_match m' ->
      (List.length pre <= List.length pre')%nat.
Proof.
  apply (percentage_search_leftmost
           (list_ascii_of_string "in 2011: 74.04 % and 80%")
           (list_ascii_of_string "74.04")).
  vm_compute. reflexivity.
Defined.

(** X16: the pattern takes at most three digits before the fraction, so a
    percentage written with four or more integer digits is read from its
    last three: on a text made of at least three digits and a percent sign,
    [extract_percentage] converts the last three digits only. *)
Theorem percentage_keeps_last_three_digits
    (W : Type) (E : LiteracyAgent.env W) (ds : Re.chars) :
  List.forallb PyStr.isdigit ds = true -> (3 <= List.length ds)%nat ->
  LiteracyAgent.extract_percentage E
    (string_of_list_ascii (ds ++ ["%"%char]))
  = LiteracyAgent.py_float E
      (string_of_list_ascii (skipn (List.length ds - 3) ds)).
Proof.
  intros Hd Hlen. unfold LiteracyAgent.extract_percentage.
  rewrite list_ascii_of_string_of_list_ascii.
  rewrite (search_pct_long_run ds Hd Hlen). reflexivity.
Qed.

Lemma percentage_keeps_last_three_digits_witness :
  LiteracyAgent.extract_percentage Scenario.literacy_online "12345%"
  = Some 345%Q.
Proof.
  change "12345%"%string
    with (string_of_list_ascii (list_ascii_of_string "12345" ++ ["%"%char])).
  rewrite (percentage_keeps_last_three_digits unit Scenario.literacy_online
             (list_ascii_of_string "12345")).
  - vm_compute. reflexivity.
  - reflexivity.
  - simpl. lia.
Defined.

(* ------------------------------------------------------------------ *)
(** ** The two page parsers of the literacy agent *)

Section PageParsers.
Import PyStr Py LiteracyAgent.
Context {W : Type} (E : env W).

Lemma body_items_none_iff (items : list string) :
  body_items E items = None <->
  (forall txt, In txt items ->
     (contains "literacy" (lower txt) || contains "literate" (lower txt)) = true ->
     extract_percentage E txt = None).
Proof.
  induction items as [|txt items IH]; simpl.
  - split; [intros _ txt [] | reflexivity].
  - destruct (contains "literacy" (lower txt) || contains "literate" (lower txt))
      eqn:Hm.
    + destruct (extract_percentage E txt) as [pct|] eqn:Hp.
      * split; [discriminate|]. intro H.
        pose proof (H txt (or_introl eq_refl) Hm) as Hc. congruence.
      * rewrite IH. split.
        -- intros H t [<-|Hin] Ht; [exact Hp | apply (H t Hin Ht)].
        -- intros H t Hin Ht. apply (H t (or_intror Hin) Ht).
    + rewrite IH. split.
      * intros H t [<-|Hin] Ht; [congruence | apply (H t Hin Ht)].
      * intros H t Hin Ht. apply (H t (or_intror Hin) Ht).
Qed.

(** A row that the infobox loop passes over. *)
Lemma infobox_rows_skip (pre rest : list tr) :
  (forall r, In r pre ->
     match th r, td r with
     | Some h, Some _ => mentions_literacy (lower h) = false
     | _, _ => True
     end) ->
  infobox_rows E (pre ++ rest) = infobox_rows E rest.
Proof.
  induction pre as [|r pre IH]; intro H; [reflexivity|].
  simpl. pose proof (H r (or_introl eq_refl)) as Hr.
  assert (IH' : infobox_rows E (pre ++ rest) = infobox_rows E rest).
  { apply IH. intros r' Hin. apply H. right. exact Hin. }
  destruct (th r) as [h|]; [|exact IH'].
  destruct (td r) as [d|]; [|exact IH'].
  rewrite Hr. exact IH'.
Qed.

End PageParsers.

(** X17: [parse_body_for_literacy] goes through the paragraphs and list
    items until one that mentions literacy or literate yields a percentage:
    it returns None exactly when no such item yields one, and a result it
    returns always carries a percentage and the source wikipedia-body. *)
Theorem body_parser_result
    (W : Type) (E : LiteracyAgent.env W) (s : LiteracyAgent.soup) :
  (LiteracyAgent.parse_body_for_literacy E s = None <->
   forall txt,
     In txt (LiteracyAgent.p_li s) ->
     (PyStr.contains "literacy" (PyStr.lower txt)
      || PyStr.contains "literate" (PyStr.lower txt)) = true ->
     LiteracyAgent.extract_percentage E txt = None) /\
  (forall b,
      LiteracyAgent.parse_body_for_literacy E s = Some b ->
      LiteracyAgent.source b = "wikipedia-body"%string /\
      LiteracyAgent.literacy b <> None).
Proof.
  split.
  - apply body_items_none_iff.
  - intros b Hb. apply (body_items_source E (LiteracyAgent.p_li s) b Hb).
Qed.

(** X18: [parse_infobox_for_literacy] commits to the first row of the
    infobox table that has a header cell mentioning literacy or literates
    and a data cell: its result is built from that row's data cell alone,
    even when the cell holds no percentage (literacy None) and a later row
    does; rows before it without both cells or without the mention are
    passed over. *)
Theorem infobox_first_literacy_row
    (W : Type) (E : LiteracyAgent.env W) (s : LiteracyAgent.soup)
    (t : LiteracyAgent.table) (pre post : list LiteracyAgent.tr)
    (r : LiteracyAgent.tr) (h d : string) :
  List.find LiteracyAgent.is_infobox (LiteracyAgent.tables s) = Some t ->
  LiteracyAgent.trs t = pre ++ r :: post ->
  (forall r', In r' pre ->
     match LiteracyAgent.th r', LiteracyAgent.td r' with
     | Some h', Some _ => LiteracyAgent.mentions_literacy (PyStr.lower h') = false
     | _, _ => True
     end) ->
  LiteracyAgent.th r = Some h -> LiteracyAgent.td r = Some d ->
  LiteracyAgent.mentions_literacy (PyStr.lower h) = true ->
  LiteracyAgent.parse_infobox_for_literacy E s =
    Some {| LiteracyAgent.literacy := LiteracyAgent.extract_percentage E d;
            LiteracyAgent.year := LiteracyAgent.year_in_parentheses d;
            LiteracyAgent.source := "wikipedia-infobox";
            LiteracyAgent.raw := d |}.
Proof.
  intros Hfind Hrows Hpre Hth Htd Hm.
  unfold LiteracyAgent.parse_infobox_for_literacy. rewrite Hfind, Hrows.
  rewrite (infobox_rows_skip E pre (r :: post) Hpre).
  cbn [LiteracyAgent.infobox_rows]. rewrite Hth, Htd, Hm. reflexivity.
Qed.

Lemma infobox_first_literacy_row_witness :
  LiteracyAgent.parse_infobox_for_literacy Scenario.literacy_online
    Scenario.chennai_soup
  = Some {| LiteracyAgent.literacy :=
              LiteracyAgent.extract_percentage Scenario.literacy_online
                "90.33 % (2011)";
            LiteracyAgent.year :=
              LiteracyAgent.year_in_parentheses "90.33 % (2011)";
            LiteracyAgent.source := "wikipedia-infobox";
            LiteracyAgent.raw := "90.33 % (2011)" |}.
Proof.
  apply (infobox_first_literacy_row unit Scenario.literacy_online
           Scenario.chennai_soup
           {| LiteracyAgent.class_ := Some ["infobox"; "vcard"]%string;
              LiteracyAgent.trs :=
                [ {| LiteracyAgent.th := Some "Country"%string;
                     LiteracyAgent.td := Some "India"%string |};
                  {| LiteracyAgent.th := Some "Literacy (2011)"%string;
                     LiteracyAgent.td := Some "90.33 % (2011)"%string |} ] |}
           [ {| LiteracyAgent.th := Some "Country"%string;
                LiteracyAgent.td := Some "India"%string |} ]
           []
           {| LiteracyAgent.th := Some "Literacy (2011)"%string;
              LiteracyAgent.td := Some "90.33 % (2011)"%string |}
           "Literacy (2011)"%string "90.33 % (2011)"%string).
  - vm_compute. reflexivity.
  - reflexivity.
  - intros r' [<-|[]]. vm_compute. reflexivity.
  - reflexivity.
  - reflexivity.
  - vm_compute. reflexivity.
Defined.

(** X19: one call of [get_literacy_for_place] sends the search request for
    the place and then at most one page request, for the title of the first
    search hit; this holds whether the call returns or raises. *)
Theorem literacy_request_order
    (W : Type) (E : LiteracyAgent.env W) (place : string)
    (st : LiteracyAgent.state W) :
  let st' := fst (LiteracyAgent.get_literacy_for_place E place st) in
  LiteracyAgent.trace st' =
    LiteracyAgent.trace st ++ [LiteracyAgent.SearchRequest place] \/
  exists w1 hit rest t,
    LiteracyAgent.search_reply E place (LiteracyAgent.world st)
      = (w1, Py.Ok (hit :: rest)) /\
    LiteracyAgent.title hit = Some t /\
    LiteracyAgent.trace st' =
      LiteracyAgent.trace st ++
      [LiteracyAgent.SearchRequest place; LiteracyAgent.PageRequest t].
Proof.
  cbv zeta.
  unfold LiteracyAgent.get_literacy_for_place, LiteracyAgent.wiki_search,
    LiteracyAgent.fetch_wiki_html, LiteracyAgent.request.
  unfold Py.bind, Py.attempt, Py.ret, Py.raise.
  cbv beta.
  destruct (LiteracyAgent.search_reply E place (LiteracyAgent.world st))
    as [w1 [[|hit rest]|e]] eqn:Hs.
  - left. reflexivity.
  - cbv beta iota zeta.
    destruct (LiteracyAgent.title hit) as [t|] eqn:Ht.
    + right. exists w1, hit, rest, t.
      split; [reflexivity|]. split; [exact Ht|].
      cbv beta iota zeta delta [LiteracyAgent.world LiteracyAgent.trace].
      destruct (LiteracyAgent.page_reply E t w1) as [w2 [[code html]|e]].
      * destruct (negb (code =? 200)); [|destruct html];
          cbv beta iota zeta delta [fst LiteracyAgent.trace];
          rewrite <- app_assoc; reflexivity.
      * cbv beta iota zeta delta [fst LiteracyAgent.trace].
        rewrite <- app_assoc. reflexivity.
    + left. reflexivity.
  - left. reflexivity.
Qed.


(* ------------------------------------------------------------------ *)
(** ** The risk components of generate_enhanced_data.py *)

Section EnhancedRiskScores.
Import EnhancedRisk.
Local Open Scope Q_scope.

Lemma clamp_max_min (x : Q) : unit_interval (Qmax 0 (Qmin 1 x)).
Proof.
  split.
  - apply Q.le_max_l.
  - apply Q.max_lub; [discriminate | apply Q.le_min_l].
Qed.

Lemma clamp_min_max (x : Q) : unit_interval (Qmin 1 (Qmax 0 x)).
Proof.
  split.
  - apply Q.min_glb; [discriminate | apply Q.le_max_l].
  - apply Q.le_min_l.
Qed.

Lemma Qdiv_nonneg (x c : Q) : 0 <= x -> 0 < c -> 0 <= x / c.
Proof.
  intros Hx Hc. apply Qle_shift_div_l; [exact Hc|].
  rewrite Qmult_0_l. exact Hx.
Qed.

Lemma Qdiv_le_1 (x c : Q) : x <= c -> 0 < c -> x / c <= 1.
Proof.
  intros Hx Hc. apply Qle_shift_div_r; [exact Hc|].
  rewrite Qmult_1_l. exact Hx.
Qed.

Lemma inject_Z_nonneg (z : Z) : (0 <= z)%Z -> 0 <= inject_Z z.
Proof. intro H. change 0 with (inject_Z 0). rewrite <- Zle_Qle. exact H. Qed.

(** [max(0, (c - x) / c)] for [0 <= x], [0 < c]. *)
Lemma shortfall_unit (x c : Q) :
  0 <= x -> 0 < c -> unit_interval (Qmax 0 ((c - x) / c)).
Proof.
  intros Hx Hc. split.
  - apply Q.le_max_l.
  - apply Q.max_lub; [discriminate|].
    apply Qdiv_le_1; [lra | exact Hc].
Qed.

(** [min(1, x / c)] for [0 <= x], [0 < c]. *)
Lemma share_unit (x c : Q) :
  0 <= x -> 0 < c -> unit_interval (Qmin 1 (x / c)).
Proof.
  intros Hx Hc. split.
  - apply Q.min_glb; [discriminate | apply Qdiv_nonneg; assumption].
  - apply Q.le_min_l.
Qed.

Lemma mean4_unit (a b c d : Q) :
  unit_interval a -> unit_interval b -> unit_interval c -> unit_interval d ->
  unit_interval ((a + b + c + d) / 4).
Proof.
  unfold unit_interval. intros [? ?] [? ?] [? ?] [? ?].
  split; [apply Qle_shift_div_l | apply Qle_shift_div_r];
    try reflexivity; lra.
Qed.

Lemma mean3_unit (a b c : Q) :
  unit_interval a -> unit_interval b -> unit_interval c ->
  unit_interval ((a + b + c) / 3).
Proof.
  unfold unit_interval. intros [? ?] [? ?] [? ?].
  split; [apply Qle_shift_div_l | apply Qle_shift_div_r];
    try reflexivity; lra.
Qed.

Lemma mean2_unit (a b : Q) :
  unit_interval a -> unit_interval b -> unit_interval ((a + b) / 2).
Proof.
  unfold unit_interval. intros [? ?] [? ?].
  split; [apply Qle_shift_div_l | apply Qle_shift_div_r];
    try reflexivity; lra.
Qed.

Ltac unit_const := split; discriminate.

Lemma demographic_risk_unit (age income : Z) (education : string)
      (family_size : Z) :
  unit_interval (calculate_demographic_risk age income education family_size).
Proof.
  unfold calculate_demographic_risk. cbv zeta.
  apply mean4_unit.
  - destruct (_ && _)%bool; [|destruct (_ || _)%bool]; unit_const.
  - apply clamp_max_min.
  - repeat match goal with
           | |- context [String.eqb ?a ?b] => destruct (String.eqb a b)
           end; unit_const.
  - apply clamp_min_max.
Qed.

Lemma financial_risk_unit (credit_months existing_loans : Z)
      (has_savings : bool) (income expenses : Z) :
  (0 <= credit_months)%Z -> (0 <= existing_loans)%Z -> income <> 0%Z ->
  exists q,
    calculate_financial_risk credit_months existing_loans has_savings
                             income expenses = Py.Ok q /\
    unit_interval q.
Proof.
  intros Hm Hl Hi. unfold calculate_financial_risk. cbv zeta.
  destruct (income =? 0)%Z eqn:E; [apply Z.eqb_eq in E; contradiction|].
  eexists. split; [reflexivity|].
  apply mean4_unit.
  - destruct (credit_months <? 24)%Z eqn:Hlt; [|unit_const].
    split; [apply Q.le_max_l|].
    apply Q.max_lub; [discriminate|].
    apply Qdiv_le_1; [|reflexivity].
    change 24 with (inject_Z 24). rewrite <- Zle_Qle. lia.
  - apply share_unit; [apply inject_Z_nonneg; exact Hl | reflexivity].
  - destruct has_savings; unit_const.
  - apply clamp_max_min.
Qed.

Lemma asset_risk_unit (owns_land : bool) (land_size : Q)
      (owns_livestock : bool) (livestock_count : Z) :
  0 <= land_size -> (0 <= livestock_count)%Z ->
  unit_interval
    (calculate_asset_risk owns_land land_size owns_livestock livestock_count).
Proof.
  intros Hl Hc. unfold calculate_asset_risk. cbv zeta.
  apply mean2_unit.
  - destruct owns_land; [|unit_const].
    apply shortfall_unit; [exact Hl | reflexivity].
  - destruct owns_livestock; [|unit_const].
    split; [apply Q.le_max_l|].
    apply Q.max_lub; [discriminate|].
    apply Qdiv_le_1; [|reflexivity].
    change 5 with (inject_Z 5). rewrite <- Zle_Qle. lia.
Qed.

Lemma geographic_risk_unit (bank_distance market_distance : Q)
      (road_score : Z) (has_electricity : bool) :
  0 <= bank_distance -> 0 <= market_distance ->
  (1 <= road_score <= 5)%Z ->
  unit_interval
    (calculate_geographic_risk bank_distance market_distance road_score
                               has_electricity).
Proof.
  intros Hb Hm Hr. unfold calculate_geographic_risk. cbv zeta.
  apply mean4_unit.
  - apply share_unit; [exact Hb | reflexivity].
  - apply share_unit; [exact Hm | reflexivity].
  - split.
    + apply Qdiv_nonneg; [|reflexivity]. apply inject_Z_nonneg. lia.
    + apply Qdiv_le_1; [|reflexivity].
      change 4 with (inject_Z 4). rewrite <- Zle_Qle. lia.
  - destruct has_electricity; unit_const.
Qed.

Lemma social_risk_unit (shg_member govt_beneficiary mobile_phone : bool) :
  unit_interval
    (calculate_social_risk shg_member govt_beneficiary mobile_phone).
Proof.
  unfold calculate_social_risk. cbv zeta.
  apply mean3_unit.
  - destruct shg_member; unit_const.
  - destruct govt_beneficiary; unit_const.
  - destruct mobile_phone; unit_const.
Qed.

Lemma weighted_overall_unit (a b c d e : Q) :
  unit_interval a -> unit_interval b -> unit_interval c ->
  unit_interval d -> unit_interval e ->
  unit_interval (a * 0.20 + b * 0.30 + c * 0.20 + d * 0.20 + e * 0.10).
Proof.
  unfold unit_interval. intros [? ?] [? ?] [? ?] [? ?] [? ?].
  split; lra.
Qed.

End EnhancedRiskScores.

(** X20: for draws in the ranges the generator uses (a positive income,
    non-negative months, loans, land size, livestock count and distances,
    a road score between 1 and 5) the score part of the borrower loop
    raises no exception, and the demographic, financial, asset, geographic
    and social risks and the weighted overall risk all lie in [0, 1]. *)
Theorem enhanced_risks_in_unit_interval (d : EnhancedRisk.draws) :
  EnhancedRisk.draws_ok d ->
  exists r,
    EnhancedRisk.borrower_risks d = Py.Ok r /\
    EnhancedRisk.unit_interval (EnhancedRisk.demographic_risk r) /\
    EnhancedRisk.unit_interval (EnhancedRisk.financial_risk r) /\
    EnhancedRisk.unit_interval (EnhancedRisk.asset_risk r) /\
    EnhancedRisk.unit_interval (EnhancedRisk.geographic_risk r) /\
    EnhancedRisk.unit_interval (EnhancedRisk.social_risk r) /\
    EnhancedRisk.unit_interval (EnhancedRisk.overall_risk r).
Proof.
  intros (Hi & Hm & Hl & Hland & Hstock & Hb & Hmk & Hroad).
  unfold EnhancedRisk.borrower_risks. cbv zeta.
  destruct (financial_risk_unit
              (EnhancedRisk.credit_history_months d)
              (EnhancedRisk.existing_loans d)
              (EnhancedRisk.has_savings_account d)
              (EnhancedRisk.income d)
              (EnhancedRisk.monthly_expenses d) Hm Hl)
    as (fin & -> & Hfin); [lia|].
  pose proof (demographic_risk_unit
                (EnhancedRisk.age d) (EnhancedRisk.income d)
                (EnhancedRisk.education d) (EnhancedRisk.family_size d))
    as Hdemo.
  pose proof (asset_risk_unit
                (EnhancedRisk.owns_land d) (EnhancedRisk.land_size_acres d)
                (EnhancedRisk.owns_livestock d)
                (EnhancedRisk.livestock_count d) Hland Hstock) as Hasset.
  pose proof (geographic_risk_unit
                (EnhancedRisk.distance_to_bank d)
                (EnhancedRisk.distance_to_market d)
                (EnhancedRisk.road_connectivity d)
                (EnhancedRisk.electricity_access d) Hb Hmk Hroad) as Hgeo.
  pose proof (social_risk_unit
                (EnhancedRisk.group_membership d)
                (EnhancedRisk.government_scheme_beneficiary d)
                (EnhancedRisk.mobile_phone_ownership d)) as Hsoc.
  eexists. split; [reflexivity|].
  cbn [EnhancedRisk.demographic_risk EnhancedRisk.financial_risk
       EnhancedRisk.asset_risk EnhancedRisk.geographic_risk
       EnhancedRisk.social_risk EnhancedRisk.overall_risk].
  repeat (split; [assumption|]).
  apply weighted_overall_unit; assumption.
Qed.

Lemma enhanced_risks_in_unit_interval_witness :
  exists r,
    EnhancedRisk.borrower_risks EnhancedRisk.sample_draws = Py.Ok r /\
    EnhancedRisk.unit_interval (EnhancedRisk.demographic_risk r) /\
    EnhancedRisk.unit_interval (EnhancedRisk.financial_risk r) /\
    EnhancedRisk.unit_interval (EnhancedRisk.asset_risk r) /\
    EnhancedRisk.unit_interval (EnhancedRisk.geographic_risk r) /\
    EnhancedRisk.unit_interval (EnhancedRisk.social_risk r) /\
    EnhancedRisk.unit_interval (EnhancedRisk.overall_risk r).
Proof.
  apply (enhanced_risks_in_unit_interval EnhancedRisk.sample_draws).
  unfold EnhancedRisk.draws_ok, EnhancedRisk.sample_draws.
  cbn [EnhancedRisk.income EnhancedRisk.credit_history_months
       EnhancedRisk.existing_loans EnhancedRisk.land_size_acres
       EnhancedRisk.livestock_count EnhancedRisk.distance_to_bank
       EnhancedRisk.distance_to_market EnhancedRisk.road_connectivity].
  repeat split; try lia; discriminate.
Defined.

(* ------------------------------------------------------------------ *)
(** ** The loan amount *)

Section LoanAmount.
Import EnhancedRisk.

Lemma int_of_float_mono (p q : Q) :
  (p <= q)%Q -> int_of_float p <= int_of_float q.
Proof.
  destruct p as [a b], q as [c d]. unfold Qle, int_of_float.
  cbn [Qnum Qden]. intro H.
  rewrite <- (Z.quot_mul_cancel_r a (Z.pos b) (Z.pos d)) by lia.
  rewrite <- (Z.quot_mul_cancel_r c (Z.pos d) (Z.pos b)) by lia.
  rewrite (Z.mul_comm (Z.pos d) (Z.pos b)).
  apply Z.quot_le_mono; lia.
Qed.

(** The factor applied to the base amount. *)
Lemma collateral_factor_pos (owns_land owns_livestock : bool) (x y : Q) :
  (x <= y)%Q ->
  ((if owns_livestock
    then (if owns_land then x * 1.3 else x) * 1.1
    else (if owns_land then x * 1.3 else x)) <=
   (if owns_livestock
    then (if owns_land then y * 1.3 else y) * 1.1
    else (if owns_land then y * 1.3 else y)))%Q.
Proof.
  intro H. destruct owns_land, owns_livestock; lra.
Qed.

End LoanAmount.

(** X21: [generate_loan_amount] always returns an amount between 5000 and
    500000, and for a non-negative income (and the drawn number of months
    non-negative) a higher risk score never gives a larger amount. *)
Theorem loan_amount_capped_and_antitone
    (months : Q) (income : Z) (r1 r2 : Q) (owns_land owns_livestock : bool) :
  0 <= income -> (0 <= months)%Q -> (r1 <= r2)%Q ->
  5000 <= EnhancedRisk.generate_loan_amount months income r1
            owns_land owns_livestock <= 500000 /\
  EnhancedRisk.generate_loan_amount months income r2 owns_land owns_livestock
    <= EnhancedRisk.generate_loan_amount months income r1
         owns_land owns_livestock.
Proof.
  intros Hi Hm Hr. unfold EnhancedRisk.generate_loan_amount. cbv zeta.
  split; [lia|].
  apply Z.max_le_compat_l. apply Z.min_le_compat_l.
  apply int_of_float_mono.
  assert (Hb : (0 <= inject_Z income * months)%Q).
  { apply Qmult_le_0_compat; [apply inject_Z_nonneg; exact Hi | exact Hm]. }
  set (base := (inject_Z income * months)%Q) in *. clearbody base.
  pose proof (collateral_factor_pos owns_land owns_livestock
                (1.5 - r2)%Q (1.5 - r1)%Q) as Hf.
  assert (Hx : (1.5 - r2 <= 1.5 - r1)%Q) by lra.
  specialize (Hf Hx).
  rewrite (Qmult_comm base), (Qmult_comm base).
  apply Qmult_le_compat_r; assumption.
Qed.

Lemma loan_amount_capped_and_antitone_witness :
  5000 <= EnhancedRisk.generate_loan_amount 5 20000 (1 # 4) true false
    <= 500000 /\
  EnhancedRisk.generate_loan_amount 5 20000 (3 # 4) true false
    <= EnhancedRisk.generate_loan_amount 5 20000 (1 # 4) true false.
Proof.
  apply (loan_amount_capped_and_antitone 5 20000 (1 # 4) (3 # 4) true false).
  - lia.
  - discriminate.
  - discriminate.
Defined.

(** X22: for a risk score of at most 1.5 (every overall risk is at most 1),
    a non-negative income and a non-negative number of months, owning land
    or livestock never lowers the amount of [generate_loan_amount]. *)
Theorem loan_amount_collateral_never_lowers
    (months : Q) (income : Z) (risk : Q) (owns_land owns_livestock : bool) :
  0 <= income -> (0 <= months)%Q -> (risk <= 1.5)%Q ->
  EnhancedRisk.generate_loan_amount months income risk false false
    <= EnhancedRisk.generate_loan_amount months income risk
         owns_land owns_livestock.
Proof.
  intros Hi Hm Hr. unfold EnhancedRisk.generate_loan_amount. cbv zeta.
  apply Z.max_le_compat_l. apply Z.min_le_compat_l.
  apply int_of_float_mono.
  assert (Hb : (0 <= inject_Z income * months)%Q).
  { apply Qmult_le_0_compat; [apply inject_Z_nonneg; exact Hi | exact Hm]. }
  set (base := (inject_Z income * months)%Q) in *. clearbody base.
  rewrite (Qmult_comm base), (Qmult_comm base).
  apply Qmult_le_compat_r; [|exact Hb].
  destruct owns_land, owns_livestock; lra.
Qed.

Lemma loan_amount_collateral_never_lowers_witness :
  EnhancedRisk.generate_loan_amount 5 20000 (1 # 4) false false
    <= EnhancedRisk.generate_loan_amount 5 20000 (1 # 4) true true.
Proof.
  apply (loan_amount_collateral_never_lowers 5 20000 (1 # 4) true true).
  - lia.
  - discriminate.
  - discriminate.
Defined.
